(** * Executable model objects of robot.running.model

    A shallow embedding of [src/robot/running/model.py]: the body items
    (Keyword, For, While, If, Try, Var, Return, Continue, Break, Error), the
    containers (TestCase, UserKeyword, ResourceFile, Variable, Import), their
    [to_dict]/[from_dict] serialisation, the [run] methods that the module
    implements itself, and the derived attributes [source], [name],
    [has_setup]/[has_teardown].

    A Python [str] is kept as the [string] of its UTF-8 bytes; [str.upper()]
    and [str.lower()] follow the Unicode case mapping and are an interface
    ([CaseMapping]), known on ASCII text only.  [int|None] attributes are
    [option Z], [str|None] attributes are [option string], sequences of
    strings are [list string]. *)

From Stdlib Require Import String Ascii List ZArith Bool Lia.
Import ListNotations.
Open Scope string_scope.
Set Warnings "-register-all".

(** ** Python values: truthiness and case mapping *)

(** [bool(x)] for the attribute types the module tests with [if x:]. *)
Class Truthy (A : Type) := truthy : A -> bool.

#[global] Instance Truthy_str : Truthy string :=
  fun s => negb (s =? "").
#[global] Instance Truthy_int : Truthy Z :=
  fun z => negb (z =? 0)%Z.
#[global] Instance Truthy_seq {A} : Truthy (list A) :=
  fun l => match l with [] => false | _ :: _ => true end.
#[global] Instance Truthy_option {A} `{Truthy A} : Truthy (option A) :=
  fun o => match o with None => false | Some a => truthy a end.

Definition upper_ascii (c : ascii) : ascii :=
  let n := nat_of_ascii c in
  if ((97 <=? n) && (n <=? 122))%nat then ascii_of_nat (n - 32) else c.

Definition lower_ascii (c : ascii) : ascii :=
  let n := nat_of_ascii c in
  if ((65 <=? n) && (n <=? 90))%nat then ascii_of_nat (n + 32) else c.

Fixpoint str_map (f : ascii -> ascii) (s : string) : string :=
  match s with
  | EmptyString => EmptyString
  | String c s' => String (f c) (str_map f s')
  end.

(** The case mapping of the ASCII letters, byte by byte. *)
Definition ascii_upper (s : string) : string := str_map upper_ascii s.
Definition ascii_lower (s : string) : string := str_map lower_ascii s.

(** [str.isascii()]: every byte is below 128. *)
Fixpoint isascii (s : string) : bool :=
  match s with
  | EmptyString => true
  | String c s' => (nat_of_ascii c <? 128)%nat && isascii s'
  end.

(** [str.upper()] and [str.lower()].  Python maps every cased code point,
    not only the ASCII letters: a letter outside ASCII can map onto an ASCII
    one ('\u017f'.upper() is 'S', '\u0131'.upper() is 'I') or onto several
    characters, and [s.upper().lower()] need not be [s.lower()].  The
    Unicode tables are outside this module, so the two methods are an
    interface; what is fixed is their result on ASCII text. *)
Class CaseMapping := {
  upper : string -> string;
  lower : string -> string;
  upper_isascii : forall s, isascii s = true -> upper s = ascii_upper s;
  lower_isascii : forall s, isascii s = true -> lower s = ascii_lower s
}.
Arguments upper {case} s : rename.
Arguments lower {case} s : rename.

(** [x in (a, b, ...)] on strings. *)
Definition str_in (s : string) (l : list string) : bool :=
  existsb (String.eqb s) l.

(** ** Exceptions of robot.errors raised by this module *)

Inductive exception : Type :=
| DataError (message : string) (syntax : bool)
| VariableError (message : string)
| ReturnFromKeyword (values : list string)
| ContinueLoop
| BreakLoop
| AttributeError (name : string).

(** [str(err)] of a caught exception, as used in f-strings. *)
Definition exc_message (e : exception) : string :=
  match e with
  | DataError m _ => m
  | VariableError m => m
  | ReturnFromKeyword _ => ""
  | ContinueLoop => ""
  | BreakLoop => ""
  | AttributeError name => name
  end.

(** The string held by a [str|None] attribute that was found truthy. *)
Definition the_str (attribute : option string) : string :=
  match attribute with Some s => s | None => "" end.

(** Result of a call that either returns or raises. *)
Definition result (A : Type) : Type := (exception + A)%type.
Definition Return_ {A} (a : A) : result A := inr a.
Definition Raise {A} (e : exception) : result A := inl e.

(** ** The variable store seen through [context.variables]

    robot.variables is not part of this module; the module only calls
    [replace_string], the four scope setters, and hands the store to a
    [VariableResolver].  The store is therefore an interface. *)

Class VariableScopes (V : Type) := {
  (** resolved value of a VAR item, opaque to this module *)
  resolved : Type;
  (** [variables.replace_string(s)]: the substituted string, or a DataError
      with the given message *)
  replace_string : V -> string -> string + string;
  (** [variables.set_local(name, value)] and its siblings: the updated
      store, or a DataError with the given message *)
  set_local : V -> string -> resolved -> string + V;
  set_test : V -> string -> resolved -> string + V;
  set_suite : V -> string -> resolved -> string + V;
  set_global : V -> string -> resolved -> string + V;
  (** [VariableResolver.from_variable(var).resolve(variables)] for a VAR
      with the given name, value and separator *)
  resolve : string -> list string -> option string -> V -> string + resolved
}.

(** ** Body items: attributes as the constructors store them *)

(** [Var.__init__]; [value] is kept as the tuple the base class stores. *)
Record Var := mkVar {
  var_name : string;
  var_value : list string;
  var_scope : option string;
  var_separator : option string;
  var_lineno : option Z;
  var_error : option string
}.

Section Scope.
Context {V : Type} `{VariableScopes V} {case : CaseMapping}.

Definition invalid_scope_message (scope : string) : string :=
  "Value '" ++ scope ++ "' is not accepted. Valid values are " ++
  "'GLOBAL', 'SUITE', 'TEST', 'TASK' and 'LOCAL'.".

(** [Var._get_scope].  The body of the [try] either returns, or raises a
    DataError (its own or the one of [replace_string]); the handler
    re-raises it with the "Invalid VAR scope" prefix. *)
Definition _get_scope (self : Var) (variables : V) : result string :=
  if negb (truthy (var_scope self)) then Return_ "local"
  else
    let tried : string + string :=
      match replace_string variables (the_str (var_scope self)) with
      | inl err => inl err
      | inr scope =>
        if upper scope =? "TASK" then inr "test"
        else if str_in (upper scope) ["GLOBAL"; "SUITE"; "TEST"; "LOCAL"]
             then inr (lower scope)
             else inl (invalid_scope_message scope)
      end in
    match tried with
    | inr name => Return_ name
    | inl err => Raise (DataError ("Invalid VAR scope: " ++ err) false)
    end.

(** The rule of the specification, in its words: the four stores, the
    case-insensitive comparison and the TASK alias. *)
Inductive store_name := LOCAL | TEST | SUITE | GLOBAL.

Definition setter_suffix (s : store_name) : string :=
  match s with
  | LOCAL => "local" | TEST => "test" | SUITE => "suite" | GLOBAL => "global"
  end.

Definition same_ignoring_case (a b : string) : bool := lower a =? lower b.

Definition spec_resolve_scope (scope : option string) (variables : V)
  : result store_name :=
  match scope with
  | None => Return_ LOCAL
  | Some "" => Return_ LOCAL
  | Some token =>
    match replace_string variables token with
    | inl err => Raise (DataError ("Invalid VAR scope: " ++ err) false)
    | inr value =>
      if same_ignoring_case value "GLOBAL" then Return_ GLOBAL
      else if same_ignoring_case value "SUITE" then Return_ SUITE
      else if same_ignoring_case value "TEST" then Return_ TEST
      else if same_ignoring_case value "TASK" then Return_ TEST
      else if same_ignoring_case value "LOCAL" then Return_ LOCAL
      else Raise (DataError
             ("Invalid VAR scope: Value '" ++ value ++ "' is not accepted. "
              ++ "Valid values are 'GLOBAL', 'SUITE', 'TEST', 'TASK' and 'LOCAL'.")
             false)
    end
  end.
End Scope.

(** ** DataDict: the generic record of [to_dict] and [from_dict]

    A [DataDict] maps attribute names to JSON-like values.  Python dicts keep
    insertion order and have unique keys; [data[k] = v] replaces the value of
    an existing key in place and appends a new key. *)

Inductive value : Type :=
| VNone
| VInt (z : Z)
| VStr (s : string)
| VList (items : list value)
| VDict (entries : list (string * value)).

Definition DataDict : Type := list (string * value).

(** [data.get(k)] *)
Fixpoint dict_get (k : string) (data : DataDict) : option value :=
  match data with
  | [] => None
  | (k', v) :: rest => if k =? k' then Some v else dict_get k rest
  end.

(** [k in data] *)
Definition dict_has (k : string) (data : DataDict) : bool :=
  match dict_get k data with Some _ => true | None => false end.

(** [data[k] = v] *)
Fixpoint dict_set (k : string) (v : value) (data : DataDict) : DataDict :=
  match data with
  | [] => [(k, v)]
  | (k', v') :: rest =>
    if k =? k' then (k, v) :: rest else (k', v') :: dict_set k v rest
  end.

(** the dict left by [data.pop(k)] *)
Fixpoint dict_del (k : string) (data : DataDict) : DataDict :=
  match data with
  | [] => []
  | (k', v') :: rest =>
    if k =? k' then dict_del k rest else (k', v') :: dict_del k rest
  end.

Definition dict_keys (data : DataDict) : list string := map fst data.

(** [if old in data: data[new] = data.pop(old)].  Python changes the dict
    of the caller in place: this is also the dict the caller holds after
    the call. *)
Definition rename_key (old new : string) (data : DataDict) : DataDict :=
  match dict_get old data with
  | Some v => dict_set new v (dict_del old data)
  | None => data
  end.

(** Python's [==] on dicts does not look at the order of the keys. *)
Definition dict_equiv (d1 d2 : DataDict) : Prop :=
  forall k, dict_get k d1 = dict_get k d2.

(** Values of the attribute types. *)
Definition str_value (s : string) : value := VStr s.
Definition int_value (z : Z) : value := VInt z.
Definition seq_value (l : list string) : value := VList (map VStr l).
Definition opt_value {A} (enc : A -> value) (o : option A) : value :=
  match o with Some a => enc a | None => VNone end.
(** [body.to_dicts()] as a value *)
Definition dicts_value (ds : list DataDict) : value := VList (map VDict ds).

Definition bind {A B} (o : option A) (f : A -> option B) : option B :=
  match o with Some a => f a | None => None end.

Notation "x <- e ;; k" := (bind e (fun x => k))
  (at level 61, e at next level, right associativity).

Fixpoint traverse {A B} (f : A -> option B) (l : list A) : option (list B) :=
  match l with
  | [] => Some []
  | a :: l' => b <- f a ;; bs <- traverse f l' ;; Some (b :: bs)
  end.

Definition as_str (v : value) : option string :=
  match v with VStr s => Some s | _ => None end.
Definition as_int (v : value) : option Z :=
  match v with VInt z => Some z | _ => None end.
Definition as_seq (v : value) : option (list string) :=
  match v with VList l => traverse as_str l | _ => None end.
Definition as_opt {A} (dec : value -> option A) (v : value) : option (option A) :=
  match v with VNone => Some None | _ => a <- dec v ;; Some (Some a) end.
Definition as_dict (v : value) : option DataDict :=
  match v with VDict d => Some d | _ => None end.
Definition as_dicts (v : value) : option (list DataDict) :=
  match v with VList l => traverse as_dict l | _ => None end.

(** ** Attributes of the body items ([__init__] of each class)

    [parent] is a back-reference to the owner; the tree below keeps the
    ownership (a body inside its item), the links are embedded separately
    where [source] is derived. *)

(** [Keyword.__init__].  [type] is a string in the source; the values this
    module gives it are [BodyItem.KEYWORD], [Keyword.SETUP] and
    [Keyword.TEARDOWN]. *)
Inductive keyword_type := KEYWORD | SETUP | TEARDOWN.

Record Keyword := mkKeyword {
  kw_name : string;
  kw_args : list string;
  kw_assign : list string;
  kw_type : keyword_type;
  kw_lineno : option Z
}.

(** [For.__init__]; [flavor] is one of the four literals of its annotation. *)
Inductive for_flavor := IN | IN_RANGE | IN_ENUMERATE | IN_ZIP.

Record For := mkFor {
  for_assign : list string;
  for_flavor_ : for_flavor;
  for_values : list string;
  for_start : option string;
  for_mode : option string;
  for_fill : option string;
  for_lineno : option Z;
  for_error : option string
}.

(** [While.__init__] *)
Record While := mkWhile {
  while_condition : option string;
  while_limit : option string;
  while_on_limit : option string;
  while_on_limit_message : option string;
  while_lineno : option Z;
  while_error : option string
}.

(** [IfBranch.__init__]; the types of a branch are those of section 3. *)
Inductive if_branch_type := IF | ELSE_IF | ELSE.

Record IfBranch := mkIfBranch {
  ifb_type : if_branch_type;
  ifb_condition : option string;
  ifb_lineno : option Z
}.

(** [If.__init__] *)
Record If := mkIf {
  if_lineno : option Z;
  if_error : option string
}.

(** [TryBranch.__init__]; the types of a branch are those of section 3. *)
Inductive try_branch_type := TRY | EXCEPT | TRY_ELSE | FINALLY.

Record TryBranch := mkTryBranch {
  tryb_type : try_branch_type;
  tryb_patterns : list string;
  tryb_pattern_type : option string;
  tryb_assign : option string;
  tryb_lineno : option Z
}.

(** [Try.__init__] *)
Record Try := mkTry {
  try_lineno : option Z;
  try_error : option string
}.

(** [Return.__init__], [Continue.__init__], [Break.__init__] *)
Record Return := mkReturn {
  ret_values : list string;
  ret_lineno : option Z;
  ret_error : option string
}.

Record Continue := mkContinue {
  cont_lineno : option Z;
  cont_error : option string
}.

Record Break := mkBreak {
  break_lineno : option Z;
  break_error : option string
}.

(** [Error.__init__]; [error] is a plain [str], '' by default. *)
Record Error := mkError {
  err_values : list string;
  err_lineno : option Z;
  err_error : string
}.

(** A body item with what it owns: [Body] is the ordered list of items. *)
Inductive BodyItem : Type :=
| KeywordItem (k : Keyword)
| ForItem (f : For) (body : list BodyItem)
| WhileItem (w : While) (body : list BodyItem)
| IfItem (i : If) (branches : list (IfBranch * list BodyItem))
| TryItem (t : Try) (branches : list (TryBranch * list BodyItem))
| VarItem (v : Var)
| ReturnItem (r : Return)
| ContinueItem (c : Continue)
| BreakItem (b : Break)
| ErrorItem (e : Error).

Definition Body : Type := list BodyItem.

(** ** Serialisation: [to_dict]

    Every [to_dict] of this module starts from [super().to_dict()], defined in
    robot.model, and adds the attributes its own class introduces. *)

(** Names of the enumerated attribute values. *)
Definition keyword_type_name (t : keyword_type) : string :=
  match t with KEYWORD => "KEYWORD" | SETUP => "SETUP" | TEARDOWN => "TEARDOWN" end.
Definition flavor_name (f : for_flavor) : string :=
  match f with
  | IN => "IN" | IN_RANGE => "IN RANGE"
  | IN_ENUMERATE => "IN ENUMERATE" | IN_ZIP => "IN ZIP"
  end.
Definition if_branch_type_name (t : if_branch_type) : string :=
  match t with IF => "IF" | ELSE_IF => "ELSE IF" | ELSE => "ELSE" end.
Definition try_branch_type_name (t : try_branch_type) : string :=
  match t with
  | TRY => "TRY" | EXCEPT => "EXCEPT" | TRY_ELSE => "ELSE" | FINALLY => "FINALLY"
  end.

(** Modelled from the spec: the [to_dict] of the robot.model base classes is
    outside this module.  Section 6: "a canonical record-producing operation
    (name -> value map, omitting defaults)"; section 3 lists the attributes
    of each variant.  A key is written unless its attribute has the value
    the constructor gives it by default; the tag of the variant and the
    body are always written, as [UserKeyword.to_dict] of this module writes
    the name and the body. *)
Definition omit_default {A} (is_default : A -> bool) (enc : A -> value)
    (k : string) (a : A) (data : DataDict) : DataDict :=
  if is_default a then data else dict_set k (enc a) data.

Definition put_str (default : string) := omit_default (String.eqb default) str_value.
Definition put_seq :=
  omit_default (fun l : list string => negb (truthy l)) seq_value.
Definition put_opt_str :=
  omit_default (fun o : option string => match o with None => true | _ => false end)
               (opt_value str_value).

(** Modelled from the spec: the tag under which each variant is recorded
    (constants of robot.model.BodyItem, outside this module). *)
Definition FOR_ : string := "FOR".
Definition WHILE_ : string := "WHILE".
Definition IF_ELSE_ROOT : string := "IF/ELSE ROOT".
Definition TRY_EXCEPT_ROOT : string := "TRY/EXCEPT ROOT".
Definition VAR_ : string := "VAR".
Definition RETURN_ : string := "RETURN".
Definition CONTINUE_ : string := "CONTINUE".
Definition BREAK_ : string := "BREAK".
Definition ERROR_ : string := "ERROR".

(** Modelled from the spec: robot.model.Keyword.to_dict (outside this module). *)
Definition model_Keyword_to_dict (self : Keyword) : DataDict :=
  let data := [] in
  let data := put_str "" "name" (kw_name self) data in
  let data := put_seq "args" (kw_args self) data in
  let data := put_seq "assign" (kw_assign self) data in
  let data := omit_default (fun t => match t with KEYWORD => true | _ => false end)
                (fun t => str_value (keyword_type_name t)) "type" (kw_type self) data in
  data.

(** Modelled from the spec: robot.model.For.to_dict (outside this module). *)
Definition model_For_to_dict (self : For) (body : list DataDict) : DataDict :=
  let data := [("type", str_value FOR_)] in
  let data := put_seq "assign" (for_assign self) data in
  let data := omit_default (fun f => match f with IN => true | _ => false end)
                (fun f => str_value (flavor_name f)) "flavor" (for_flavor_ self) data in
  let data := put_seq "values" (for_values self) data in
  let data := put_opt_str "start" (for_start self) data in
  let data := put_opt_str "mode" (for_mode self) data in
  let data := put_opt_str "fill" (for_fill self) data in
  dict_set "body" (dicts_value body) data.

(** Modelled from the spec: robot.model.While.to_dict (outside this module). *)
Definition model_While_to_dict (self : While) (body : list DataDict) : DataDict :=
  let data := [("type", str_value WHILE_)] in
  let data := put_opt_str "condition" (while_condition self) data in
  let data := put_opt_str "limit" (while_limit self) data in
  let data := put_opt_str "on_limit" (while_on_limit self) data in
  let data := put_opt_str "on_limit_message" (while_on_limit_message self) data in
  dict_set "body" (dicts_value body) data.

(** Modelled from the spec: robot.model.IfBranch.to_dict (outside this module). *)
Definition model_IfBranch_to_dict (self : IfBranch) (body : list DataDict) : DataDict :=
  let data := [] in
  let data := omit_default (fun t => match t with IF => true | _ => false end)
                (fun t => str_value (if_branch_type_name t)) "type" (ifb_type self) data in
  let data := put_opt_str "condition" (ifb_condition self) data in
  dict_set "body" (dicts_value body) data.

(** Modelled from the spec: robot.model.If.to_dict (outside this module); the
    body of an If is the list of its branches. *)
Definition model_If_to_dict (self : If) (branches : list DataDict) : DataDict :=
  [("type", str_value IF_ELSE_ROOT); ("body", dicts_value branches)].

(** Modelled from the spec: robot.model.TryBranch.to_dict (outside this module). *)
Definition model_TryBranch_to_dict (self : TryBranch) (body : list DataDict) : DataDict :=
  let data := [] in
  let data := omit_default (fun t => match t with TRY => true | _ => false end)
                (fun t => str_value (try_branch_type_name t)) "type" (tryb_type self) data in
  let data := put_seq "patterns" (tryb_patterns self) data in
  let data := put_opt_str "pattern_type" (tryb_pattern_type self) data in
  let data := put_opt_str "assign" (tryb_assign self) data in
  dict_set "body" (dicts_value body) data.

(** Modelled from the spec: robot.model.Try.to_dict (outside this module). *)
Definition model_Try_to_dict (self : Try) (branches : list DataDict) : DataDict :=
  [("type", str_value TRY_EXCEPT_ROOT); ("body", dicts_value branches)].

(** Modelled from the spec: robot.model.Var.to_dict (outside this module). *)
Definition model_Var_to_dict (self : Var) : DataDict :=
  let data := [("type", str_value VAR_)] in
  let data := put_str "" "name" (var_name self) data in
  let data := put_seq "value" (var_value self) data in
  let data := put_opt_str "scope" (var_scope self) data in
  let data := put_opt_str "separator" (var_separator self) data in
  data.

(** Modelled from the spec: robot.model.Return.to_dict, Continue.to_dict,
    Break.to_dict and Error.to_dict (outside this module). *)
Definition model_Return_to_dict (self : Return) : DataDict :=
  put_seq "values" (ret_values self) [("type", str_value RETURN_)].
Definition model_Continue_to_dict (self : Continue) : DataDict :=
  [("type", str_value CONTINUE_)].
Definition model_Break_to_dict (self : Break) : DataDict :=
  [("type", str_value BREAK_)].
Definition model_Error_to_dict (self : Error) : DataDict :=
  put_seq "values" (err_values self) [("type", str_value ERROR_)].

(** [if self.attr: data['attr'] = self.attr], the pattern every [to_dict]
    of this module uses for the attributes it adds. *)
Definition set_if_truthy {A} `{Truthy A} (enc : A -> value)
    (k : string) (a : A) (data : DataDict) : DataDict :=
  if truthy a then dict_set k (enc a) data else data.

Definition lineno_value : option Z -> value := opt_value int_value.
Definition error_value : option string -> value := opt_value str_value.

(** [Keyword.to_dict] *)
Definition Keyword_to_dict (self : Keyword) : DataDict :=
  let data := model_Keyword_to_dict self in
  let data := set_if_truthy lineno_value "lineno" (kw_lineno self) data in
  data.

(** [For.to_dict] *)
Definition For_to_dict (self : For) (body : list DataDict) : DataDict :=
  let data := model_For_to_dict self body in
  let data := set_if_truthy lineno_value "lineno" (for_lineno self) data in
  let data := set_if_truthy error_value "error" (for_error self) data in
  data.

(** [While.to_dict] *)
Definition While_to_dict (self : While) (body : list DataDict) : DataDict :=
  let data := model_While_to_dict self body in
  let data := set_if_truthy lineno_value "lineno" (while_lineno self) data in
  let data := set_if_truthy error_value "error" (while_error self) data in
  data.

(** [IfBranch.to_dict] *)
Definition IfBranch_to_dict (self : IfBranch) (body : list DataDict) : DataDict :=
  let data := model_IfBranch_to_dict self body in
  let data := set_if_truthy lineno_value "lineno" (ifb_lineno self) data in
  data.

(** [If.to_dict] *)
Definition If_to_dict (self : If) (branches : list DataDict) : DataDict :=
  let data := model_If_to_dict self branches in
  let data := set_if_truthy lineno_value "lineno" (if_lineno self) data in
  let data := set_if_truthy error_value "error" (if_error self) data in
  data.

(** [TryBranch.to_dict] *)
Definition TryBranch_to_dict (self : TryBranch) (body : list DataDict) : DataDict :=
  let data := model_TryBranch_to_dict self body in
  let data := set_if_truthy lineno_value "lineno" (tryb_lineno self) data in
  data.

(** [Try.to_dict] *)
Definition Try_to_dict (self : Try) (branches : list DataDict) : DataDict :=
  let data := model_Try_to_dict self branches in
  let data := set_if_truthy lineno_value "lineno" (try_lineno self) data in
  let data := set_if_truthy error_value "error" (try_error self) data in
  data.

(** [Var.to_dict] *)
Definition Var_to_dict (self : Var) : DataDict :=
  let data := model_Var_to_dict self in
  let data := set_if_truthy lineno_value "lineno" (var_lineno self) data in
  let data := set_if_truthy error_value "error" (var_error self) data in
  data.

(** [Return.to_dict] *)
Definition Return_to_dict (self : Return) : DataDict :=
  let data := model_Return_to_dict self in
  let data := set_if_truthy lineno_value "lineno" (ret_lineno self) data in
  let data := set_if_truthy error_value "error" (ret_error self) data in
  data.

(** [Continue.to_dict] *)
Definition Continue_to_dict (self : Continue) : DataDict :=
  let data := model_Continue_to_dict self in
  let data := set_if_truthy lineno_value "lineno" (cont_lineno self) data in
  let data := set_if_truthy error_value "error" (cont_error self) data in
  data.

(** [Break.to_dict] *)
Definition Break_to_dict (self : Break) : DataDict :=
  let data := model_Break_to_dict self in
  let data := set_if_truthy lineno_value "lineno" (break_lineno self) data in
  let data := set_if_truthy error_value "error" (break_error self) data in
  data.

(** [Error.to_dict]: the message is written unconditionally. *)
Definition Error_to_dict (self : Error) : DataDict :=
  let data := model_Error_to_dict self in
  let data := set_if_truthy lineno_value "lineno" (err_lineno self) data in
  let data := dict_set "error" (str_value (err_error self)) data in
  data.

(** [item.to_dict()] for any body item; [body.to_dicts()] is the map of it
    over the body. *)
Fixpoint to_dict (item : BodyItem) : DataDict :=
  match item with
  | KeywordItem k => Keyword_to_dict k
  | ForItem f body => For_to_dict f (map to_dict body)
  | WhileItem w body => While_to_dict w (map to_dict body)
  | IfItem i branches =>
    If_to_dict i
      (map (fun br : IfBranch * list BodyItem =>
              IfBranch_to_dict (fst br) (map to_dict (snd br))) branches)
  | TryItem t branches =>
    Try_to_dict t
      (map (fun br : TryBranch * list BodyItem =>
              TryBranch_to_dict (fst br) (map to_dict (snd br))) branches)
  | VarItem v => Var_to_dict v
  | ReturnItem r => Return_to_dict r
  | ContinueItem c => Continue_to_dict c
  | BreakItem b => Break_to_dict b
  | ErrorItem e => Error_to_dict e
  end.

Definition to_dicts (body : Body) : list DataDict := map to_dict body.

(** ** Deserialisation: [from_dict]

    [ModelObject.from_dict] and the creation of the items of a body from
    their records are defined in robot.model; this module overrides
    [from_dict] in For and TryBranch only. *)

(** Modelled from the spec: ModelObject.from_dict (robot.model, outside
    this module).  Section 6: "the inverse, build node from record".  The node
    starts from the defaults of its constructor and every key of the record
    sets the attribute it names: [attr] is the attribute after that, the
    default when the key is absent. *)
Definition attr {A} (dec : value -> option A) (default : A)
    (k : string) (data : DataDict) : option A :=
  match dict_get k data with None => Some default | Some v => dec v end.

(** Modelled from the spec: a key that names no attribute of the class is
    refused by ModelObject.from_dict. *)
Definition known_keys (keys : list string) (data : DataDict) : option unit :=
  if forallb (fun k => str_in k keys) (dict_keys data) then Some tt else None.

(** Modelled from the spec: the tag of a record, when there is one, is the
    one of the class that reads it. *)
Definition tagged (tag : string) (data : DataDict) : option unit :=
  match dict_get "type" data with
  | None => Some tt
  | Some (VStr t) => if t =? tag then Some tt else None
  | Some _ => None
  end.

(** Values of the enumerated attributes, read back from their names. *)
Definition as_enum {A} (name : A -> string) (all : list A) (v : value) : option A :=
  s <- as_str v ;; find (fun a => name a =? s) all.

Definition as_keyword_type := as_enum keyword_type_name [KEYWORD; SETUP; TEARDOWN].
Definition as_flavor := as_enum flavor_name [IN; IN_RANGE; IN_ENUMERATE; IN_ZIP].
Definition as_if_branch_type := as_enum if_branch_type_name [IF; ELSE_IF; ELSE].
Definition as_try_branch_type :=
  as_enum try_branch_type_name [TRY; EXCEPT; TRY_ELSE; FINALLY].

Definition attr_lineno := attr (as_opt as_int) None "lineno".
Definition attr_error := attr (as_opt as_str) None "error".
Definition attr_opt_str := attr (as_opt as_str) None.
Definition attr_seq := attr as_seq [].

(** Modelled from the spec: ModelObject.from_dict for Keyword (outside
    this module). *)
Definition model_Keyword_from_dict (data : DataDict) : option Keyword :=
  _ <- known_keys ["name"; "args"; "assign"; "type"; "lineno"] data ;;
  name <- attr as_str "" "name" data ;;
  args <- attr_seq "args" data ;;
  assign <- attr_seq "assign" data ;;
  type <- attr as_keyword_type KEYWORD "type" data ;;
  lineno <- attr_lineno data ;;
  Some (mkKeyword name args assign type lineno).

Section FromDict.
(** [Body(self, body)]: the items built from the value under "body". *)
Variable body_from : value -> option Body.

(** The body of the node, empty when the record has none. *)
Definition attr_body (data : DataDict) : option Body :=
  match dict_get "body" data with None => Some [] | Some v => body_from v end.

(** Modelled from the spec: ModelObject.from_dict for For (outside this module). *)
Definition model_For_from_dict (data : DataDict) : option BodyItem :=
  _ <- known_keys ["type"; "assign"; "flavor"; "values"; "start"; "mode";
                   "fill"; "body"; "lineno"; "error"] data ;;
  _ <- tagged FOR_ data ;;
  assign <- attr_seq "assign" data ;;
  flavor <- attr as_flavor IN "flavor" data ;;
  values <- attr_seq "values" data ;;
  start <- attr_opt_str "start" data ;;
  mode <- attr_opt_str "mode" data ;;
  fill <- attr_opt_str "fill" data ;;
  lineno <- attr_lineno data ;;
  error <- attr_error data ;;
  body <- attr_body data ;;
  Some (ForItem (mkFor assign flavor values start mode fill lineno error) body).

(** [For.from_dict]: a record of Robot Framework 6.1 names the loop
    variables "variables"; the key is renamed before the base class
    builds the node. *)
Definition For_from_dict (data : DataDict) : option BodyItem :=
  let data := rename_key "variables" "assign" data in
  model_For_from_dict data.

(** Modelled from the spec: ModelObject.from_dict for While, which the
    class inherits (outside this module). *)
Definition While_from_dict (data : DataDict) : option BodyItem :=
  _ <- known_keys ["type"; "condition"; "limit"; "on_limit";
                   "on_limit_message"; "body"; "lineno"; "error"] data ;;
  _ <- tagged WHILE_ data ;;
  condition <- attr_opt_str "condition" data ;;
  limit <- attr_opt_str "limit" data ;;
  on_limit <- attr_opt_str "on_limit" data ;;
  on_limit_message <- attr_opt_str "on_limit_message" data ;;
  lineno <- attr_lineno data ;;
  error <- attr_error data ;;
  body <- attr_body data ;;
  Some (WhileItem (mkWhile condition limit on_limit on_limit_message lineno error)
                  body).

(** Modelled from the spec: ModelObject.from_dict for IfBranch and If,
    which the classes inherit (outside this module). *)
Definition IfBranch_from_dict (data : DataDict) : option (IfBranch * Body) :=
  _ <- known_keys ["type"; "condition"; "body"; "lineno"] data ;;
  type <- attr as_if_branch_type IF "type" data ;;
  condition <- attr_opt_str "condition" data ;;
  lineno <- attr_lineno data ;;
  body <- attr_body data ;;
  Some (mkIfBranch type condition lineno, body).

Definition If_from_dict (data : DataDict) : option BodyItem :=
  _ <- known_keys ["type"; "body"; "lineno"; "error"] data ;;
  _ <- tagged IF_ELSE_ROOT data ;;
  lineno <- attr_lineno data ;;
  error <- attr_error data ;;
  branches <- attr (fun v => ds <- as_dicts v ;; traverse IfBranch_from_dict ds)
                   [] "body" data ;;
  Some (IfItem (mkIf lineno error) branches).

(** Modelled from the spec: ModelObject.from_dict for TryBranch (outside
    this module). *)
Definition model_TryBranch_from_dict (data : DataDict)
  : option (TryBranch * Body) :=
  _ <- known_keys ["type"; "patterns"; "pattern_type"; "assign"; "body";
                   "lineno"] data ;;
  type <- attr as_try_branch_type TRY "type" data ;;
  patterns <- attr_seq "patterns" data ;;
  pattern_type <- attr_opt_str "pattern_type" data ;;
  assign <- attr_opt_str "assign" data ;;
  lineno <- attr_lineno data ;;
  body <- attr_body data ;;
  Some (mkTryBranch type patterns pattern_type assign lineno, body).

(** [TryBranch.from_dict]: a record of Robot Framework 6.1 names the
    capture variable "variable". *)
Definition TryBranch_from_dict (data : DataDict) : option (TryBranch * Body) :=
  let data := rename_key "variable" "assign" data in
  model_TryBranch_from_dict data.

(** Modelled from the spec: ModelObject.from_dict for Try, which the class
    inherits (outside this module). *)
Definition Try_from_dict (data : DataDict) : option BodyItem :=
  _ <- known_keys ["type"; "body"; "lineno"; "error"] data ;;
  _ <- tagged TRY_EXCEPT_ROOT data ;;
  lineno <- attr_lineno data ;;
  error <- attr_error data ;;
  branches <- attr (fun v => ds <- as_dicts v ;; traverse TryBranch_from_dict ds)
                   [] "body" data ;;
  Some (TryItem (mkTry lineno error) branches).
End FromDict.

(** Modelled from the spec: ModelObject.from_dict for Var, Return,
    Continue, Break and Error, which the classes inherit (outside this module). *)
Definition Var_from_dict (data : DataDict) : option Var :=
  _ <- known_keys ["type"; "name"; "value"; "scope"; "separator"; "lineno";
                   "error"] data ;;
  _ <- tagged VAR_ data ;;
  name <- attr as_str "" "name" data ;;
  value <- attr_seq "value" data ;;
  scope <- attr_opt_str "scope" data ;;
  separator <- attr_opt_str "separator" data ;;
  lineno <- attr_lineno data ;;
  error <- attr_error data ;;
  Some (mkVar name value scope separator lineno error).

Definition Return_from_dict (data : DataDict) : option Return :=
  _ <- known_keys ["type"; "values"; "lineno"; "error"] data ;;
  _ <- tagged RETURN_ data ;;
  values <- attr_seq "values" data ;;
  lineno <- attr_lineno data ;;
  error <- attr_error data ;;
  Some (mkReturn values lineno error).

Definition Continue_from_dict (data : DataDict) : option Continue :=
  _ <- known_keys ["type"; "lineno"; "error"] data ;;
  _ <- tagged CONTINUE_ data ;;
  lineno <- attr_lineno data ;;
  error <- attr_error data ;;
  Some (mkContinue lineno error).

Definition Break_from_dict (data : DataDict) : option Break :=
  _ <- known_keys ["type"; "lineno"; "error"] data ;;
  _ <- tagged BREAK_ data ;;
  lineno <- attr_lineno data ;;
  error <- attr_error data ;;
  Some (mkBreak lineno error).

Definition Error_from_dict (data : DataDict) : option Error :=
  _ <- known_keys ["type"; "values"; "lineno"; "error"] data ;;
  _ <- tagged ERROR_ data ;;
  values <- attr_seq "values" data ;;
  lineno <- attr_lineno data ;;
  error <- attr as_str "" "error" data ;;
  Some (mkError values lineno error).

(** The classes registered in [Body]. *)
Inductive item_class :=
| KeywordClass | ForClass | WhileClass | IfClass | TryClass
| VarClass | ReturnClass | ContinueClass | BreakClass | ErrorClass.

Definition class_of (item : BodyItem) : item_class :=
  match item with
  | KeywordItem _ => KeywordClass
  | ForItem _ _ => ForClass
  | WhileItem _ _ => WhileClass
  | IfItem _ _ => IfClass
  | TryItem _ _ => TryClass
  | VarItem _ => VarClass
  | ReturnItem _ => ReturnClass
  | ContinueItem _ => ContinueClass
  | BreakItem _ => BreakClass
  | ErrorItem _ => ErrorClass
  end.

Definition class_tags : list (string * item_class) :=
  [ ("KEYWORD", KeywordClass); ("SETUP", KeywordClass); ("TEARDOWN", KeywordClass);
    (FOR_, ForClass); (WHILE_, WhileClass); (IF_ELSE_ROOT, IfClass);
    (TRY_EXCEPT_ROOT, TryClass); (VAR_, VarClass); (RETURN_, ReturnClass);
    (CONTINUE_, ContinueClass); (BREAK_, BreakClass); (ERROR_, ErrorClass) ].

(** Modelled from the spec: the class that builds an item of a body from
    its record (robot.model.BaseBody, outside this module). *)
Definition class_of_record (data : DataDict) : option item_class :=
  match dict_get "type" data with
  | None => Some KeywordClass
  | Some (VStr t) =>
    option_map snd (find (fun tc => fst tc =? t) class_tags)
  | Some _ => None
  end.

(** [cls.from_dict(data)] for the classes of body items.  Records nest; the
    fuel bounds the depth of the items that are built. *)
Fixpoint from_dict (fuel : nat) (cls : item_class) (data : DataDict)
  : option BodyItem :=
  match fuel with
  | O => None
  | S fuel' =>
    let body_from (v : value) : option Body :=
      ds <- as_dicts v ;;
      traverse (fun d => c <- class_of_record d ;; from_dict fuel' c d) ds in
    match cls with
    | KeywordClass => option_map KeywordItem (model_Keyword_from_dict data)
    | ForClass => For_from_dict body_from data
    | WhileClass => While_from_dict body_from data
    | IfClass => If_from_dict body_from data
    | TryClass => Try_from_dict body_from data
    | VarClass => option_map VarItem (Var_from_dict data)
    | ReturnClass => option_map ReturnItem (Return_from_dict data)
    | ContinueClass => option_map ContinueItem (Continue_from_dict data)
    | BreakClass => option_map BreakItem (Break_from_dict data)
    | ErrorClass => option_map ErrorItem (Error_from_dict data)
    end
  end.

(** The items of a body built from their records. *)
Definition items_from_dicts (fuel : nat) (ds : list DataDict) : option Body :=
  traverse (fun d => c <- class_of_record d ;; from_dict fuel c d) ds.

(** Nesting depth of an item: the fuel [from_dict] needs for its record. *)
Fixpoint depth (item : BodyItem) : nat :=
  match item with
  | ForItem _ body => S (list_max (map depth body))
  | WhileItem _ body => S (list_max (map depth body))
  | IfItem _ branches =>
    S (list_max (map (fun br : IfBranch * list BodyItem =>
                        list_max (map depth (snd br))) branches))
  | TryItem _ branches =>
    S (list_max (map (fun br : TryBranch * list BodyItem =>
                        list_max (map depth (snd br))) branches))
  | _ => 1
  end.

(** An attribute that [if self.attr:] tells apart from its default: it is
    [None], or it is a value that is not falsy. *)
Definition set_or_none {A} `{Truthy A} (o : option A) : bool :=
  match o with None => true | Some a => truthy a end.

(** No line number 0 and no empty error message anywhere in the item. *)
Fixpoint canonical (item : BodyItem) : bool :=
  match item with
  | KeywordItem k => set_or_none (kw_lineno k)
  | ForItem f body =>
    set_or_none (for_lineno f) && set_or_none (for_error f) &&
    forallb canonical body
  | WhileItem w body =>
    set_or_none (while_lineno w) && set_or_none (while_error w) &&
    forallb canonical body
  | IfItem i branches =>
    set_or_none (if_lineno i) && set_or_none (if_error i) &&
    forallb (fun br : IfBranch * list BodyItem =>
               set_or_none (ifb_lineno (fst br)) && forallb canonical (snd br))
            branches
  | TryItem t branches =>
    set_or_none (try_lineno t) && set_or_none (try_error t) &&
    forallb (fun br : TryBranch * list BodyItem =>
               set_or_none (tryb_lineno (fst br)) && forallb canonical (snd br))
            branches
  | VarItem v => set_or_none (var_lineno v) && set_or_none (var_error v)
  | ReturnItem r => set_or_none (ret_lineno r) && set_or_none (ret_error r)
  | ContinueItem c => set_or_none (cont_lineno c) && set_or_none (cont_error c)
  | BreakItem b => set_or_none (break_lineno b) && set_or_none (break_error b)
  | ErrorItem e => set_or_none (err_lineno e)
  end.

(** The item [from_dict] builds from the record of an item: a falsy line
    number or error message was not written, so it comes back as [None]. *)
Definition keep_truthy {A} `{Truthy A} (o : option A) : option A :=
  if truthy o then o else None.

Fixpoint restored (item : BodyItem) : BodyItem :=
  match item with
  | KeywordItem (mkKeyword name args assign type lineno) =>
    KeywordItem (mkKeyword name args assign type (keep_truthy lineno))
  | ForItem (mkFor assign flavor values start mode fill lineno error) body =>
    ForItem (mkFor assign flavor values start mode fill
                   (keep_truthy lineno) (keep_truthy error))
            (map restored body)
  | WhileItem (mkWhile condition limit on_limit message lineno error) body =>
    WhileItem (mkWhile condition limit on_limit message
                       (keep_truthy lineno) (keep_truthy error))
              (map restored body)
  | IfItem (mkIf lineno error) branches =>
    IfItem (mkIf (keep_truthy lineno) (keep_truthy error))
           (map (fun br : IfBranch * list BodyItem =>
                   (mkIfBranch (ifb_type (fst br)) (ifb_condition (fst br))
                               (keep_truthy (ifb_lineno (fst br))),
                    map restored (snd br))) branches)
  | TryItem (mkTry lineno error) branches =>
    TryItem (mkTry (keep_truthy lineno) (keep_truthy error))
            (map (fun br : TryBranch * list BodyItem =>
                    (mkTryBranch (tryb_type (fst br)) (tryb_patterns (fst br))
                                 (tryb_pattern_type (fst br)) (tryb_assign (fst br))
                                 (keep_truthy (tryb_lineno (fst br))),
                     map restored (snd br))) branches)
  | VarItem (mkVar name value scope separator lineno error) =>
    VarItem (mkVar name value scope separator
                   (keep_truthy lineno) (keep_truthy error))
  | ReturnItem (mkReturn values lineno error) =>
    ReturnItem (mkReturn values (keep_truthy lineno) (keep_truthy error))
  | ContinueItem (mkContinue lineno error) =>
    ContinueItem (mkContinue (keep_truthy lineno) (keep_truthy error))
  | BreakItem (mkBreak lineno error) =>
    BreakItem (mkBreak (keep_truthy lineno) (keep_truthy error))
  | ErrorItem (mkError values lineno error) =>
    ErrorItem (mkError values (keep_truthy lineno) error)
  end.

(** ** Paths

    [source] attributes are [pathlib.Path] objects.  A path is kept as its
    root ('' for a relative path, '/' or '//') and the list of its
    components; this is what [Path(str)], [str(path)], [path.name] and
    [path.stem] need. *)

Record Path := mkPath {
  path_root : string;
  path_parts : list string
}.

Fixpoint split_on (sep : ascii) (s : string) : list string :=
  match s with
  | EmptyString => [EmptyString]
  | String c rest =>
    if Ascii.eqb c sep then EmptyString :: split_on sep rest
    else match split_on sep rest with
         | [] => [String c EmptyString]
         | part :: parts => String c part :: parts
         end
  end.

(** The root of a POSIX path: exactly two leading slashes are kept, one
    slash and three or more are the root '/'. *)
Definition root_of (s : string) : string :=
  match s with
  | String "/" (String "/" (String "/" _)) => "/"
  | String "/" (String "/" _) => "//"
  | String "/" _ => "/"
  | _ => ""
  end.

(** [Path(s)]: empty components and "." are dropped. *)
Definition Path_of_str (s : string) : Path :=
  mkPath (root_of s)
         (filter (fun part => negb ((part =? "") || (part =? ".")))
                 (split_on "/" s)).

(** [str(path)] *)
Definition str_of_Path (p : Path) : string :=
  match path_root p, path_parts p with
  | "", [] => "."
  | root, parts => root ++ String.concat "/" parts
  end.

(** [path.name]: the final component, '' when there is none. *)
Definition Path_name (p : Path) : string := last (path_parts p) "".

(** Index of the last occurrence of [c] in [s], as [str.rfind]. *)
Fixpoint rfind (c : ascii) (s : string) : option nat :=
  match s with
  | EmptyString => None
  | String c' rest =>
    match rfind c rest with
    | Some i => Some (S i)
    | None => if Ascii.eqb c c' then Some O else None
    end
  end.

(** [path.stem]: the name without its last suffix; a leading or a trailing
    dot starts no suffix. *)
Definition Path_stem (p : Path) : string :=
  let name := Path_name p in
  match rfind "." name with
  | Some i =>
    if ((0 <? i) && (i <? String.length name - 1))%nat
    then substring 0 i name else name
  | None => name
  end.

(** ** Containers *)

(** What a resource file reads of the suite that owns it.  [TestSuite]
    stores its [source] itself (robot.model.TestSuite). *)
Record TestSuite := mkTestSuite {
  suite_source : option Path
}.

Inductive import_type := LIBRARY | RESOURCE | VARIABLES.

Definition import_type_name (t : import_type) : string :=
  match t with
  | LIBRARY => "LIBRARY" | RESOURCE => "RESOURCE" | VARIABLES => "VARIABLES"
  end.

(** [Import.__init__]; any other type raises ValueError there. *)
Record Import := mkImport {
  imp_type : import_type;
  imp_name : string;
  imp_args : list string;
  imp_alias : option string;
  imp_lineno : option Z
}.

(** [Import.to_dict] *)
Definition Import_to_dict (self : Import) : DataDict :=
  let data := [("type", str_value (import_type_name (imp_type self)));
               ("name", str_value (imp_name self))] in
  let data := set_if_truthy seq_value "args" (imp_args self) data in
  let data := set_if_truthy (opt_value str_value) "alias" (imp_alias self) data in
  let data := set_if_truthy lineno_value "lineno" (imp_lineno self) data in
  data.

(** [Variable.__init__] ([Variable] is a reserved word here). *)
Record Variable_ := mkVariable {
  variable_name : string;
  variable_value : list string;
  variable_separator : option string;
  variable_lineno : option Z;
  variable_error : option string
}.

(** [Variable.to_dict] *)
Definition Variable_to_dict (self : Variable_) : DataDict :=
  let data := [("name", str_value (variable_name self));
               ("value", seq_value (variable_value self))] in
  let data := set_if_truthy lineno_value "lineno" (variable_lineno self) data in
  let data := set_if_truthy error_value "error" (variable_error self) data in
  data.

(** [TestCase.__init__] *)
Record TestCase := mkTestCase {
  test_name : string;
  test_doc : string;
  test_tags : list string;
  test_timeout : option string;
  test_lineno : option Z;
  test_template : option string;
  test_error : option string;
  test_body : Body
}.

(** Modelled from the spec: robot.model.TestCase.to_dict (outside this module),
    with the attributes of section 3, defaults omitted. *)
Definition model_TestCase_to_dict (self : TestCase) : DataDict :=
  let data := [] in
  let data := put_str "" "name" (test_name self) data in
  let data := put_str "" "doc" (test_doc self) data in
  let data := put_seq "tags" (test_tags self) data in
  let data := put_opt_str "timeout" (test_timeout self) data in
  let data := omit_default
                (fun o : option Z => match o with None => true | _ => false end)
                lineno_value "lineno" (test_lineno self) data in
  dict_set "body" (dicts_value (to_dicts (test_body self))) data.

(** [TestCase.to_dict] *)
Definition TestCase_to_dict (self : TestCase) : DataDict :=
  let data := model_TestCase_to_dict self in
  let data := set_if_truthy (opt_value str_value) "template" (test_template self) data in
  let data := set_if_truthy error_value "error" (test_error self) data in
  data.

(** ** Embedded arguments and name comparison *)

(** Modelled from the spec: EmbeddedArguments (robot.running.arguments, outside
    this module).  Section 3: "a name containing ${placeholder} segments
    becomes a matcher over call-site names"; section 4.5: the matcher
    "extracts positional values from the matched text itself".  A name is
    split into its text and placeholder parts. *)
Inductive name_part := Text (text : string) | Placeholder (var : string).

Definition text_part (text : string) : list name_part :=
  if text =? "" then [] else [Text text].

(** The parts of a keyword name; [var] is the placeholder being read, if
    any.  A "${" that is never closed is plain text. *)
Fixpoint parse_name (s text : string) (var : option string) : list name_part :=
  match s with
  | EmptyString =>
    match var with
    | None => text_part text
    | Some v => text_part (text ++ "${" ++ v)
    end
  | String c rest =>
    match var with
    | None =>
      match c, rest with
      | "$"%char, String "{"%char rest' => parse_name rest' text (Some "")
      | _, _ => parse_name rest (text ++ String c "") None
      end
    | Some v =>
      if Ascii.eqb c "}"
      then (text_part text ++ Placeholder v :: parse_name rest "" None)%list
      else parse_name rest text (Some (v ++ String c ""))
    end
  end.

Definition is_placeholder (part : name_part) : bool :=
  match part with Placeholder _ => true | Text _ => false end.

(** Modelled from the spec: the name contains placeholder syntax. *)
Definition has_placeholder (name : string) : bool :=
  existsb is_placeholder (parse_name name "" None).

(** Modelled from the spec: the matcher compiled from a name. *)
Record EmbeddedArguments := mkEmbedded {
  embedded_parts : list name_part
}.

(** Modelled from the spec: [EmbeddedArguments.from_name(name)], a matcher
    for a name with placeholders and [None] for a literal name. *)
Definition EmbeddedArguments_from_name (name : string) : option EmbeddedArguments :=
  if has_placeholder name then Some (mkEmbedded (parse_name name "" None))
  else None.

Fixpoint strip_prefix (prefix s : string) : option string :=
  match prefix, s with
  | EmptyString, _ => Some s
  | String a prefix', String b s' =>
    if Ascii.eqb a b then strip_prefix prefix' s' else None
  | String _ _, EmptyString => None
  end.

(** Modelled from the spec: the values the placeholders take when the
    parts cover the whole text, each placeholder taking as little text as
    possible. *)
Fixpoint match_parts (parts : list name_part) (text : string) : option (list string) :=
  match parts with
  | [] => if text =? "" then Some [] else None
  | Text t :: rest =>
    match strip_prefix t text with
    | Some text' => match_parts rest text'
    | None => None
    end
  | Placeholder _ :: rest =>
    (fix take (taken left : string) {struct left} : option (list string) :=
       match match_parts rest left with
       | Some values => Some (taken :: values)
       | None =>
         match left with
         | EmptyString => None
         | String c left' => take (taken ++ String c "") left'
         end
       end) "" text
  end.

(** Modelled from the spec: [embedded.match(name)]. *)
Definition EmbeddedArguments_match (self : EmbeddedArguments) (name : string)
  : option (list string) :=
  match_parts (embedded_parts self) name.

Fixpoint remove_char (c : ascii) (s : string) : string :=
  match s with
  | EmptyString => EmptyString
  | String c' rest =>
    if Ascii.eqb c c' then remove_char c rest else String c' (remove_char c rest)
  end.

(** Modelled from the spec: [eq(a, b, ignore='_')] (robot.utils, outside
    this module), section 4.5: "case/underscore-insensitive literal-name equality". *)
Definition eq_ignoring_underscore {case : CaseMapping} (a b : string) : bool :=
  lower (remove_char "_" a) =? lower (remove_char "_" b).

(** ** UserKeyword *)

Inductive arg_kind :=
| POSITIONAL_ONLY | POSITIONAL_ONLY_MARKER | POSITIONAL_OR_NAMED
| VAR_POSITIONAL | NAMED_ONLY_MARKER | NAMED_ONLY | VAR_NAMED.

(** An item of the iteration over an [ArgumentSpec]; [info_default] is
    [None] for [NOT_SET], otherwise the default as the f-string prints it. *)
Record ArgInfo := mkArgInfo {
  info_kind : arg_kind;
  info_name : string;
  info_default : option string
}.

(** The slots of [UserKeyword]; [args] holds the items of the argument
    specification, [tags] the content of the [Tags] object. *)
Record UserKeyword := mkUserKeyword {
  uk_embedded : option EmbeddedArguments;
  uk_name : string;
  uk_args : list ArgInfo;
  uk_doc : string;
  uk_tags : list string;
  uk_timeout : option string;
  uk_lineno : option Z;
  uk_error : option string;
  uk_body : Body;
  uk__setup : option Keyword;
  uk__teardown : option Keyword
}.

(** Objects a method has built by calling outside the class. *)
Inductive call :=
| from_name_call (name : string)
| create_fixture_call (fixture : option Keyword) (type : keyword_type).

(** A property or method of a [UserKeyword]: its value, the keyword after
    the call, and the calls it made, in order. *)
Definition method (A : Type) : Type := UserKeyword -> A * UserKeyword * list call.

Definition pure {A} (a : A) : method A := fun self => (a, self, []).

Definition and_then {A B} (m : method A) (f : A -> method B) : method B :=
  fun self =>
    let '(a, self1, calls1) := m self in
    let '(b, self2, calls2) := f a self1 in
    (b, self2, (calls1 ++ calls2)%list).

Notation "x <~ m ; f" := (and_then m (fun x => f))
  (at level 62, m at next level, right associativity).

Definition value_of {A} (r : A * UserKeyword * list call) : A := fst (fst r).
Definition object_of {A} (r : A * UserKeyword * list call) : UserKeyword := snd (fst r).
Definition calls_of {A} (r : A * UserKeyword * list call) : list call := snd r.

(** Modelled from the spec: truthiness of a Keyword object
    (robot.model.Keyword, outside this module).  The fixture that stands for "no
    setup" is falsy (section 3: "a keyword without a teardown does not
    allocate one just to test for absence"); a keyword is truthy when it has
    a name. *)
#[global] Instance Truthy_Keyword : Truthy Keyword :=
  fun k => truthy (kw_name k).

(** Modelled from the spec: create_fixture (robot.model, outside this module).
    Without a fixture it builds the empty Keyword of the given type; a
    Keyword given as fixture gets the type. *)
Definition create_fixture (fixture : option Keyword) (type : keyword_type) : Keyword :=
  match fixture with
  | None => mkKeyword "" [] [] type None
  | Some k => mkKeyword (kw_name k) (kw_args k) (kw_assign k) type (kw_lineno k)
  end.

Definition with_name (embedded : option EmbeddedArguments) (name : string)
    (self : UserKeyword) : UserKeyword :=
  mkUserKeyword embedded name (uk_args self) (uk_doc self) (uk_tags self)
    (uk_timeout self) (uk_lineno self) (uk_error self) (uk_body self)
    (uk__setup self) (uk__teardown self).

Definition with_setup (fixture : option Keyword) (self : UserKeyword) : UserKeyword :=
  mkUserKeyword (uk_embedded self) (uk_name self) (uk_args self) (uk_doc self)
    (uk_tags self) (uk_timeout self) (uk_lineno self) (uk_error self)
    (uk_body self) fixture (uk__teardown self).

Definition with_teardown (fixture : option Keyword) (self : UserKeyword) : UserKeyword :=
  mkUserKeyword (uk_embedded self) (uk_name self) (uk_args self) (uk_doc self)
    (uk_tags self) (uk_timeout self) (uk_lineno self) (uk_error self)
    (uk_body self) (uk__setup self) fixture.

(** [UserKeyword.name] setter: [self.name = name] compiles the matcher and
    stores the name. *)
Definition name_setter (name : string) : method unit :=
  fun self =>
    let embedded := EmbeddedArguments_from_name name in
    (tt, with_name embedded name self, [from_name_call name]).

(** [UserKeyword.__init__]: the object and the calls made while building it. *)
Definition UserKeyword_init (name : string) (args : list ArgInfo) (doc : string)
    (tags : list string) (timeout : option string) (lineno : option Z)
    (error : option string) : UserKeyword * list call :=
  let self := mkUserKeyword None "" args doc tags timeout lineno error [] None None in
  let '(_, self, calls) := name_setter name self in
  (self, calls).

(** [UserKeyword.setup] setter; the value is the fixture now in the slot. *)
Definition setup_setter (setup : option Keyword) : method Keyword :=
  fun self =>
    let fixture := create_fixture setup SETUP in
    (fixture, with_setup (Some fixture) self, [create_fixture_call setup SETUP]).

(** [UserKeyword.setup] *)
Definition setup : method Keyword :=
  fun self =>
    match uk__setup self with
    | None => setup_setter None self
    | Some fixture => (fixture, self, [])
    end.

(** [UserKeyword.has_setup] *)
Definition has_setup : method bool :=
  fun self => (truthy (uk__setup self), self, []).

(** [UserKeyword.teardown] setter *)
Definition teardown_setter (teardown : option Keyword) : method Keyword :=
  fun self =>
    let fixture := create_fixture teardown TEARDOWN in
    (fixture, with_teardown (Some fixture) self,
     [create_fixture_call teardown TEARDOWN]).

(** [UserKeyword.teardown] *)
Definition teardown : method Keyword :=
  fun self =>
    match uk__teardown self with
    | None => teardown_setter None self
    | Some fixture => (fixture, self, [])
    end.

(** [UserKeyword.has_teardown] *)
Definition has_teardown : method bool :=
  fun self => (truthy (uk__teardown self), self, []).

Definition is_some {A} (o : option A) : bool :=
  match o with Some _ => true | None => false end.

(** [UserKeyword.matches]; the value is the truth of what Python returns. *)
Definition matches {case : CaseMapping} (name : string) : method bool :=
  fun self =>
    match uk_embedded self with
    | Some embedded => (is_some (EmbeddedArguments_match embedded name), self, [])
    | None => (eq_ignoring_underscore (uk_name self) name, self, [])
    end.

(** [UserKeyword._decorate_args] *)
Definition decorate_arg (info : ArgInfo) : string :=
  let deco :=
    match info_kind info with
    | VAR_NAMED => "&"
    | VAR_POSITIONAL | NAMED_ONLY_MARKER => "@"
    | _ => "$"
    end in
  let arg := deco ++ "{" ++ info_name info ++ "}" in
  match info_default info with
  | Some default => arg ++ "=" ++ default
  | None => arg
  end.

Definition _decorate_args (self : UserKeyword) : list string :=
  map decorate_arg (uk_args self).

(** [UserKeyword.to_dict] *)
Definition UserKeyword_to_dict : method DataDict :=
  fun self =>
    let data := [("name", str_value (uk_name self))] in
    let data := set_if_truthy seq_value "args" (_decorate_args self) data in
    let data := set_if_truthy str_value "doc" (uk_doc self) data in
    let data := set_if_truthy seq_value "tags" (uk_tags self) data in
    let data := set_if_truthy (opt_value str_value) "timeout" (uk_timeout self) data in
    let data := set_if_truthy lineno_value "lineno" (uk_lineno self) data in
    let data := set_if_truthy error_value "error" (uk_error self) data in
    (has <~ has_setup ;
     data <~ (if has : bool
              then fixture <~ setup ;
                   pure (dict_set "setup" (VDict (Keyword_to_dict fixture)) data)
              else pure data) ;
     data <~ pure (dict_set "body" (dicts_value (to_dicts (uk_body self))) data) ;
     has <~ has_teardown ;
     if has : bool
     then fixture <~ teardown ;
          pure (dict_set "teardown" (VDict (Keyword_to_dict fixture)) data)
     else pure data) self.

(** The record [UserKeyword.to_dict] returns, as a function of the slots. *)
Definition UserKeyword_record (self : UserKeyword) : DataDict :=
  let data := [("name", str_value (uk_name self))] in
  let data := set_if_truthy seq_value "args" (_decorate_args self) data in
  let data := set_if_truthy str_value "doc" (uk_doc self) data in
  let data := set_if_truthy seq_value "tags" (uk_tags self) data in
  let data := set_if_truthy (opt_value str_value) "timeout" (uk_timeout self) data in
  let data := set_if_truthy lineno_value "lineno" (uk_lineno self) data in
  let data := set_if_truthy error_value "error" (uk_error self) data in
  let data := set_if_truthy (opt_value (fun k => VDict (Keyword_to_dict k)))
                "setup" (uk__setup self) data in
  let data := dict_set "body" (dicts_value (to_dicts (uk_body self))) data in
  let data := set_if_truthy (opt_value (fun k => VDict (Keyword_to_dict k)))
                "teardown" (uk__teardown self) data in
  data.

(** ** ResourceFile *)

(** A [Path] and a [TestSuite] define neither [__bool__] nor [__len__]:
    they are truthy. *)
#[global] Instance Truthy_Path : Truthy Path := fun _ => true.
#[global] Instance Truthy_TestSuite : Truthy TestSuite := fun _ => true.

(** [ResourceFile.__init__]; [owner] is the suite the file belongs to. *)
Record ResourceFile := mkResourceFile {
  rf__source : option Path;
  rf_owner : option TestSuite;
  rf_doc : string;
  rf_imports : list Import;
  rf_variables : list Variable_;
  rf_keywords : list UserKeyword
}.

(** [ResourceFile.source] setter: a string becomes a [Path]. *)
Definition source_setter (source : option (Path + string)) (self : ResourceFile)
  : ResourceFile :=
  let source :=
    match source with
    | Some (inr s) => Some (Path_of_str s)
    | Some (inl p) => Some p
    | None => None
    end in
  mkResourceFile source (rf_owner self) (rf_doc self) (rf_imports self)
                 (rf_variables self) (rf_keywords self).

(** [ResourceFile.source] *)
Definition ResourceFile_source (self : ResourceFile) : option Path :=
  if truthy (rf__source self) then rf__source self
  else if truthy (rf_owner self)
       then match rf_owner self with
            | Some owner => suite_source owner
            | None => None
            end
       else None.

(** [ResourceFile.name] *)
Definition ResourceFile_name (self : ResourceFile) : option string :=
  if truthy (rf_owner self) || negb (truthy (ResourceFile_source self)) then None
  else match ResourceFile_source self with
       | Some source => Some (Path_stem source)
       | None => None
       end.

(** [ResourceFile.to_dict] *)
Definition ResourceFile_to_dict (self : ResourceFile) : DataDict :=
  let data := [] in
  let data := set_if_truthy (opt_value (fun p => str_value (str_of_Path p)))
                "source" (rf__source self) data in
  let data := set_if_truthy str_value "doc" (rf_doc self) data in
  let data := set_if_truthy (fun l => dicts_value (map Import_to_dict l))
                "imports" (rf_imports self) data in
  let data := set_if_truthy (fun l => dicts_value (map Variable_to_dict l))
                "variables" (rf_variables self) data in
  let data := set_if_truthy
                (fun l => dicts_value (map (fun kw => value_of (UserKeyword_to_dict kw)) l))
                "keywords" (rf_keywords self) data in
  data.

(** [TestSuite.to_dict], on the record [super().to_dict()] gives. *)
Definition TestSuite_to_dict (super_to_dict : DataDict) (resource : ResourceFile)
  : DataDict :=
  let data := super_to_dict in
  let data := dict_set "resource" (VDict (ResourceFile_to_dict resource)) data in
  data.

(** ** Derived [source]

    [parent] and [owner] are references to the object above; what is read
    through them is the chain of objects up to the suite.  [parent_link] is
    what a [BodyItemParent] other than [None] can be. *)

(** [UserKeyword.source], [Variable.source] and [Import.source]. *)
Definition owner_source (owner : option ResourceFile) : option Path :=
  match owner with
  | Some owner => ResourceFile_source owner
  | None => None
  end.

Definition UserKeyword_source := owner_source.
Definition Variable_source := owner_source.
Definition Import_source := owner_source.

Inductive parent_link : Type :=
| SuiteParent (suite : TestSuite)
| TestParent (parent : option TestSuite)
| UserKeywordParent (owner : option ResourceFile)
| ItemParent (parent : option parent_link).

(** [parent.source] for each kind of parent.  For, While, If, IfBranch,
    Try and TryBranch inherit [WithSource.source]; [source] of a TestCase is
    defined in robot.model (outside this module) and is taken from the
    specification, section 3: derived "by walking parent/owner links". *)
Fixpoint parent_source (p : parent_link) : option Path :=
  match p with
  | SuiteParent suite => suite_source suite
  | TestParent parent =>
    match parent with Some suite => suite_source suite | None => None end
  | UserKeywordParent owner => UserKeyword_source owner
  | ItemParent parent =>
    match parent with Some p' => parent_source p' | None => None end
  end.

(** [WithSource.source] *)
Definition WithSource_source (parent : option parent_link) : option Path :=
  match parent with
  | Some parent => parent_source parent
  | None => None
  end.

(** The paths stored in the objects of a chain, nearest first: a suite
    stores its source, a resource file stores [_source], nothing else
    stores a path. *)
Definition stored_above_owner (owner : option ResourceFile) : list (option Path) :=
  match owner with
  | Some rf =>
    rf__source rf ::
    match rf_owner rf with Some suite => [suite_source suite] | None => [] end
  | None => []
  end.

Fixpoint stored_paths (p : parent_link) : list (option Path) :=
  match p with
  | SuiteParent suite => [suite_source suite]
  | TestParent parent =>
    None :: match parent with Some suite => [suite_source suite] | None => [] end
  | UserKeywordParent owner => None :: stored_above_owner owner
  | ItemParent parent =>
    None :: match parent with Some p' => stored_paths p' | None => [] end
  end.

(** The nearest stored path of a chain. *)
Fixpoint nearest (paths : list (option Path)) : option Path :=
  match paths with
  | [] => None
  | Some path :: _ => Some path
  | None :: rest => nearest rest
  end.

(** ** Running body items *)

(** Modelled from the spec: StatusReporter (robot.running.statusreporter,
    outside this module).  Section 2: "a scoped wrapper that every node execution
    passes through: records start/end status"; section 4.3: "enter ->
    running; on normal completion -> passed; on a propagated failure/signal
    -> status derived from the signal, but the scope still closes in a
    guaranteed way on every exit path".  With [run] false the item is
    reported as not run.  What was raised inside the scope leaves it. *)
Inductive status :=
| RUNNING
| PASSED
| NOT_RUN
| RAISED (signal : exception).

Record report := mkReport {
  reported_item : BodyItem;
  reported_status : status
}.

(** The execution context: the dry-run flag, the variable store, and what
    the status reporters have recorded so far. *)
Record Context (V : Type) := mkContext {
  dry_run : bool;
  variables : V;
  reports : list report
}.
Arguments mkContext {V} _ _ _.
Arguments dry_run {V} _.
Arguments variables {V} _.
Arguments reports {V} _.

Section Running.
Context {V : Type} `{VariableScopes V} {case : CaseMapping}.

(** What a [run] leaves: the context after it and the exception that
    propagates, if any. *)
Definition outcome : Type := Context V * option exception.

Definition record_status (item : BodyItem) (st : status) (context : Context V)
  : Context V :=
  mkContext (dry_run context) (variables context)
            (reports context ++ [mkReport item st]).

Definition with_variables (vars : V) (context : Context V) : Context V :=
  mkContext (dry_run context) vars (reports context).

(** The context after an item went through its status reporter with the
    given final status: only the two reports were added. *)
Definition reported (item : BodyItem) (final : status) (context : Context V)
  : Context V :=
  record_status item final (record_status item RUNNING context).


(** Modelled from the spec: [with StatusReporter(data, result, context,
    run): block] (outside this module), as described above. *)
Definition StatusReporter (data : BodyItem) (run : bool)
    (block : Context V -> outcome) (context : Context V) : outcome :=
  let context := record_status data RUNNING context in
  let '(context, raised) := block context in
  let final :=
    match raised with
    | Some signal => RAISED signal
    | None => if run then PASSED else NOT_RUN
    end in
  (record_status data final context, raised).

(** [getattr(context.variables, f'set_{scope}')] *)
Definition getattr_set (scope : string)
  : result (V -> string -> resolved -> string + V) :=
  if scope =? "local" then Return_ set_local
  else if scope =? "test" then Return_ set_test
  else if scope =? "suite" then Return_ set_suite
  else if scope =? "global" then Return_ set_global
  else Raise (AttributeError ("set_" ++ scope)).

(** [Var.run] *)
Definition Var_run (self : Var) (context : Context V) (run : bool) : outcome :=
  StatusReporter (VarItem self) run (fun context =>
    if run then
      if truthy (var_error self) then
        (context, Some (DataError (the_str (var_error self)) true))
      else if negb (dry_run context) then
        match _get_scope self (variables context) with
        | inl raised => (context, Some raised)
        | inr scope =>
          match getattr_set scope with
          | inl raised => (context, Some raised)
          | inr setter =>
            let tried : string + V :=
              match resolve (var_name self) (var_value self) (var_separator self)
                            (variables context) with
              | inl err => inl err
              | inr value => setter (variables context) (var_name self) value
              end in
            match tried with
            | inr vars => (with_variables vars context, None)
            | inl err =>
              (context,
               Some (VariableError ("Setting variable '" ++ var_name self
                                    ++ "' failed: " ++ err)))
            end
          end
        end
      else (context, None)
    else (context, None)) context.

(** [Return.run] *)
Definition Return_run (self : Return) (context : Context V) (run : bool) : outcome :=
  StatusReporter (ReturnItem self) run (fun context =>
    if run then
      if truthy (ret_error self) then
        (context, Some (DataError (the_str (ret_error self)) true))
      else if negb (dry_run context) then
        (context, Some (ReturnFromKeyword (ret_values self)))
      else (context, None)
    else (context, None)) context.

(** [Continue.run] *)
Definition Continue_run (self : Continue) (context : Context V) (run : bool) : outcome :=
  StatusReporter (ContinueItem self) run (fun context =>
    if run then
      if truthy (cont_error self) then
        (context, Some (DataError (the_str (cont_error self)) true))
      else if negb (dry_run context) then (context, Some ContinueLoop)
      else (context, None)
    else (context, None)) context.

(** [Break.run] *)
Definition Break_run (self : Break) (context : Context V) (run : bool) : outcome :=
  StatusReporter (BreakItem self) run (fun context =>
    if run then
      if truthy (break_error self) then
        (context, Some (DataError (the_str (break_error self)) true))
      else if negb (dry_run context) then (context, Some BreakLoop)
      else (context, None)
    else (context, None)) context.

(** [Error.run] *)
Definition Error_run (self : Error) (context : Context V) (run : bool) : outcome :=
  StatusReporter (ErrorItem self) run (fun context =>
    if run then (context, Some (DataError (err_error self) false))
    else (context, None)) context.

(** The runners of robot.running.bodyrunner are outside this module: what
    ForRunner, WhileRunner, IfRunner and TryRunner do with an item that has
    no structural error, and what KeywordRunner does with a keyword call. *)
Variable algorithm : BodyItem -> Context V -> outcome.
Variable keyword_runner : Keyword -> Context V -> bool -> outcome.

(** Modelled from the spec: the shape the runners share (section 4.3):
    "wrap execution in a Status Reporter scope (...), then execute their
    specific algorithm only if run is true (...) and the node has no
    pre-recorded structural error (else: fail immediately with that
    error)". *)
Definition runner_run (data : BodyItem) (error : option string)
    (context : Context V) (run : bool) : outcome :=
  StatusReporter data run (fun context =>
    if run then
      if truthy error then (context, Some (DataError (the_str error) true))
      else algorithm data context
    else (context, None)) context.

(** [item.run(context, run)] *)
Definition run_item (item : BodyItem) (context : Context V) (run : bool) : outcome :=
  match item with
  | KeywordItem k => keyword_runner k context run
  | ForItem f _ => runner_run item (for_error f) context run
  | WhileItem w _ => runner_run item (while_error w) context run
  | IfItem i _ => runner_run item (if_error i) context run
  | TryItem t _ => runner_run item (try_error t) context run
  | VarItem v => Var_run v context run
  | ReturnItem r => Return_run r context run
  | ContinueItem c => Continue_run c context run
  | BreakItem b => Break_run b context run
  | ErrorItem e => Error_run e context run
  end.

(** The pre-recorded structural error of an item; a keyword call has none
    and the message of an Error item is not optional. *)
Definition structural_error (item : BodyItem) : option string :=
  match item with
  | KeywordItem _ => None
  | ForItem f _ => for_error f
  | WhileItem w _ => while_error w
  | IfItem i _ => if_error i
  | TryItem t _ => try_error t
  | VarItem v => var_error v
  | ReturnItem r => ret_error r
  | ContinueItem c => cont_error c
  | BreakItem b => break_error b
  | ErrorItem _ => None
  end.
End Running.

Arguments outcome : clear implicits.

(** ** A small variable store, for running the definitions on examples *)

Record Scopes := mkScopes {
  in_local : list (string * string);
  in_test : list (string * string);
  in_suite : list (string * string);
  in_global : list (string * string)
}.

Fixpoint lookup (name : string) (l : list (string * string)) : option string :=
  match l with
  | [] => None
  | (n, v) :: rest => if n =? name then Some v else lookup name rest
  end.

(** A string that is the name of a variable is replaced by its value, the
    nearest scope first; any other string is kept. *)
Definition Scopes_replace_string (vars : Scopes) (s : string) : string + string :=
  match lookup s (in_local vars ++ in_test vars ++ in_suite vars ++ in_global vars) with
  | Some v => inr v
  | None =>
    match s with
    | String "$" (String "{" _) => inl ("Variable '" ++ s ++ "' not found.")
    | _ => inr s
    end
  end.

Definition Scopes_resolve (name : string) (value : list string)
    (separator : option string) (vars : Scopes) : string + string :=
  inr (String.concat (match separator with Some sep => sep | None => " " end) value).

#[global] Instance Scopes_VariableScopes : VariableScopes Scopes := {
  resolved := string;
  replace_string := Scopes_replace_string;
  set_local vars name value :=
    inr (mkScopes ((name, value) :: in_local vars) (in_test vars)
                  (in_suite vars) (in_global vars));
  set_test vars name value :=
    inr (mkScopes (in_local vars) ((name, value) :: in_test vars)
                  (in_suite vars) (in_global vars));
  set_suite vars name value :=
    inr (mkScopes (in_local vars) (in_test vars)
                  ((name, value) :: in_suite vars) (in_global vars));
  set_global vars name value :=
    inr (mkScopes (in_local vars) (in_test vars) (in_suite vars)
                  ((name, value) :: in_global vars));
  resolve := Scopes_resolve
}.

Definition empty_scopes : Scopes := mkScopes [] [] [] [].

(** Runners that do nothing, for the examples. *)
Definition no_algorithm : BodyItem -> Context Scopes -> outcome Scopes :=
  fun _ context => (context, None).
Definition no_keyword_runner : Keyword -> Context Scopes -> bool -> outcome Scopes :=
  fun _ context _ => (context, None).


(** ** Examples and auxiliary notions used in the statements *)

(** Every key of the dictionary is one of [keys]. *)
Definition keys_within (keys : list string) (d : DataDict) : Prop :=
  forallb (fun k => str_in k keys) (dict_keys d) = true.

(** Log    hello *)
Definition sample_keyword : BodyItem :=
  KeywordItem (mkKeyword "Log" ["hello"] [] KEYWORD (Some 3%Z)).

(** FOR ${x} IN RANGE 3 / IF ${x} == 2 / BREAK / ELSE / Log hello *)
Definition sample_loop : BodyItem :=
  ForItem (mkFor ["${x}"] IN_RANGE ["3"] None None None (Some 2%Z) None)
    [ sample_keyword;
      IfItem (mkIf None None)
        [ (mkIfBranch IF (Some "${x} == 2") None,
           [BreakItem (mkBreak (Some 5%Z) None)]);
          (mkIfBranch ELSE None None, [sample_keyword]) ] ].

(** A record in the format of Robot Framework 6.1, with the loop variables
    under "variables". *)
Definition legacy_for_record : DataDict :=
  [("type", VStr "FOR"); ("variables", VList [VStr "${x}"]);
   ("values", VList [VStr "a"; VStr "b"])].

(** A record with an explicit line number 0. *)
Definition lineno_zero_record : DataDict :=
  [("name", VStr "Log"); ("lineno", VInt 0)].

(** How a call-site name is compared with the name of a keyword, by the
    kind of the name. *)
Definition matches_by_name {case : CaseMapping} (name text : string) : bool :=
  if has_placeholder name
  then is_some (match_parts (parse_name name "" None) text)
  else eq_ignoring_underscore name text.

(** The name has placeholder syntax: a "${" that is closed by a "}". *)
Definition contains_placeholder (name : string) : Prop :=
  exists before var after, name = before ++ "${" ++ var ++ "}" ++ after.

(** The name that the parts were read from: each text as it is, each
    placeholder as "${var}". *)
Fixpoint written_name (parts : list name_part) : string :=
  match parts with
  | [] => ""
  | Text t :: rest => t ++ written_name rest
  | Placeholder v :: rest => "${" ++ v ++ "}" ++ written_name rest
  end.

(** The text that the parts give when the placeholders take the values, in
    order; [None] when the values are more or fewer than the placeholders. *)
Fixpoint filled (parts : list name_part) (values : list string) : option string :=
  match parts with
  | [] => match values with [] => Some "" | _ :: _ => None end
  | Text t :: rest => option_map (append t) (filled rest values)
  | Placeholder _ :: rest =>
    match values with
    | [] => None
    | v :: values' => option_map (append v) (filled rest values')
    end
  end.

(** The search that [match_parts] makes for one placeholder: [matcher]
    matches the parts after it, [taken] is what the placeholder has taken
    so far and [left] the text that remains. *)
Definition take_shortest (matcher : string -> option (list string))
  : string -> string -> option (list string) :=
  fix take (taken left : string) {struct left} : option (list string) :=
    match matcher left with
    | Some values => Some (taken :: values)
    | None =>
      match left with
      | EmptyString => None
      | String c left' => take (taken ++ String c "") left'
      end
    end.

(** Two names that are the same up to the case of the ASCII letters and up
    to underscores. *)
Inductive same_name : string -> string -> Prop :=
| same_name_empty : same_name "" ""
| same_name_underscore_left (a b : string) :
    same_name a b -> same_name (String "_" a) b
| same_name_underscore_right (a b : string) :
    same_name a b -> same_name a (String "_" b)
| same_name_letter (c d : ascii) (a b : string) :
    lower_ascii c = lower_ascii d -> same_name a b ->
    same_name (String c a) (String d b).

(** A resource file read from /robot/resources/common.resource. *)
Definition common_resource : ResourceFile :=
  source_setter (Some (inr "/robot/resources/common.resource"))
                (mkResourceFile None None "" [] [] []).

(** The resource of the suite read from /robot/tests/login.robot. *)
Definition suite_resource : ResourceFile :=
  mkResourceFile None (Some (mkTestSuite (Some (Path_of_str "/robot/tests/login.robot"))))
                 "" [] [] [].

(** ** Imports: construction and records *)

(** What [Import.__init__] and a call with keyword arguments can raise. *)
Inductive import_error :=
| ValueError (message : string)
| TypeError.

Definition invalid_import_type (type : string) : string :=
  "Invalid import type: Expected 'LIBRARY', 'RESOURCE' or 'VARIABLES', got '"
  ++ type ++ "'.".

(** [type not in (self.LIBRARY, self.RESOURCE, self.VARIABLES)], with the
    type that is stored when the test passes. *)
Definition import_type_of (type : string) : option import_type :=
  find (fun t => import_type_name t =? type) [LIBRARY; RESOURCE; VARIABLES].

(** [Import.__init__] *)
Definition Import_init (type name : string) (args : list string)
    (alias : option string) (lineno : option Z) : import_error + Import :=
  match import_type_of type with
  | None => inl (ValueError (invalid_import_type type))
  | Some t => inr (mkImport t name args alias lineno)
  end.

(** [Import.from_dict]: the constructor called with the entries of the
    record as keyword arguments.  [type] and [name] are required, a
    key that is no parameter of the constructor is a TypeError.  The result
    is [None] for a record whose values are not of the types of the
    attributes (or that gives an owner): such an import is not one of
    [Import]. *)
Definition Import_from_dict (data : DataDict) : option (import_error + Import) :=
  if negb (forallb (fun k => str_in k ["type"; "name"; "args"; "alias"; "owner"; "lineno"])
                   (dict_keys data))
  then Some (inl TypeError)
  else if negb (dict_has "type" data && dict_has "name" data)
  then Some (inl TypeError)
  else if dict_has "owner" data then None
  else
    type <- attr as_str "" "type" data ;;
    name <- attr as_str "" "name" data ;;
    args <- attr as_seq [] "args" data ;;
    alias <- attr (as_opt as_str) None "alias" data ;;
    lineno <- attr (as_opt as_int) None "lineno" data ;;
    Some (Import_init type name args alias lineno).

(** [Imports.create]: the type, given by position or by keyword, is put in
    upper case; the import is built with the owner of the list and appended
    (robot.model.ItemList.create).  The result is the import and the list
    with it. *)
Definition Imports_create {case : CaseMapping} (type name : string)
    (args : list string) (alias : option string) (lineno : option Z)
    (imports : list Import) : import_error + Import * list Import :=
  match Import_init (upper type) name args alias lineno with
  | inl e => inl e
  | inr import => inr (import, (imports ++ [import])%list)
  end.

(** [Imports.library], [Imports.resource] and [Imports.variables] *)
Definition Imports_library {case : CaseMapping} (name : string)
    (args : list string) (alias : option string) (lineno : option Z)
    (imports : list Import) :=
  Imports_create (import_type_name LIBRARY) name args alias lineno imports.

Definition Imports_resource {case : CaseMapping} (name : string)
    (lineno : option Z) (imports : list Import) :=
  Imports_create (import_type_name RESOURCE) name [] None lineno imports.

Definition Imports_variables {case : CaseMapping} (name : string)
    (args : list string) (lineno : option Z) (imports : list Import) :=
  Imports_create (import_type_name VARIABLES) name args None lineno imports.

(** The import [from_dict] builds from the record of an import. *)
Definition restored_import (i : Import) : Import :=
  mkImport (imp_type i) (imp_name i) (imp_args i)
           (keep_truthy (imp_alias i)) (keep_truthy (imp_lineno i)).

(** ** Resource files: construction, keyword lookup, qualified names *)

(** A [ResourceFile] defines neither [__bool__] nor [__len__]. *)
#[global] Instance Truthy_ResourceFile : Truthy ResourceFile := fun _ => true.

(** [ResourceFile.__init__] *)
Definition ResourceFile_init (source : option (Path + string))
    (owner : option TestSuite) (doc : string) : ResourceFile :=
  source_setter source (mkResourceFile None owner doc [] [] []).

Definition with_owner (owner : option TestSuite) (self : ResourceFile)
  : ResourceFile :=
  mkResourceFile (rf__source self) owner (rf_doc self) (rf_imports self)
                 (rf_variables self) (rf_keywords self).

Section SuiteResource.
(** [ResourceFile.from_dict] is [ModelObject.from_dict], outside this
    module; [None] when it raises. *)
Variable ResourceFile_from_dict : DataDict -> option ResourceFile.

(** [TestSuite.resource] setter: a record is built into a resource file
    owned by the suite; a resource file is stored as it is. *)
Definition resource_setter (self : TestSuite) (resource : ResourceFile + DataDict)
  : option ResourceFile :=
  match resource with
  | inr data => option_map (with_owner (Some self)) (ResourceFile_from_dict data)
  | inl resource => Some resource
  end.

(** The resource [TestSuite.__init__] gives a suite:
    [self.resource = ResourceFile(owner=self)]. *)
Definition TestSuite_init_resource (self : TestSuite) : option ResourceFile :=
  resource_setter self (inl (ResourceFile_init None (Some self) "")).
End SuiteResource.

(** Modelled from the spec: [normalize(name, ignore='_')] (robot.utils,
    outside this module), the string that [eq] compares: section 4.5,
    "case/underscore-insensitive". *)
Definition normalize_ignoring_underscore {case : CaseMapping} (s : string)
  : string :=
  lower (remove_char "_" s).

(** [ResourceFile.find_keywords] *)
Definition find_keywords {case : CaseMapping} (self : ResourceFile)
    (name : string) (include_embedded : bool) : list UserKeyword :=
  let norm_name := normalize_ignoring_underscore name in
  fold_left
    (fun keywords kw =>
       if is_some (uk_embedded kw) then
         if include_embedded && value_of (matches name kw)
         then (keywords ++ [kw])%list else keywords
       else
         if normalize_ignoring_underscore (uk_name kw) =? norm_name
         then (keywords ++ [kw])%list else keywords)
    (rf_keywords self) [].

(** [UserKeyword.full_name], read through the owner link. *)
Definition UserKeyword_full_name (owner : option ResourceFile) (self : UserKeyword)
  : string :=
  match owner with
  | Some o =>
    if truthy o && truthy (ResourceFile_name o)
    then the_str (ResourceFile_name o) ++ "." ++ uk_name self
    else uk_name self
  | None => uk_name self
  end.

(** The keys [to_dict] of each container can write. *)
Definition Import_keys : list string := ["type"; "name"; "args"; "alias"; "lineno"].
Definition Variable_keys : list string := ["name"; "value"; "lineno"; "error"].
Definition UserKeyword_keys : list string :=
  ["name"; "args"; "doc"; "tags"; "timeout"; "lineno"; "error"; "setup"; "body";
   "teardown"].
Definition ResourceFile_keys : list string :=
  ["source"; "doc"; "imports"; "variables"; "keywords"].

Section Setters.
Context {V : Type} `{VariableScopes V}.

(** The setter of each store. *)
Definition store_setter (store : store_name)
  : V -> string -> resolved -> string + V :=
  match store with
  | LOCAL => set_local
  | TEST => set_test
  | SUITE => set_suite
  | GLOBAL => set_global
  end.

(** The message of the VariableError [Var.run] raises. *)
Definition setting_failed (self : Var) (err : string) : exception :=
  VariableError ("Setting variable '" ++ var_name self ++ "' failed: " ++ err).
End Setters.

(** ** A case mapping for the examples

    Python's mapping on text made of ASCII characters, the long s (U+017F,
    bytes C5 BF) and the dotless i (U+0131, bytes C4 B1): upper-casing
    turns the long s into 'S' and the dotless i into 'I', lower-casing
    leaves both as they are; every other byte from 128 up is kept. *)

Definition long_s : string := String (ascii_of_nat 197) (String (ascii_of_nat 191) "").
Definition dotless_i : string := String (ascii_of_nat 196) (String (ascii_of_nat 177) "").

Fixpoint latin_upper (s : string) : string :=
  match s with
  | EmptyString => EmptyString
  | String c rest =>
    match rest with
    | String d rest' =>
      if ((nat_of_ascii c =? 197) && (nat_of_ascii d =? 191))%nat
      then String "S" (latin_upper rest')
      else if ((nat_of_ascii c =? 196) && (nat_of_ascii d =? 177))%nat
      then String "I" (latin_upper rest')
      else String (upper_ascii c) (latin_upper rest)
    | EmptyString => String (upper_ascii c) EmptyString
    end
  end.

Definition latin_lower (s : string) : string := ascii_lower s.

Definition latin_case : CaseMapping.
Proof.
  refine {| upper := latin_upper; lower := latin_lower |}.
  - induction s as [|c s IH]; [reflexivity|].
    cbn [isascii]. intros Hs. apply andb_prop in Hs. destruct Hs as [Hc Hs].
    apply Nat.ltb_lt in Hc.
    change (ascii_upper (String c s)) with (String (upper_ascii c) (ascii_upper s)).
    rewrite <- (IH Hs). cbn [latin_upper].
    destruct s as [|d s']; [reflexivity|].
    replace (nat_of_ascii c =? 197)%nat with false
      by (symmetry; apply Nat.eqb_neq; lia).
    replace (nat_of_ascii c =? 196)%nat with false
      by (symmetry; apply Nat.eqb_neq; lia).
    reflexivity.
  - reflexivity.
Defined.

(* ================================================================== *)
(** * Properties *)
(* ================================================================== *)

(** ** Case mapping *)

Lemma lower_upper_ascii (c : ascii) : lower_ascii (upper_ascii c) = lower_ascii c.
Proof. destruct c as [[] [] [] [] [] [] [] []]; reflexivity. Qed.

Lemma upper_lower_ascii (c : ascii) : upper_ascii (lower_ascii c) = upper_ascii c.
Proof. destruct c as [[] [] [] [] [] [] [] []]; reflexivity. Qed.

Lemma ascii_lower_upper (s : string) : ascii_lower (ascii_upper s) = ascii_lower s.
Proof.
  induction s as [|c s IH]; [reflexivity|].
  cbn. unfold ascii_upper, ascii_lower in IH. now rewrite IH, lower_upper_ascii.
Qed.

Lemma ascii_upper_lower (s : string) : ascii_upper (ascii_lower s) = ascii_upper s.
Proof.
  induction s as [|c s IH]; [reflexivity|].
  cbn. unfold ascii_upper, ascii_lower in IH. now rewrite IH, upper_lower_ascii.
Qed.

Lemma upper_ascii_below_128 (c : ascii) :
  (nat_of_ascii (upper_ascii c) <? 128)%nat = (nat_of_ascii c <? 128)%nat.
Proof. destruct c as [[] [] [] [] [] [] [] []]; reflexivity. Qed.

Lemma lower_ascii_below_128 (c : ascii) :
  (nat_of_ascii (lower_ascii c) <? 128)%nat = (nat_of_ascii c <? 128)%nat.
Proof. destruct c as [[] [] [] [] [] [] [] []]; reflexivity. Qed.

Lemma isascii_ascii_upper (s : string) : isascii (ascii_upper s) = isascii s.
Proof.
  induction s as [|c s IH]; [reflexivity|].
  cbn [ascii_upper str_map isascii]. unfold ascii_upper in IH.
  now rewrite IH, upper_ascii_below_128.
Qed.

Lemma isascii_ascii_lower (s : string) : isascii (ascii_lower s) = isascii s.
Proof.
  induction s as [|c s IH]; [reflexivity|].
  cbn [ascii_lower str_map isascii]. unfold ascii_lower in IH.
  now rewrite IH, lower_ascii_below_128.
Qed.

Section CaseMappingProperties.
Context {case : CaseMapping}.

(** On ASCII text, and there only, upper-casing is undone by lower-casing. *)
Lemma lower_upper (s : string) : isascii s = true -> lower (upper s) = lower s.
Proof.
  intros Hs. rewrite (upper_isascii s Hs).
  rewrite lower_isascii by now rewrite isascii_ascii_upper.
  rewrite (lower_isascii s Hs). apply ascii_lower_upper.
Qed.

Lemma upper_lower (s : string) : isascii s = true -> upper (lower s) = upper s.
Proof.
  intros Hs. rewrite (lower_isascii s Hs).
  rewrite upper_isascii by now rewrite isascii_ascii_lower.
  rewrite (upper_isascii s Hs). apply ascii_upper_lower.
Qed.

(** Comparing the upper-cased value with an upper-case word is, on ASCII
    text, comparing both sides with their case ignored. *)
Lemma upper_eqb_caseless (s word : string) :
  isascii s = true -> isascii word = true -> ascii_upper word = word ->
  (upper s =? word) = same_ignoring_case s word.
Proof.
  intros Hs Hword Hw. unfold same_ignoring_case.
  rewrite (upper_isascii s Hs), (lower_isascii s Hs), (lower_isascii word Hword).
  destruct (String.eqb_spec (ascii_upper s) word) as [E|E];
    destruct (String.eqb_spec (ascii_lower s) (ascii_lower word)) as [F|F];
    try reflexivity; exfalso.
  - apply F. now rewrite <- E, ascii_lower_upper.
  - apply E. now rewrite <- Hw, <- (ascii_upper_lower s), F, ascii_upper_lower.
Qed.
End CaseMappingProperties.

(** The case mapping of the examples on the long s and the dotless i. *)
Example latin_case_examples :
  upper (case := latin_case) (long_s ++ "uite") = "SUITE" /\
  lower (case := latin_case) (long_s ++ "uite") = long_s ++ "uite" /\
  upper (case := latin_case) ("l" ++ dotless_i ++ "brary") = "LIBRARY" /\
  upper (case := latin_case) "Suite" = "SUITE" /\
  lower (case := latin_case) "Suite" = "suite".
Proof. repeat split. Qed.

(** ** Scope of a VAR item *)

Section ScopeProperties.
Context {V : Type} `{VariableScopes V} {case : CaseMapping}.

(** [_get_scope], branch by branch: the substituted value is tested in
    upper case and returned in lower case. *)
Lemma get_scope_branches (self : Var) (variables : V) :
  _get_scope self variables =
  match var_scope self with
  | None => Return_ "local"
  | Some token =>
    if token =? "" then Return_ "local"
    else
      match replace_string variables token with
      | inl err => Raise (DataError ("Invalid VAR scope: " ++ err) false)
      | inr value =>
        if upper value =? "TASK" then Return_ "test"
        else if str_in (upper value) ["GLOBAL"; "SUITE"; "TEST"; "LOCAL"]
             then Return_ (lower value)
             else Raise (DataError ("Invalid VAR scope: Value '" ++ value
                                    ++ "' is not accepted. Valid values are "
                                    ++ "'GLOBAL', 'SUITE', 'TEST', 'TASK' and 'LOCAL'.")
                                   false)
      end
  end.
Proof.
  unfold _get_scope.
  destruct (var_scope self) as [token|]; [|reflexivity].
  destruct token as [|c token]; [reflexivity|].
  change (negb (truthy (Some (String c token)))) with false.
  cbv iota. cbn [the_str String.eqb].
  destruct (replace_string variables (String c token)) as [err|value];
    [reflexivity|].
  destruct (upper value =? "TASK"); [reflexivity|].
  destruct (str_in (upper value) _); reflexivity.
Qed.

(** When the substituted value is ASCII text, scope resolution is the rule
    of the specification: [_get_scope] returns the setter suffix of the
    store chosen by [spec_resolve_scope], and raises what it raises. *)
Lemma get_scope_resolves_isascii (self : Var) (variables : V) :
  (forall value,
     replace_string variables (the_str (var_scope self)) = inr value ->
     isascii value = true) ->
  _get_scope self variables =
  match spec_resolve_scope (var_scope self) variables with
  | inl e => Raise e
  | inr store => Return_ (setter_suffix store)
  end.
Proof.
  intros Hascii. unfold _get_scope, spec_resolve_scope.
  destruct (var_scope self) as [token|]; [|reflexivity].
  destruct token as [|c token]; [reflexivity|].
  change (negb (truthy (Some (String c token)))) with false.
  cbv iota. cbn [the_str] in *.
  destruct (replace_string variables (String c token)) as [err|value];
    [reflexivity|].
  specialize (Hascii value eq_refl).
  unfold str_in, existsb.
  rewrite !(upper_eqb_caseless value) by (reflexivity || assumption).
  unfold same_ignoring_case.
  rewrite !(lower_isascii _ Hascii).
  rewrite !lower_isascii by reflexivity.
  destruct (String.eqb_spec (ascii_lower value) (ascii_lower "TASK")) as [E|_].
  { cbn in E. rewrite E. reflexivity. }
  destruct (String.eqb_spec (ascii_lower value) (ascii_lower "GLOBAL")) as [E|_].
  { cbn in E. rewrite E. reflexivity. }
  destruct (String.eqb_spec (ascii_lower value) (ascii_lower "SUITE")) as [E|_].
  { cbn in E. rewrite E. reflexivity. }
  destruct (String.eqb_spec (ascii_lower value) (ascii_lower "TEST")) as [E|_].
  { cbn in E. rewrite E. reflexivity. }
  destruct (String.eqb_spec (ascii_lower value) (ascii_lower "LOCAL")) as [E|_].
  { cbn in E. rewrite E. reflexivity. }
  reflexivity.
Qed.

(** The lookup of a setter fails for every name but the four. *)
Lemma getattr_set_unknown (scope : string) :
  (forall store, scope <> setter_suffix store) ->
  getattr_set (V := V) scope = Raise (AttributeError ("set_" ++ scope)).
Proof.
  intros Hno. unfold getattr_set.
  destruct (String.eqb_spec scope "local") as [E|_]; [destruct (Hno LOCAL E)|].
  destruct (String.eqb_spec scope "test") as [E|_]; [destruct (Hno TEST E)|].
  destruct (String.eqb_spec scope "suite") as [E|_]; [destruct (Hno SUITE E)|].
  destruct (String.eqb_spec scope "global") as [E|_]; [destruct (Hno GLOBAL E)|].
  reflexivity.
Qed.

(** C1.  Scope resolution does not always end in a store or in the
    invalid-scope error.  The substituted value is tested in upper case
    ([scope.upper() in (...)]) and returned in lower case ([scope.lower()]),
    and Python's two mappings need not agree outside ASCII.  For a VAR item
    whose substituted scope upper-cases to GLOBAL, SUITE, TEST or LOCAL
    while its lower-case form is the name of no store, [_get_scope] returns
    that lower-case form: no store is chosen and no DataError is raised.
    [Var.run] then fails with an AttributeError when it looks the setter
    up, and the variable store is left as it was. *)
Theorem get_scope_returns_no_store (self : Var) (context : Context V)
    (token value : string) :
  var_scope self = Some token -> token <> "" ->
  replace_string (variables context) token = inr value ->
  In (upper value) ["GLOBAL"; "SUITE"; "TEST"; "LOCAL"] ->
  (forall store, lower value <> setter_suffix store) ->
  _get_scope self (variables context) = Return_ (lower value) /\
  (truthy (var_error self) = false -> dry_run context = false ->
   snd (Var_run self context true) =
     Some (AttributeError ("set_" ++ lower value)) /\
   variables (fst (Var_run self context true)) = variables context).
Proof.
  intros Hscope Htoken Hvalue Hupper Hlower.
  assert (Hget : _get_scope self (variables context) = Return_ (lower value)).
  { rewrite get_scope_branches, Hscope.
    destruct (String.eqb_spec token "") as [E|_]; [destruct (Htoken E)|].
    rewrite Hvalue.
    destruct (String.eqb_spec (upper value) "TASK") as [E|_].
    { rewrite E in Hupper. cbn in Hupper.
      repeat (destruct Hupper as [Hupper|Hupper]; [discriminate|]).
      destruct Hupper. }
    replace (str_in (upper value) ["GLOBAL"; "SUITE"; "TEST"; "LOCAL"]) with true;
      [reflexivity|].
    symmetry. apply existsb_exists. exists (upper value).
    split; [exact Hupper|apply String.eqb_refl]. }
  split; [exact Hget|].
  intros He Hd. unfold Var_run, StatusReporter.
  cbn [dry_run variables record_status]. rewrite He, Hd. cbn [negb].
  unfold Return_ in Hget. rewrite Hget.
  rewrite (getattr_set_unknown _ Hlower). cbn. split; reflexivity.
Qed.
End ScopeProperties.

Lemma get_scope_returns_no_store_witness :
  let scope := long_s ++ "uite" in
  let self := mkVar "${x}" ["1"] (Some scope) None None None in
  let context := mkContext false empty_scopes [] in
  _get_scope (case := latin_case) self empty_scopes = Return_ scope /\
  snd (Var_run (case := latin_case) self context true) =
    Some (AttributeError ("set_" ++ scope)) /\
  variables (fst (Var_run (case := latin_case) self context true)) = empty_scopes.
Proof.
  cbv zeta.
  destruct (get_scope_returns_no_store (V := Scopes) (case := latin_case)
              (mkVar "${x}" ["1"] (Some (long_s ++ "uite")) None None None)
              (mkContext false empty_scopes [])
              (long_s ++ "uite") (long_s ++ "uite")
              eq_refl ltac:(discriminate) eq_refl
              ltac:(right; left; reflexivity)
              ltac:(intros []; discriminate)) as [Hget Hrun].
  destruct (Hrun eq_refl eq_refl) as [Hraised Hstore].
  split; [exact Hget|]. split; [exact Hraised|exact Hstore].
Defined.

(** [_get_scope] on the example store: a scope given through a variable, the
    TASK alias in mixed case, a value that is no scope, a variable that
    does not exist; a TASK written with a long s is the test store, a TEST
    and a SUITE written with a long s or a dotless i are returned as they
    were given. *)
Example get_scope_examples :
  let vars := mkScopes [("${where}", "Suite")] [] [] [] in
  let var scope := mkVar "${x}" ["1"] scope None None None in
  let get_scope := _get_scope (case := latin_case) in
  get_scope (var None) vars = Return_ "local" /\
  get_scope (var (Some "")) vars = Return_ "local" /\
  get_scope (var (Some "${where}")) vars = Return_ "suite" /\
  get_scope (var (Some "Task")) vars = Return_ "test" /\
  get_scope (var (Some "nowhere")) vars =
    Raise (DataError ("Invalid VAR scope: Value 'nowhere' is not accepted. "
                      ++ "Valid values are 'GLOBAL', 'SUITE', 'TEST', 'TASK' and 'LOCAL'.")
                     false) /\
  get_scope (var (Some "${nope}")) vars =
    Raise (DataError "Invalid VAR scope: Variable '${nope}' not found." false) /\
  get_scope (var (Some ("ta" ++ long_s ++ "k"))) vars = Return_ "test" /\
  get_scope (var (Some ("te" ++ long_s ++ "t"))) vars =
    Return_ ("te" ++ long_s ++ "t") /\
  get_scope (var (Some ("su" ++ dotless_i ++ "te"))) vars =
    Return_ ("su" ++ dotless_i ++ "te").
Proof. repeat split. Qed.

(** ** Dictionaries *)

Lemma dict_get_set (k k' : string) (v : value) (d : DataDict) :
  dict_get k (dict_set k' v d) = if k =? k' then Some v else dict_get k d.
Proof.
  induction d as [|[k2 v2] d IH]; cbn.
  - reflexivity.
  - destruct (String.eqb_spec k' k2) as [->|N]; cbn.
    + destruct (String.eqb_spec k k2); reflexivity.
    + rewrite IH.
      destruct (String.eqb_spec k k2) as [->|]; [|reflexivity].
      destruct (String.eqb_spec k2 k'); [congruence|reflexivity].
Qed.

Lemma dict_get_set_eq (k : string) (v : value) (d : DataDict) :
  dict_get k (dict_set k v d) = Some v.
Proof. rewrite dict_get_set. now rewrite String.eqb_refl. Qed.

Lemma dict_get_set_ne (k k' : string) (v : value) (d : DataDict) :
  (k =? k') = false -> dict_get k (dict_set k' v d) = dict_get k d.
Proof. intros E. rewrite dict_get_set. now rewrite E. Qed.

Lemma dict_get_omit_ne {A} (isd : A -> bool) enc (k k' : string) a d :
  (k =? k') = false -> dict_get k (omit_default isd enc k' a d) = dict_get k d.
Proof.
  intros E. unfold omit_default. destruct (isd a); [reflexivity|].
  now apply dict_get_set_ne.
Qed.

Lemma dict_get_omit_eq {A} (isd : A -> bool) enc (k : string) a d :
  dict_get k (omit_default isd enc k a d) =
  if isd a then dict_get k d else Some (enc a).
Proof.
  unfold omit_default. destruct (isd a); [reflexivity|].
  apply dict_get_set_eq.
Qed.

Lemma dict_get_truthy_ne {A} `{Truthy A} enc (k k' : string) (a : A) d :
  (k =? k') = false -> dict_get k (set_if_truthy enc k' a d) = dict_get k d.
Proof.
  intros E. unfold set_if_truthy. destruct (truthy a); [|reflexivity].
  now apply dict_get_set_ne.
Qed.

Lemma dict_get_truthy_eq {A} `{Truthy A} enc (k : string) (a : A) d :
  dict_get k (set_if_truthy enc k a d) =
  if truthy a then Some (enc a) else dict_get k d.
Proof.
  unfold set_if_truthy. destruct (truthy a); [|reflexivity].
  apply dict_get_set_eq.
Qed.

(** The keys of a dictionary after an assignment. *)
Lemma forallb_keys_set (P : string -> bool) k v d :
  forallb P (dict_keys (dict_set k v d)) = P k && forallb P (dict_keys d).
Proof.
  unfold dict_keys.
  induction d as [|[k2 v2] d IH]; cbn.
  - reflexivity.
  - destruct (String.eqb_spec k k2) as [->|N]; cbn.
    + now destruct (P k2).
    + rewrite IH. now destruct (P k), (P k2).
Qed.


Lemma keys_within_set keys k v d :
  str_in k keys = true -> keys_within keys d -> keys_within keys (dict_set k v d).
Proof.
  unfold keys_within. intros Hk Hd. now rewrite forallb_keys_set, Hk, Hd.
Qed.

Lemma keys_within_omit {A} keys (isd : A -> bool) enc k a d :
  str_in k keys = true -> keys_within keys d ->
  keys_within keys (omit_default isd enc k a d).
Proof.
  intros Hk Hd. unfold omit_default. destruct (isd a); [assumption|].
  now apply keys_within_set.
Qed.

Lemma keys_within_truthy {A} `{Truthy A} keys enc k (a : A) d :
  str_in k keys = true -> keys_within keys d ->
  keys_within keys (set_if_truthy enc k a d).
Proof.
  intros Hk Hd. unfold set_if_truthy. destruct (truthy a); [|assumption].
  now apply keys_within_set.
Qed.

Lemma known_keys_within keys d : keys_within keys d -> known_keys keys d = Some tt.
Proof. unfold keys_within, known_keys. now intros ->. Qed.

(** ** Attributes read back from a serialised record *)

Lemma attr_set_eq {A} (dec : value -> option A) def k v d :
  attr dec def k (dict_set k v d) = dec v.
Proof. unfold attr. now rewrite dict_get_set_eq. Qed.

Lemma attr_set_ne {A} (dec : value -> option A) def k k' v d :
  (k =? k') = false -> attr dec def k (dict_set k' v d) = attr dec def k d.
Proof. intros E. unfold attr. now rewrite dict_get_set_ne. Qed.

Lemma attr_omit_eq {A B} (dec : value -> option A) def (isd : B -> bool) enc k a d :
  attr dec def k (omit_default isd enc k a d) =
  if isd a then attr dec def k d else dec (enc a).
Proof. unfold attr. rewrite dict_get_omit_eq. now destruct (isd a). Qed.

Lemma attr_omit_ne {A B} (dec : value -> option A) def (isd : B -> bool) enc k k' a d :
  (k =? k') = false ->
  attr dec def k (omit_default isd enc k' a d) = attr dec def k d.
Proof. intros E. unfold attr. now rewrite dict_get_omit_ne. Qed.

Lemma attr_truthy_eq {A B} `{Truthy B} (dec : value -> option A) def enc k (a : B) d :
  attr dec def k (set_if_truthy enc k a d) =
  if truthy a then dec (enc a) else attr dec def k d.
Proof. unfold attr. rewrite dict_get_truthy_eq. now destruct (truthy a). Qed.

Lemma attr_truthy_ne {A B} `{Truthy B} (dec : value -> option A) def enc k k' (a : B) d :
  (k =? k') = false ->
  attr dec def k (set_if_truthy enc k' a d) = attr dec def k d.
Proof. intros E. unfold attr. now rewrite dict_get_truthy_ne. Qed.

Lemma attr_nil {A} (dec : value -> option A) def k : attr dec def k [] = Some def.
Proof. reflexivity. Qed.

Lemma attr_cons_ne {A} (dec : value -> option A) def k k' v d :
  (k =? k') = false -> attr dec def k ((k', v) :: d) = attr dec def k d.
Proof. intros E. unfold attr. cbn. now rewrite E. Qed.

Lemma attr_cons_eq {A} (dec : value -> option A) def k v d :
  attr dec def k ((k, v) :: d) = dec v.
Proof. unfold attr. cbn. now rewrite String.eqb_refl. Qed.

(** Reading an attribute or a key through the assignments of [to_dict]. *)
Ltac peel :=
  repeat first
    [ rewrite attr_set_ne by reflexivity
    | rewrite attr_omit_ne by reflexivity
    | rewrite attr_truthy_ne by reflexivity
    | rewrite dict_get_set_ne by reflexivity
    | rewrite dict_get_omit_ne by reflexivity
    | rewrite dict_get_truthy_ne by reflexivity
    | rewrite attr_set_eq
    | rewrite attr_omit_eq
    | rewrite attr_truthy_eq
    | rewrite dict_get_set_eq
    | rewrite dict_get_omit_eq
    | rewrite dict_get_truthy_eq
    | rewrite attr_cons_ne by reflexivity
    | rewrite attr_cons_eq
    | rewrite attr_nil ].

Ltac keys :=
  apply known_keys_within;
  repeat first
    [ apply keys_within_set; [reflexivity|]
    | apply keys_within_omit; [reflexivity|]
    | apply keys_within_truthy; [reflexivity|] ];
  reflexivity.

(** Values decode to what was encoded. *)
Lemma as_seq_value (l : list string) : as_seq (seq_value l) = Some l.
Proof.
  unfold as_seq, seq_value. induction l as [|x l IH]; cbn; [reflexivity|].
  now rewrite IH.
Qed.

Lemma as_dicts_value (ds : list DataDict) : as_dicts (dicts_value ds) = Some ds.
Proof.
  unfold as_dicts, dicts_value. induction ds as [|x l IH]; cbn; [reflexivity|].
  now rewrite IH.
Qed.

Lemma seq_back (l : list string) :
  (if negb (truthy l) then Some [] else as_seq (seq_value l)) = Some l.
Proof. destruct l; [reflexivity|]. apply as_seq_value. Qed.

Lemma str_back (s : string) :
  (if "" =? s then Some "" else as_str (str_value s)) = Some s.
Proof. now destruct s. Qed.

Lemma opt_str_back (o : option string) :
  (if match o with None => true | Some _ => false end
   then Some None else as_opt as_str (opt_value str_value o)) = Some o.
Proof. now destruct o. Qed.

Lemma lineno_back (o : option Z) :
  set_or_none o = true ->
  (if truthy o then as_opt as_int (lineno_value o) else Some None) = Some o.
Proof. destruct o as [z|]; cbn; [|reflexivity]. now intros ->. Qed.

Lemma error_back (o : option string) :
  set_or_none o = true ->
  (if truthy o then as_opt as_str (error_value o) else Some None) = Some o.
Proof. destruct o as [z|]; cbn; [|reflexivity]. now intros ->. Qed.

Ltac back :=
  repeat first
    [ rewrite seq_back | rewrite str_back | rewrite opt_str_back
    | rewrite lineno_back by assumption | rewrite error_back by assumption ].

Lemma keyword_type_back (t : keyword_type) :
  (if match t with KEYWORD => true | _ => false end
   then Some KEYWORD else as_keyword_type (str_value (keyword_type_name t))) = Some t.
Proof. now destruct t. Qed.

Lemma flavor_back (f : for_flavor) :
  (if match f with IN => true | _ => false end
   then Some IN else as_flavor (str_value (flavor_name f))) = Some f.
Proof. now destruct f. Qed.

Lemma if_branch_type_back (t : if_branch_type) :
  (if match t with IF => true | _ => false end
   then Some IF else as_if_branch_type (str_value (if_branch_type_name t))) = Some t.
Proof. now destruct t. Qed.

Lemma try_branch_type_back (t : try_branch_type) :
  (if match t with TRY => true | _ => false end
   then Some TRY else as_try_branch_type (str_value (try_branch_type_name t))) = Some t.
Proof. now destruct t. Qed.

Ltac enums :=
  repeat first
    [ rewrite keyword_type_back | rewrite flavor_back
    | rewrite if_branch_type_back | rewrite try_branch_type_back ].

Ltac attrs :=
  unfold tagged, attr_seq, attr_opt_str, attr_lineno, attr_error, attr_body;
  unfold put_seq, put_str, put_opt_str;
  peel; back; enums;
  cbn [dict_get String.eqb Ascii.eqb Bool.eqb bind].

(** ** Round trip of each class *)

Lemma Keyword_from_to_dict (k : Keyword) :
  set_or_none (kw_lineno k) = true ->
  model_Keyword_from_dict (Keyword_to_dict k) = Some k.
Proof.
  intros Hl. destruct k; cbn [kw_lineno] in *.
  unfold model_Keyword_from_dict, Keyword_to_dict, model_Keyword_to_dict.
  cbn [kw_name kw_args kw_assign kw_type kw_lineno].
  replace (known_keys _ _) with (Some tt) by (symmetry; unfold put_seq, put_str; keys).
  attrs. reflexivity.
Qed.

Lemma For_from_to_dict bf (f : For) ds body :
  set_or_none (for_lineno f) = true -> set_or_none (for_error f) = true ->
  bf (dicts_value ds) = Some body ->
  For_from_dict bf (For_to_dict f ds) = Some (ForItem f body).
Proof.
  intros Hl He Hb. destruct f; cbn [for_lineno for_error] in *.
  unfold For_from_dict, rename_key, For_to_dict, model_For_to_dict.
  cbn [for_assign for_flavor_ for_values for_start for_mode for_fill
       for_lineno for_error].
  unfold put_seq, put_str, put_opt_str.
  peel. cbn [dict_get String.eqb Ascii.eqb Bool.eqb].
  unfold model_For_from_dict.
  replace (known_keys _ _) with (Some tt) by (symmetry; keys).
  attrs. rewrite Hb. reflexivity.
Qed.

Lemma While_from_to_dict bf (w : While) ds body :
  set_or_none (while_lineno w) = true -> set_or_none (while_error w) = true ->
  bf (dicts_value ds) = Some body ->
  While_from_dict bf (While_to_dict w ds) = Some (WhileItem w body).
Proof.
  intros Hl He Hb. destruct w; cbn [while_lineno while_error] in *.
  unfold While_from_dict, While_to_dict, model_While_to_dict.
  cbn [while_condition while_limit while_on_limit while_on_limit_message
       while_lineno while_error].
  replace (known_keys _ _) with (Some tt) by (symmetry; unfold put_opt_str; keys).
  attrs. rewrite Hb. reflexivity.
Qed.

Lemma IfBranch_from_to_dict bf (b : IfBranch) ds body :
  set_or_none (ifb_lineno b) = true ->
  bf (dicts_value ds) = Some body ->
  IfBranch_from_dict bf (IfBranch_to_dict b ds) = Some (b, body).
Proof.
  intros Hl Hb. destruct b; cbn [ifb_lineno] in *.
  unfold IfBranch_from_dict, IfBranch_to_dict, model_IfBranch_to_dict.
  cbn [ifb_type ifb_condition ifb_lineno].
  replace (known_keys _ _) with (Some tt) by (symmetry; unfold put_opt_str; keys).
  attrs. rewrite Hb. reflexivity.
Qed.

Lemma If_from_to_dict bf (i : If) ds branches :
  set_or_none (if_lineno i) = true -> set_or_none (if_error i) = true ->
  traverse (IfBranch_from_dict bf) ds = Some branches ->
  If_from_dict bf (If_to_dict i ds) = Some (IfItem i branches).
Proof.
  intros Hl He Hb. destruct i; cbn [if_lineno if_error] in *.
  unfold If_from_dict, If_to_dict, model_If_to_dict.
  replace (known_keys _ _) with (Some tt) by (symmetry; keys).
  attrs. cbn beta. rewrite as_dicts_value. cbn [bind]. rewrite Hb. reflexivity.
Qed.

Lemma TryBranch_from_to_dict bf (b : TryBranch) ds body :
  set_or_none (tryb_lineno b) = true ->
  bf (dicts_value ds) = Some body ->
  TryBranch_from_dict bf (TryBranch_to_dict b ds) = Some (b, body).
Proof.
  intros Hl Hb. destruct b; cbn [tryb_lineno] in *.
  unfold TryBranch_from_dict, rename_key, TryBranch_to_dict,
         model_TryBranch_to_dict.
  cbn [tryb_type tryb_patterns tryb_pattern_type tryb_assign tryb_lineno].
  unfold put_seq, put_str, put_opt_str.
  peel. cbn [dict_get String.eqb Ascii.eqb Bool.eqb].
  unfold model_TryBranch_from_dict.
  replace (known_keys _ _) with (Some tt) by (symmetry; keys).
  attrs. rewrite Hb. reflexivity.
Qed.

Lemma Try_from_to_dict bf (t : Try) ds branches :
  set_or_none (try_lineno t) = true -> set_or_none (try_error t) = true ->
  traverse (TryBranch_from_dict bf) ds = Some branches ->
  Try_from_dict bf (Try_to_dict t ds) = Some (TryItem t branches).
Proof.
  intros Hl He Hb. destruct t; cbn [try_lineno try_error] in *.
  unfold Try_from_dict, Try_to_dict, model_Try_to_dict.
  replace (known_keys _ _) with (Some tt) by (symmetry; keys).
  attrs. cbn beta. rewrite as_dicts_value. cbn [bind]. rewrite Hb. reflexivity.
Qed.

Lemma Var_from_to_dict (v : Var) :
  set_or_none (var_lineno v) = true -> set_or_none (var_error v) = true ->
  Var_from_dict (Var_to_dict v) = Some v.
Proof.
  intros Hl He. destruct v; cbn [var_lineno var_error] in *.
  unfold Var_from_dict, Var_to_dict, model_Var_to_dict.
  cbn [var_name var_value var_scope var_separator var_lineno var_error].
  replace (known_keys _ _) with (Some tt)
    by (symmetry; unfold put_seq, put_str, put_opt_str; keys).
  attrs. reflexivity.
Qed.

Lemma Return_from_to_dict (r : Return) :
  set_or_none (ret_lineno r) = true -> set_or_none (ret_error r) = true ->
  Return_from_dict (Return_to_dict r) = Some r.
Proof.
  intros Hl He. destruct r; cbn [ret_lineno ret_error] in *.
  unfold Return_from_dict, Return_to_dict, model_Return_to_dict.
  cbn [ret_values ret_lineno ret_error].
  replace (known_keys _ _) with (Some tt) by (symmetry; unfold put_seq; keys).
  attrs. reflexivity.
Qed.

Lemma Continue_from_to_dict (c : Continue) :
  set_or_none (cont_lineno c) = true -> set_or_none (cont_error c) = true ->
  Continue_from_dict (Continue_to_dict c) = Some c.
Proof.
  intros Hl He. destruct c; cbn [cont_lineno cont_error] in *.
  unfold Continue_from_dict, Continue_to_dict, model_Continue_to_dict.
  replace (known_keys _ _) with (Some tt) by (symmetry; keys).
  attrs. reflexivity.
Qed.

Lemma Break_from_to_dict (b : Break) :
  set_or_none (break_lineno b) = true -> set_or_none (break_error b) = true ->
  Break_from_dict (Break_to_dict b) = Some b.
Proof.
  intros Hl He. destruct b; cbn [break_lineno break_error] in *.
  unfold Break_from_dict, Break_to_dict, model_Break_to_dict.
  replace (known_keys _ _) with (Some tt) by (symmetry; keys).
  attrs. reflexivity.
Qed.

Lemma Error_from_to_dict (e : Error) :
  set_or_none (err_lineno e) = true ->
  Error_from_dict (Error_to_dict e) = Some e.
Proof.
  intros Hl. destruct e; cbn [err_lineno] in *.
  unfold Error_from_dict, Error_to_dict, model_Error_to_dict.
  cbn [err_values err_lineno err_error].
  replace (known_keys _ _) with (Some tt) by (symmetry; unfold put_seq; keys).
  attrs. reflexivity.
Qed.

(** ** Round trip of a tree of body items *)

Lemma class_of_record_to_dict (item : BodyItem) :
  class_of_record (to_dict item) = Some (class_of item).
Proof.
  unfold class_of_record.
  destruct item; cbn [to_dict class_of];
    unfold Keyword_to_dict, model_Keyword_to_dict,
           For_to_dict, model_For_to_dict, While_to_dict, model_While_to_dict,
           If_to_dict, model_If_to_dict, Try_to_dict, model_Try_to_dict,
           Var_to_dict, model_Var_to_dict, Return_to_dict, model_Return_to_dict,
           Continue_to_dict, model_Continue_to_dict,
           Break_to_dict, model_Break_to_dict, Error_to_dict, model_Error_to_dict,
           put_seq, put_str, put_opt_str;
    peel; try reflexivity.
  destruct (kw_type k); reflexivity.
Qed.

Lemma traverse_map {A B} (f : B -> option A) (g : A -> B) (l : list A) :
  Forall (fun x => f (g x) = Some x) l -> traverse f (map g l) = Some l.
Proof.
  induction 1 as [|x l Hx _ IH]; cbn; [reflexivity|].
  now rewrite Hx, IH.
Qed.

Lemma list_max_map_le {A} (f : A -> nat) (l : list A) (n : nat) :
  list_max (map f l) <= n -> Forall (fun x => f x <= n) l.
Proof.
  intros H. apply list_max_le in H. now apply Forall_map in H.
Qed.

Section BodyRoundTrip.
Variable fuel : nat.
Hypothesis items_back : forall item,
  depth item <= fuel -> canonical item = true ->
  from_dict fuel (class_of item) (to_dict item) = Some item.

Let body_from (v : value) : option Body :=
  ds <- as_dicts v ;;
  traverse (fun d => c <- class_of_record d ;; from_dict fuel c d) ds.

Lemma body_from_to_dicts (body : Body) :
  list_max (map depth body) <= fuel -> forallb canonical body = true ->
  body_from (dicts_value (map to_dict body)) = Some body.
Proof.
  intros Hd Hc. unfold body_from. rewrite as_dicts_value. cbn [bind].
  apply traverse_map.
  apply list_max_map_le in Hd. rewrite forallb_forall in Hc.
  rewrite Forall_forall in *. intros x Hx.
  rewrite class_of_record_to_dict. cbn [bind].
  apply items_back; auto.
Qed.
End BodyRoundTrip.

Lemma from_dict_to_dict (fuel : nat) : forall item,
  depth item <= fuel -> canonical item = true ->
  from_dict fuel (class_of item) (to_dict item) = Some item.
Proof.
  induction fuel as [|fuel IH]; intros item Hd Hc.
  { destruct item; cbn in Hd; lia. }
  pose proof (body_from_to_dicts fuel IH) as Hbody. cbn zeta in Hbody.
  destruct item; cbn [depth canonical class_of to_dict from_dict] in *;
    repeat match goal with
           | H : _ && _ = true |- _ => apply andb_prop in H; destruct H
           end.
  - now rewrite Keyword_from_to_dict.
  - apply For_from_to_dict; auto. apply Hbody; [lia|assumption].
  - apply While_from_to_dict; auto. apply Hbody; [lia|assumption].
  - apply If_from_to_dict; auto.
    apply traverse_map.
    apply le_S_n, list_max_map_le in Hd.
    match goal with H : forallb _ branches = true |- _ =>
      rewrite forallb_forall in H; rename H into Hbr end.
    rewrite Forall_forall in *. intros [b body] Hin.
    specialize (Hd _ Hin). specialize (Hbr _ Hin). cbn [fst snd] in *.
    apply andb_prop in Hbr. destruct Hbr.
    apply IfBranch_from_to_dict; auto.
  - apply Try_from_to_dict; auto.
    apply traverse_map.
    apply le_S_n, list_max_map_le in Hd.
    match goal with H : forallb _ branches = true |- _ =>
      rewrite forallb_forall in H; rename H into Hbr end.
    rewrite Forall_forall in *. intros [b body] Hin.
    specialize (Hd _ Hin). specialize (Hbr _ Hin). cbn [fst snd] in *.
    apply andb_prop in Hbr. destruct Hbr.
    apply TryBranch_from_to_dict; auto.
  - now rewrite Var_from_to_dict.
  - now rewrite Return_from_to_dict.
  - now rewrite Continue_from_to_dict.
  - now rewrite Break_from_to_dict.
  - now rewrite Error_from_to_dict.
Qed.

(** Induction on a tree of body items, the bodies being lists of trees. *)
Lemma BodyItem_tree_ind (P : BodyItem -> Prop) :
  (forall k, P (KeywordItem k)) ->
  (forall f body, Forall P body -> P (ForItem f body)) ->
  (forall w body, Forall P body -> P (WhileItem w body)) ->
  (forall i branches,
      Forall (fun br : IfBranch * list BodyItem => Forall P (snd br)) branches ->
      P (IfItem i branches)) ->
  (forall t branches,
      Forall (fun br : TryBranch * list BodyItem => Forall P (snd br)) branches ->
      P (TryItem t branches)) ->
  (forall v, P (VarItem v)) ->
  (forall r, P (ReturnItem r)) ->
  (forall c, P (ContinueItem c)) ->
  (forall b, P (BreakItem b)) ->
  (forall e, P (ErrorItem e)) ->
  forall item, P item.
Proof.
  intros HK HF HW HI HT HV HR HC HB HE.
  assert (H : forall n item, depth item <= n -> P item).
  { induction n as [|n IH]; intros item Hd.
    { destruct item; cbn in Hd; lia. }
    assert (Hbody : forall body, list_max (map depth body) <= n -> Forall P body).
    { intros body Hb. apply list_max_map_le in Hb.
      rewrite Forall_forall in *. auto. }
    destruct item; cbn [depth] in Hd; auto.
    - apply HF, Hbody. lia.
    - apply HW, Hbody. lia.
    - apply HI. apply le_S_n, list_max_map_le in Hd.
      rewrite Forall_forall in *. intros br Hin. apply Hbody. auto.
    - apply HT. apply le_S_n, list_max_map_le in Hd.
      rewrite Forall_forall in *. intros br Hin. apply Hbody. auto. }
  intros item. apply (H (depth item)). apply le_n.
Qed.

Lemma keep_truthy_set_or_none {A} `{Truthy A} (o : option A) :
  set_or_none (keep_truthy o) = true.
Proof.
  unfold keep_truthy. destruct o as [a|]; cbn; [|reflexivity].
  destruct (truthy a) eqn:E; cbn; auto.
Qed.

Lemma set_if_truthy_keep {A} `{Truthy A} enc k (o : option A) d :
  set_if_truthy enc k (keep_truthy o) d = set_if_truthy enc k o d.
Proof.
  unfold set_if_truthy, keep_truthy.
  destruct o as [a|]; cbn; [|reflexivity].
  destruct (truthy a) eqn:E; cbn; [now rewrite E|reflexivity].
Qed.

Lemma map_ext_Forall {A B} (f g : A -> B) (l : list A) :
  Forall (fun x => f x = g x) l -> map f l = map g l.
Proof. induction 1; cbn; congruence. Qed.

(** The record of a class does not tell a falsy attribute from [None]. *)
Lemma Keyword_to_dict_keep name args assign type lineno :
  Keyword_to_dict (mkKeyword name args assign type (keep_truthy lineno)) =
  Keyword_to_dict (mkKeyword name args assign type lineno).
Proof. unfold Keyword_to_dict. cbn. now rewrite set_if_truthy_keep. Qed.

Lemma For_to_dict_keep assign flavor values start mode fill lineno error ds :
  For_to_dict (mkFor assign flavor values start mode fill
                     (keep_truthy lineno) (keep_truthy error)) ds =
  For_to_dict (mkFor assign flavor values start mode fill lineno error) ds.
Proof. unfold For_to_dict. cbn. now rewrite !set_if_truthy_keep. Qed.

Lemma While_to_dict_keep condition limit on_limit message lineno error ds :
  While_to_dict (mkWhile condition limit on_limit message
                         (keep_truthy lineno) (keep_truthy error)) ds =
  While_to_dict (mkWhile condition limit on_limit message lineno error) ds.
Proof. unfold While_to_dict. cbn. now rewrite !set_if_truthy_keep. Qed.

Lemma IfBranch_to_dict_keep (b : IfBranch) ds :
  IfBranch_to_dict
    (mkIfBranch (ifb_type b) (ifb_condition b) (keep_truthy (ifb_lineno b))) ds =
  IfBranch_to_dict b ds.
Proof. destruct b. unfold IfBranch_to_dict. cbn. now rewrite set_if_truthy_keep. Qed.

Lemma If_to_dict_keep lineno error ds :
  If_to_dict (mkIf (keep_truthy lineno) (keep_truthy error)) ds =
  If_to_dict (mkIf lineno error) ds.
Proof. unfold If_to_dict. cbn. now rewrite !set_if_truthy_keep. Qed.

Lemma TryBranch_to_dict_keep (b : TryBranch) ds :
  TryBranch_to_dict
    (mkTryBranch (tryb_type b) (tryb_patterns b) (tryb_pattern_type b)
                 (tryb_assign b) (keep_truthy (tryb_lineno b))) ds =
  TryBranch_to_dict b ds.
Proof. destruct b. unfold TryBranch_to_dict. cbn. now rewrite set_if_truthy_keep. Qed.

Lemma Try_to_dict_keep lineno error ds :
  Try_to_dict (mkTry (keep_truthy lineno) (keep_truthy error)) ds =
  Try_to_dict (mkTry lineno error) ds.
Proof. unfold Try_to_dict. cbn. now rewrite !set_if_truthy_keep. Qed.

Lemma to_dict_restored (item : BodyItem) : to_dict (restored item) = to_dict item.
Proof.
  induction item as [k|f body IH|w body IH|i branches IH|t branches IH|v|r|c|b|e]
    using BodyItem_tree_ind.
  - destruct k. apply Keyword_to_dict_keep.
  - destruct f. cbn [restored to_dict].
    now rewrite For_to_dict_keep, map_map, (map_ext_Forall _ _ _ IH).
  - destruct w. cbn [restored to_dict].
    now rewrite While_to_dict_keep, map_map, (map_ext_Forall _ _ _ IH).
  - destruct i. cbn [restored to_dict].
    rewrite If_to_dict_keep, map_map. f_equal.
    apply map_ext_Forall. rewrite Forall_forall in *. intros br Hin.
    cbn [fst snd]. rewrite IfBranch_to_dict_keep, map_map.
    now rewrite (map_ext_Forall _ _ _ (IH _ Hin)).
  - destruct t. cbn [restored to_dict].
    rewrite Try_to_dict_keep, map_map. f_equal.
    apply map_ext_Forall. rewrite Forall_forall in *. intros br Hin.
    cbn [fst snd]. rewrite TryBranch_to_dict_keep, map_map.
    now rewrite (map_ext_Forall _ _ _ (IH _ Hin)).
  - destruct v. cbn. unfold Var_to_dict. cbn. now rewrite !set_if_truthy_keep.
  - destruct r. cbn. unfold Return_to_dict. cbn. now rewrite !set_if_truthy_keep.
  - destruct c. cbn. unfold Continue_to_dict. cbn. now rewrite !set_if_truthy_keep.
  - destruct b. cbn. unfold Break_to_dict. cbn. now rewrite !set_if_truthy_keep.
  - destruct e. cbn. unfold Error_to_dict. cbn. now rewrite !set_if_truthy_keep.
Qed.

Lemma class_of_restored (item : BodyItem) : class_of (restored item) = class_of item.
Proof.
  destruct item as [[]|[]|[]|[]|[]|[]|[]|[]|[]|[]]; reflexivity.
Qed.

Lemma depth_restored (item : BodyItem) : depth (restored item) = depth item.
Proof.
  induction item as [k|f body IH|w body IH|i branches IH|t branches IH|v|r|c|b|e]
    using BodyItem_tree_ind;
    try (destruct k); try (destruct f); try (destruct w); try (destruct i);
    try (destruct t); try (destruct v); try (destruct r); try (destruct c);
    try (destruct b); try (destruct e); cbn [restored depth]; try reflexivity.
  - now rewrite map_map, (map_ext_Forall _ _ _ IH).
  - now rewrite map_map, (map_ext_Forall _ _ _ IH).
  - rewrite map_map. do 2 f_equal. apply map_ext_Forall.
    rewrite Forall_forall in *. intros br Hin. cbn [snd].
    now rewrite map_map, (map_ext_Forall _ _ _ (IH _ Hin)).
  - rewrite map_map. do 2 f_equal. apply map_ext_Forall.
    rewrite Forall_forall in *. intros br Hin. cbn [snd].
    now rewrite map_map, (map_ext_Forall _ _ _ (IH _ Hin)).
Qed.

Lemma forallb_map_Forall {A B} (p : B -> bool) (g : A -> B) (l : list A) :
  Forall (fun x => p (g x) = true) l -> forallb p (map g l) = true.
Proof. induction 1 as [|x l Hx _ IH]; cbn; [reflexivity|]. now rewrite Hx. Qed.

Lemma canonical_restored (item : BodyItem) : canonical (restored item) = true.
Proof.
  induction item as [k|f body IH|w body IH|i branches IH|t branches IH|v|r|c|b|e]
    using BodyItem_tree_ind;
    try (destruct k); try (destruct f); try (destruct w); try (destruct i);
    try (destruct t); try (destruct v); try (destruct r); try (destruct c);
    try (destruct b); try (destruct e); cbn [restored canonical];
    cbn [kw_lineno for_lineno for_error while_lineno while_error if_lineno
         if_error try_lineno try_error var_lineno var_error ret_lineno ret_error
         cont_lineno cont_error break_lineno break_error err_lineno];
    rewrite ?keep_truthy_set_or_none; cbn [andb]; try reflexivity.
  - now apply forallb_map_Forall.
  - now apply forallb_map_Forall.
  - apply forallb_map_Forall. rewrite Forall_forall in *. intros br Hin.
    cbn [fst snd ifb_lineno]. rewrite keep_truthy_set_or_none. cbn [andb].
    apply forallb_map_Forall, IH, Hin.
  - apply forallb_map_Forall. rewrite Forall_forall in *. intros br Hin.
    cbn [fst snd tryb_lineno]. rewrite keep_truthy_set_or_none. cbn [andb].
    apply forallb_map_Forall, IH, Hin.
Qed.

(** Whatever the attribute values, the record of an item is read back, and
    what is read back is the item with its falsy line numbers and error
    messages reset to [None]. *)
Lemma from_dict_restores (fuel : nat) (item : BodyItem) :
  depth item <= fuel ->
  from_dict fuel (class_of item) (to_dict item) = Some (restored item).
Proof.
  intros Hd.
  rewrite <- to_dict_restored, <- class_of_restored.
  apply from_dict_to_dict.
  - now rewrite depth_restored.
  - apply canonical_restored.
Qed.

(** ** Round-trip claims *)



(** C2, as amended.  For a tree built from any mix of the ten variants in
    which no line number is 0 and no optional error message is the empty
    string, [from_dict] applied to the record of [to_dict] gives the tree
    back, as soon as the fuel covers its nesting depth. *)
Theorem from_dict_to_dict_round_trip (fuel : nat) (item : BodyItem) :
  depth item <= fuel -> canonical item = true ->
  from_dict fuel (class_of item) (to_dict item) = Some item.
Proof. apply from_dict_to_dict. Qed.

Lemma from_dict_to_dict_round_trip_witness :
  depth sample_loop <= 3 /\ canonical sample_loop = true /\
  from_dict 3 (class_of sample_loop) (to_dict sample_loop) = Some sample_loop.
Proof.
  split; [vm_compute; lia|]. split; [reflexivity|].
  apply (from_dict_to_dict_round_trip 3 sample_loop); [vm_compute; lia|reflexivity].
Defined.

(** C2 as stated fails: a keyword call with line number 0 is serialised
    without its line number, exactly as the same call with no line number,
    and is read back with [lineno = None]. *)
Lemma round_trip_loses_lineno_zero :
  let item := KeywordItem (mkKeyword "Log" [] [] KEYWORD (Some 0%Z)) in
  let back := KeywordItem (mkKeyword "Log" [] [] KEYWORD None) in
  to_dict item = to_dict back /\
  from_dict 1 (class_of item) (to_dict item) = Some back /\
  back <> item.
Proof. cbv zeta. repeat split. discriminate. Qed.

(** C3, as amended.  For every record [r] that [to_dict] produces, whatever
    the item it is the record of, [from_dict] accepts [r] and the record of
    the item it builds is [r] itself. *)
Theorem to_dict_from_dict_exact (fuel : nat) (item : BodyItem) :
  depth item <= fuel ->
  exists built,
    from_dict fuel (class_of item) (to_dict item) = Some built /\
    to_dict built = to_dict item.
Proof.
  intros Hd. exists (restored item). split.
  - now apply from_dict_restores.
  - apply to_dict_restored.
Qed.

Lemma to_dict_from_dict_exact_witness :
  depth sample_loop <= 3 /\
  exists built,
    from_dict 3 (class_of sample_loop) (to_dict sample_loop) = Some built /\
    to_dict built = to_dict sample_loop.
Proof.
  split; [vm_compute; lia|].
  apply (to_dict_from_dict_exact 3 sample_loop). vm_compute; lia.
Defined.


(** C3 as stated fails.  [For.from_dict] accepts the legacy record, and the
    record of the loop it builds has the key "assign" where the record that
    was passed has "variables"; the two dictionaries differ under Python's
    [==] as well.  And no renaming is involved for a record with an explicit
    line number 0: it is accepted, [to_dict] of the keyword that is built
    writes no line number, and the record that comes out is not the one
    that went in. *)
Lemma legacy_record_not_reproduced :
  (exists built,
     from_dict 1 ForClass legacy_for_record = Some built /\
     to_dict built <> legacy_for_record /\
     ~ dict_equiv (to_dict built) legacy_for_record) /\
  (exists built,
     from_dict 1 KeywordClass lineno_zero_record = Some built /\
     to_dict built = [("name", VStr "Log")] /\
     ~ dict_equiv (to_dict built) lineno_zero_record).
Proof.
  split.
  - eexists. split; [reflexivity|]. split; [discriminate|].
    intros E. specialize (E "variables"). discriminate E.
  - eexists. split; [reflexivity|]. split; [reflexivity|].
    intros E. specialize (E "lineno"). discriminate E.
Qed.

(** ** Running: structural errors and dry run *)

Section RunningProperties.
Context {V : Type} `{VariableScopes V} {case : CaseMapping}.
Variable algorithm : BodyItem -> Context V -> outcome V.
Variable keyword_runner : Keyword -> Context V -> bool -> outcome V.

Lemma reported_variables item final (context : Context V) :
  variables (reported item final context) = variables context.
Proof. reflexivity. Qed.

Lemma reported_reports item final (context : Context V) :
  reports (reported item final context) =
  (reports context ++ [mkReport item RUNNING; mkReport item final])%list.
Proof. cbn. now rewrite <- app_assoc. Qed.

(** What the two records of a status reporter leave: the flag and the
    store of the context, and its reports followed by the item as started
    and as ended. *)
Lemma reported_context item final (context : Context V) :
  reported item final context =
  mkContext (dry_run context) (variables context)
            (reports context ++ [mkReport item RUNNING; mkReport item final]).
Proof. unfold reported, record_status. cbn. now rewrite <- app_assoc. Qed.

Lemma truthy_error_message (error : option string) (message : string) :
  error = Some message -> message <> "" ->
  truthy error = true /\ the_str error = message.
Proof.
  intros -> Hm. split; [|reflexivity].
  unfold truthy, Truthy_option, truthy, Truthy_str.
  destruct (String.eqb_spec message ""); [contradiction|reflexivity].
Qed.

Lemma structural_error_outcome (context : Context V) (item : BodyItem)
    (message : string) :
  structural_error item = Some message -> message <> "" ->
  run_item algorithm keyword_runner item context true =
  (reported item (RAISED (DataError message true)) context,
   Some (DataError message true)).
Proof.
  intros He Hm.
  destruct (truthy_error_message _ _ He Hm) as [Ht Htext].
  destruct item; cbn [structural_error] in *; try discriminate;
    cbn [run_item];
    unfold runner_run, Var_run, Return_run, Continue_run, Break_run,
           StatusReporter;
    rewrite Ht, Htext; reflexivity.
Qed.

(** C4.  An item that carries a structural error (a non-empty string: the
    test of the code is [if self.error:]), run with [run] true, raises a
    DataError with exactly that message, flagged as a syntax error, and
    nothing else of the item has happened: the algorithm of the item was
    not entered, the variable store and the dry-run flag are those of the
    context, no jump signal is raised.  The status reporter has added two
    reports to those of the context: the item as started, and the item as
    ended by that error.  An Error item run with [run] true raises a
    DataError with its message, whatever the message, and is reported in
    the same way. *)
Theorem structural_error_raised (context : Context V) :
  (forall item message,
      structural_error item = Some message -> message <> "" ->
      run_item algorithm keyword_runner item context true =
      (mkContext (dry_run context) (variables context)
         (reports context ++
          [mkReport item RUNNING;
           mkReport item (RAISED (DataError message true))]),
       Some (DataError message true))) /\
  (forall e,
      run_item algorithm keyword_runner (ErrorItem e) context true =
      (mkContext (dry_run context) (variables context)
         (reports context ++
          [mkReport (ErrorItem e) RUNNING;
           mkReport (ErrorItem e) (RAISED (DataError (err_error e) false))]),
       Some (DataError (err_error e) false))).
Proof.
  split.
  - intros item message He Hm.
    rewrite (structural_error_outcome context item message He Hm).
    now rewrite reported_context.
  - intros e. rewrite <- reported_context. reflexivity.
Qed.

Lemma dry_run_outcomes (context : Context V) :
  dry_run context = true ->
  (forall v, truthy (var_error v) = false ->
     Var_run v context true = (reported (VarItem v) PASSED context, None)) /\
  (forall r, truthy (ret_error r) = false ->
     Return_run r context true = (reported (ReturnItem r) PASSED context, None)) /\
  (forall c, truthy (cont_error c) = false ->
     Continue_run c context true = (reported (ContinueItem c) PASSED context, None)) /\
  (forall b, truthy (break_error b) = false ->
     Break_run b context true = (reported (BreakItem b) PASSED context, None)).
Proof.
  intros Hdry. split; [|split; [|split]].
  - intros v Hv. unfold Var_run, StatusReporter.
    cbn [dry_run record_status]. now rewrite Hv, Hdry.
  - intros r Hr. unfold Return_run, StatusReporter.
    cbn [dry_run record_status]. now rewrite Hr, Hdry.
  - intros c Hc. unfold Continue_run, StatusReporter.
    cbn [dry_run record_status]. now rewrite Hc, Hdry.
  - intros b Hb. unfold Break_run, StatusReporter.
    cbn [dry_run record_status]. now rewrite Hb, Hdry.
Qed.

(** C5.  In dry-run mode, with [run] true and no structural error, a Var
    item raises nothing and the variable store after the run is the one
    before it, and a Return, Continue or Break item raises no jump signal.
    Each of them went through its status reporter all the same: the
    reports after the run are those of the context followed by exactly
    two, the item as started and the item as passed, the status of an item
    that was executed (with [run] false the second report is "not run"). *)
Theorem dry_run_reports_only (context : Context V) :
  dry_run context = true ->
  (forall v, truthy (var_error v) = false ->
     Var_run v context true =
     (mkContext true (variables context)
        (reports context ++
         [mkReport (VarItem v) RUNNING; mkReport (VarItem v) PASSED]),
      None) /\
     reports (fst (Var_run v context false)) =
       (reports context ++
        [mkReport (VarItem v) RUNNING; mkReport (VarItem v) NOT_RUN])%list) /\
  (forall r, truthy (ret_error r) = false ->
     Return_run r context true =
     (mkContext true (variables context)
        (reports context ++
         [mkReport (ReturnItem r) RUNNING; mkReport (ReturnItem r) PASSED]),
      None) /\
     reports (fst (Return_run r context false)) =
       (reports context ++
        [mkReport (ReturnItem r) RUNNING; mkReport (ReturnItem r) NOT_RUN])%list) /\
  (forall c, truthy (cont_error c) = false ->
     Continue_run c context true =
     (mkContext true (variables context)
        (reports context ++
         [mkReport (ContinueItem c) RUNNING; mkReport (ContinueItem c) PASSED]),
      None) /\
     reports (fst (Continue_run c context false)) =
       (reports context ++
        [mkReport (ContinueItem c) RUNNING; mkReport (ContinueItem c) NOT_RUN])%list) /\
  (forall b, truthy (break_error b) = false ->
     Break_run b context true =
     (mkContext true (variables context)
        (reports context ++
         [mkReport (BreakItem b) RUNNING; mkReport (BreakItem b) PASSED]),
      None) /\
     reports (fst (Break_run b context false)) =
       (reports context ++
        [mkReport (BreakItem b) RUNNING; mkReport (BreakItem b) NOT_RUN])%list).
Proof.
  intros Hdry.
  destruct (dry_run_outcomes context Hdry) as (Hv & Hr & Hc & Hb).
  split; [|split; [|split]].
  - intros v E. rewrite (Hv v E), reported_context, Hdry.
    split; [reflexivity|]. cbn. now rewrite <- app_assoc.
  - intros r E. rewrite (Hr r E), reported_context, Hdry.
    split; [reflexivity|]. cbn. now rewrite <- app_assoc.
  - intros c E. rewrite (Hc c E), reported_context, Hdry.
    split; [reflexivity|]. cbn. now rewrite <- app_assoc.
  - intros b E. rewrite (Hb b E), reported_context, Hdry.
    split; [reflexivity|]. cbn. now rewrite <- app_assoc.
Qed.
End RunningProperties.

Lemma structural_error_raised_witness :
  let item := ReturnItem (mkReturn ["${x}"] (Some 7%Z) (Some "RETURN is not allowed here.")) in
  let context := mkContext false empty_scopes [] in
  run_item (case := latin_case) no_algorithm no_keyword_runner item context true =
  (mkContext false empty_scopes
     [mkReport item RUNNING;
      mkReport item (RAISED (DataError "RETURN is not allowed here." true))],
   Some (DataError "RETURN is not allowed here." true)).
Proof.
  cbv zeta.
  apply (proj1 (structural_error_raised (case := latin_case)
                  no_algorithm no_keyword_runner
                  (mkContext false empty_scopes []))).
  - reflexivity.
  - discriminate.
Defined.

(** Where C4 does not apply: with [run] false an Error item raises nothing
    and is reported as not run, and an empty error string is no structural
    error ([if self.error:]), so that a RETURN with it raises its jump
    signal. *)
Example Error_not_run_raises_nothing :
  let item := mkError ["unknown"] (Some 4%Z) "No keyword with this syntax." in
  let context := mkContext false empty_scopes [] in
  Error_run item context false =
    (reported (ErrorItem item) NOT_RUN context, None) /\
  snd (Return_run (mkReturn ["1"] None (Some "")) context true) =
    Some (ReturnFromKeyword ["1"]).
Proof. split; reflexivity. Qed.

Lemma dry_run_reports_only_witness :
  let context := mkContext true (mkScopes [] [] [("${x}", "0")] []) [] in
  let v := mkVar "${x}" ["1"] (Some "SUITE") None None None in
  Var_run (case := latin_case) v context true =
  (mkContext true (mkScopes [] [] [("${x}", "0")] [])
     [mkReport (VarItem v) RUNNING; mkReport (VarItem v) PASSED],
   None).
Proof.
  cbv zeta.
  apply (proj1 (dry_run_reports_only (case := latin_case)
                  (mkContext true (mkScopes [] [] [("${x}", "0")] []) [])
                  eq_refl) (mkVar "${x}" ["1"] (Some "SUITE") None None None)).
  reflexivity.
Defined.

(** ** UserKeyword: matching, fixtures *)

Lemma append_assoc (a b c : string) : (a ++ b) ++ c = a ++ (b ++ c).
Proof. induction a as [|x a IH]; cbn; [reflexivity|now rewrite IH]. Qed.

Lemma append_empty_r (a : string) : a ++ "" = a.
Proof. induction a as [|x a IH]; cbn; [reflexivity|now rewrite IH]. Qed.

(** *** Placeholder syntax *)

Lemma parse_name_text (c : ascii) (rest text : string) :
  parse_name (String c rest) text None =
  if Ascii.eqb c "$" then
    match rest with
    | String d rest' =>
      if Ascii.eqb d "{" then parse_name rest' text (Some "")
      else parse_name rest (text ++ String c "") None
    | EmptyString => parse_name rest (text ++ String c "") None
    end
  else parse_name rest (text ++ String c "") None.
Proof.
  destruct c as [[] [] [] [] [] [] [] []]; try reflexivity.
  destruct rest as [|d rest']; [reflexivity|].
  destruct d as [[] [] [] [] [] [] [] []]; reflexivity.
Qed.

Lemma text_part_plain (text : string) :
  existsb is_placeholder (text_part text) = false.
Proof. unfold text_part. now destruct (text =? ""). Qed.

(** While a placeholder is being read, it is one when a "}" follows. *)
Lemma parse_name_var_closed (s text v : string) :
  existsb is_placeholder (parse_name s text (Some v)) = true <->
  exists x y, s = x ++ "}" ++ y.
Proof.
  revert text v. induction s as [|c rest IH]; intros text v.
  - cbn [parse_name]. rewrite text_part_plain. split; [discriminate|].
    intros (x & y & E). destruct x; discriminate.
  - cbn [parse_name]. destruct (Ascii.eqb_spec c "}") as [->|N].
    + rewrite existsb_app. cbn. rewrite orb_true_r. split; [|reflexivity].
      intros _. exists "", rest. reflexivity.
    + rewrite IH. split.
      * intros (x & y & ->). exists (String c x), y. reflexivity.
      * intros (x & y & E). destruct x as [|c' x]; cbn in E.
        -- injection E as E1 E2. congruence.
        -- injection E as E1 E2. exists x, y. exact E2.
Qed.

Lemma parse_name_placeholder (s text : string) :
  existsb is_placeholder (parse_name s text None) = true <->
  contains_placeholder s.
Proof.
  unfold contains_placeholder.
  revert text. induction s as [|c rest IH]; intros text.
  - cbn [parse_name]. rewrite text_part_plain. split; [discriminate|].
    intros (a & v & b & E). destruct a; discriminate.
  - rewrite parse_name_text.
    destruct (Ascii.eqb_spec c "$") as [->|N].
    + destruct rest as [|d rest'].
      * rewrite IH. split.
        -- intros (a & v & b & E). destruct a; discriminate.
        -- intros (a & v & b & E). destruct a as [|c a]; cbn in E; [discriminate|].
           injection E as _ E. destruct a; discriminate.
      * destruct (Ascii.eqb_spec d "{") as [->|N].
        -- rewrite parse_name_var_closed. split.
           ++ intros (x & y & ->). exists "", x, y. reflexivity.
           ++ intros (a & v & b & E). destruct a as [|c a]; cbn in E.
              ** injection E as E. exists v, b. exact E.
              ** injection E as _ E. destruct a as [|c' a]; cbn in E;
                   [discriminate|].
                 injection E as _ E. exists (a ++ "${" ++ v), b.
                 rewrite E. now rewrite !append_assoc.
        -- rewrite IH. split.
           ++ intros (a & v & b & E). exists (String "$" a), v, b.
              cbn. now rewrite E.
           ++ intros (a & v & b & E). destruct a as [|c a]; cbn in E.
              ** injection E as E _. congruence.
              ** injection E as _ E. exists a, v, b. exact E.
    + rewrite IH. split.
      * intros (a & v & b & E). exists (String c a), v, b. cbn. now rewrite E.
      * intros (a & v & b & E). destruct a as [|c' a]; cbn in E.
        -- injection E as E1 _. congruence.
        -- injection E as _ E. exists a, v, b. exact E.
Qed.

(** A name has a matcher exactly when it has placeholder syntax. *)
Lemma has_placeholder_contains (name : string) :
  has_placeholder name = true <-> contains_placeholder name.
Proof. apply parse_name_placeholder. Qed.

Lemma written_text_part (text : string) : written_name (text_part text) = text.
Proof.
  unfold text_part. destruct (String.eqb_spec text "") as [->|_]; cbn;
    [reflexivity|apply append_empty_r].
Qed.

Lemma written_name_app (l1 l2 : list name_part) :
  written_name (l1 ++ l2) = written_name l1 ++ written_name l2.
Proof.
  induction l1 as [|[t|v] l1 IH]; cbn [written_name app].
  - reflexivity.
  - now rewrite IH, append_assoc.
  - rewrite IH. cbn. now rewrite !append_assoc.
Qed.

(** The parts of a name are the name, cut at its placeholders. *)
Lemma parse_name_written (s text : string) (var : option string) :
  written_name (parse_name s text var) =
  text ++ match var with Some v => "${" ++ v | None => "" end ++ s.
Proof.
  remember (String.length s) as n eqn:Hn.
  assert (Hle : String.length s <= n) by lia. clear Hn.
  revert s text var Hle. induction n as [|n IH]; intros s text var Hle.
  - destruct s; [|cbn in Hle; lia].
    destruct var as [v|]; cbn [parse_name]; rewrite written_text_part.
    + now rewrite (append_empty_r ("${" ++ v)).
    + cbn. now rewrite append_empty_r.
  - destruct s as [|c rest].
    { destruct var as [v|]; cbn [parse_name]; rewrite written_text_part.
      + now rewrite (append_empty_r ("${" ++ v)).
      + cbn. now rewrite append_empty_r. }
    cbn [String.length] in Hle.
    destruct var as [v|].
    + cbn [parse_name]. destruct (Ascii.eqb_spec c "}") as [->|N].
      * rewrite written_name_app, written_text_part. cbn [written_name].
        rewrite IH by lia. reflexivity.
      * rewrite IH by lia. f_equal. cbn. f_equal. f_equal.
        now rewrite append_assoc.
    + rewrite parse_name_text. cbn [append].
      assert (Hstep : written_name (parse_name rest (text ++ String c "") None)
                      = text ++ String c rest).
      { rewrite IH by lia. cbn. now rewrite append_assoc. }
      destruct (Ascii.eqb_spec c "$") as [->|N]; [|exact Hstep].
      destruct rest as [|d rest']; [exact Hstep|].
      destruct (Ascii.eqb_spec d "{") as [->|N]; [|exact Hstep].
      cbn [String.length] in Hle. rewrite IH by lia. reflexivity.
Qed.

(** *** The pattern of the embedded arguments *)

Lemma strip_prefix_sound (prefix s rest : string) :
  strip_prefix prefix s = Some rest -> s = prefix ++ rest.
Proof.
  revert s. induction prefix as [|a prefix IH]; intros s; cbn.
  - now intros [= ->].
  - destruct s as [|b s]; [discriminate|].
    destruct (Ascii.eqb_spec a b) as [->|_]; [|discriminate].
    intros E. now rewrite (IH s E).
Qed.

Lemma strip_prefix_complete (prefix rest : string) :
  strip_prefix prefix (prefix ++ rest) = Some rest.
Proof.
  induction prefix as [|a prefix IH]; cbn; [reflexivity|].
  now rewrite Ascii.eqb_refl.
Qed.

Lemma match_parts_placeholder (v : string) (rest : list name_part) (text : string) :
  match_parts (Placeholder v :: rest) text =
  take_shortest (match_parts rest) "" text.
Proof. reflexivity. Qed.

Lemma take_shortest_step matcher (taken left : string) :
  take_shortest matcher taken left =
  match matcher left with
  | Some values => Some (taken :: values)
  | None =>
    match left with
    | EmptyString => None
    | String c left' => take_shortest matcher (taken ++ String c "") left'
    end
  end.
Proof. destruct left; reflexivity. Qed.

(** What a placeholder takes is a piece of the text, and the parts after
    it match what follows. *)
Lemma take_shortest_sound matcher (left taken : string) (result : list string) :
  take_shortest matcher taken left = Some result ->
  exists mid left' values,
    left = mid ++ left' /\ matcher left' = Some values /\
    result = (taken ++ mid) :: values.
Proof.
  revert taken. induction left as [|c left IH]; intros taken;
    rewrite take_shortest_step.
  - destruct (matcher "") as [values|] eqn:E; [|discriminate].
    intros [= <-]. exists "", "", values.
    split; [reflexivity|]. split; [exact E|]. now rewrite append_empty_r.
  - destruct (matcher (String c left)) as [values|] eqn:E.
    + intros [= <-]. exists "", (String c left), values.
      split; [reflexivity|]. split; [exact E|]. now rewrite append_empty_r.
    + intros Ht. destruct (IH _ Ht) as (mid & left' & values & -> & Hm & ->).
      exists (String c mid), left', values.
      split; [reflexivity|]. split; [exact Hm|].
      now rewrite append_assoc.
Qed.

Lemma take_shortest_complete matcher (v rest taken : string) :
  is_some (matcher rest) = true ->
  is_some (take_shortest matcher taken (v ++ rest)) = true.
Proof.
  intros Hm. revert taken. induction v as [|c v IH]; intros taken;
    rewrite take_shortest_step.
  - cbn [append]. destruct (matcher rest); [reflexivity|discriminate].
  - cbn [append]. destruct (matcher (String c (v ++ rest))); [reflexivity|].
    apply IH.
Qed.

(** The values that the matcher extracts fill the placeholders of the
    pattern to the text that was matched. *)
Lemma match_parts_sound (parts : list name_part) (text : string)
    (values : list string) :
  match_parts parts text = Some values -> filled parts values = Some text.
Proof.
  revert text values. induction parts as [|[t|v] rest IH]; intros text values.
  - cbn. destruct (String.eqb_spec text "") as [->|_]; [|discriminate].
    now intros [= <-].
  - cbn [match_parts filled].
    destruct (strip_prefix t text) as [text'|] eqn:E; [|discriminate].
    intros Hm. rewrite (IH _ _ Hm). cbn.
    now rewrite (strip_prefix_sound _ _ _ E).
  - rewrite match_parts_placeholder. intros Ht.
    destruct (take_shortest_sound _ _ _ _ Ht)
      as (mid & left' & values' & -> & Hm & ->).
    cbn [filled append]. now rewrite (IH _ _ Hm).
Qed.

(** A text that the pattern gives for some values of its placeholders is
    matched. *)
Lemma match_parts_complete (parts : list name_part) (values : list string)
    (text : string) :
  filled parts values = Some text -> is_some (match_parts parts text) = true.
Proof.
  revert values text. induction parts as [|[t|v] rest IH]; intros values text.
  - cbn. destruct values; [|discriminate]. now intros [= <-].
  - cbn [match_parts filled].
    destruct (filled rest values) as [text'|] eqn:E; [|discriminate].
    intros [= <-]. rewrite strip_prefix_complete. now apply (IH values).
  - rewrite match_parts_placeholder. cbn [filled].
    destruct values as [|value values]; [discriminate|].
    destruct (filled rest values) as [text'|] eqn:E; [|discriminate].
    intros [= <-]. apply take_shortest_complete. now apply (IH values).
Qed.

Lemma match_parts_filled (parts : list name_part) (text : string) :
  is_some (match_parts parts text) = true <->
  exists values, filled parts values = Some text.
Proof.
  split.
  - destruct (match_parts parts text) as [values|] eqn:E; [|discriminate].
    intros _. exists values. now apply match_parts_sound.
  - intros [values E]. now apply (match_parts_complete parts values).
Qed.

(** *** Names compared without case and underscores *)

Lemma lower_ascii_underscore (c : ascii) :
  lower_ascii c = "_"%char -> c = "_"%char.
Proof.
  destruct c as [[] [] [] [] [] [] [] []]; cbv; intros E;
    first [reflexivity|discriminate E].
Qed.

Lemma normal_cons (c : ascii) (s : string) :
  ascii_lower (remove_char "_" (String c s)) =
  if Ascii.eqb "_" c then ascii_lower (remove_char "_" s)
  else String (lower_ascii c) (ascii_lower (remove_char "_" s)).
Proof. cbn [remove_char]. now destruct (Ascii.eqb "_" c). Qed.

Lemma same_name_normal (a b : string) :
  same_name a b ->
  ascii_lower (remove_char "_" a) = ascii_lower (remove_char "_" b).
Proof.
  induction 1 as [|a b _ IH|a b _ IH|c d a b Hcd _ IH].
  - reflexivity.
  - exact IH.
  - exact IH.
  - rewrite !normal_cons.
    destruct (Ascii.eqb_spec "_" c) as [<-|Nc];
      destruct (Ascii.eqb_spec "_" d) as [<-|Nd].
    + exact IH.
    + symmetry in Hcd. apply lower_ascii_underscore in Hcd. congruence.
    + apply lower_ascii_underscore in Hcd. congruence.
    + now rewrite Hcd, IH.
Qed.

Lemma normal_empty_same_name (b : string) :
  ascii_lower (remove_char "_" b) = "" -> same_name "" b.
Proof.
  induction b as [|d b IH]; [constructor|].
  rewrite normal_cons. destruct (Ascii.eqb_spec "_" d) as [<-|_];
    [|discriminate].
  intros E. apply same_name_underscore_right. now apply IH.
Qed.

Lemma normal_same_name (a b : string) :
  ascii_lower (remove_char "_" a) = ascii_lower (remove_char "_" b) ->
  same_name a b.
Proof.
  revert b. induction a as [|c a IHa]; intros b.
  - intros E. apply normal_empty_same_name. now rewrite <- E.
  - rewrite normal_cons. destruct (Ascii.eqb_spec "_" c) as [<-|Nc].
    + intros E. apply same_name_underscore_left. now apply IHa.
    + induction b as [|d b IHb].
      * discriminate.
      * rewrite normal_cons. destruct (Ascii.eqb_spec "_" d) as [<-|Nd].
        -- intros E. apply same_name_underscore_right. now apply IHb.
        -- intros [= Hcd E]. apply same_name_letter; [exact Hcd|].
           now apply IHa.
Qed.

Lemma isascii_remove_char (c : ascii) (s : string) :
  isascii s = true -> isascii (remove_char c s) = true.
Proof.
  induction s as [|d s IH]; [reflexivity|].
  cbn [isascii remove_char]. intros Hs. apply andb_prop in Hs.
  destruct Hs as [Hd Hs]. destruct (Ascii.eqb c d); [now apply IH|].
  cbn [isascii]. now rewrite Hd, IH.
Qed.

Section Matching.
Context {case : CaseMapping}.

Lemma from_name_placeholder (name : string) :
  is_some (EmbeddedArguments_from_name name) = has_placeholder name.
Proof. unfold EmbeddedArguments_from_name. now destruct (has_placeholder name). Qed.

Lemma matches_after_name_setter (self : UserKeyword) (name text : string) :
  value_of (matches text (object_of (name_setter name self))) =
  matches_by_name name text.
Proof.
  unfold matches, name_setter, matches_by_name, object_of, value_of,
         EmbeddedArguments_from_name.
  cbn [fst snd with_name uk_embedded uk_name].
  destruct (has_placeholder name); reflexivity.
Qed.

(** On ASCII names the comparison holds exactly for the names that are the
    same up to case and underscores. *)
Lemma eq_ignoring_underscore_same_name (a b : string) :
  isascii a = true -> isascii b = true ->
  (eq_ignoring_underscore a b = true <-> same_name a b).
Proof.
  intros Ha Hb. unfold eq_ignoring_underscore.
  rewrite !lower_isascii by now apply isascii_remove_char.
  rewrite String.eqb_eq. split; [apply normal_same_name|apply same_name_normal].
Qed.

(** C6.  Once a name is assigned to a keyword, by the constructor or later,
    [matches] compares a call-site name in one of two ways, chosen by the
    name alone.  The assignment calls [EmbeddedArguments.from_name] once and
    stores what it returns, a matcher exactly when the name has placeholder
    syntax (a "${" closed by a "}"); [matches] makes no such call and leaves
    the keyword as it is.  With a matcher, the call-site text matches
    exactly when it is the name with some value in the place of each
    placeholder.  Without one, the text matches when it equals the name
    after underscores are removed and case is mapped: a text that differs
    from another by underscores only matches like it, and on ASCII text the
    names that match are exactly those that are the same up to the case of
    the letters and up to underscores. *)
Theorem matches_mode_fixed_by_name (self : UserKeyword) (name text : string) :
  let assigned := name_setter name self in
  let keyword := object_of assigned in
  calls_of assigned = [from_name_call name] /\
  uk_name keyword = name /\
  uk_embedded keyword = EmbeddedArguments_from_name name /\
  is_some (uk_embedded keyword) = has_placeholder name /\
  (is_some (uk_embedded keyword) = true <-> contains_placeholder name) /\
  written_name (parse_name name "" None) = name /\
  value_of (matches text keyword) =
    (if has_placeholder name
     then is_some (match_parts (parse_name name "" None) text)
     else eq_ignoring_underscore name text) /\
  (contains_placeholder name ->
     (value_of (matches text keyword) = true <->
      exists values, filled (parse_name name "" None) values = Some text)) /\
  (~ contains_placeholder name ->
     value_of (matches text keyword) =
       (lower (remove_char "_" name) =? lower (remove_char "_" text)) /\
     (forall other, remove_char "_" other = remove_char "_" text ->
        value_of (matches other keyword) = value_of (matches text keyword)) /\
     (isascii name = true -> isascii text = true ->
        (value_of (matches text keyword) = true <-> same_name name text))) /\
  object_of (matches text keyword) = keyword /\
  calls_of (matches text keyword) = [] /\
  (forall args doc tags timeout lineno error,
     let built := UserKeyword_init name args doc tags timeout lineno error in
     snd built = [from_name_call name] /\
     value_of (matches text (fst built)) = matches_by_name name text).
Proof.
  cbv zeta.
  split; [reflexivity|]. split; [reflexivity|]. split; [reflexivity|].
  split; [apply from_name_placeholder|].
  split.
  { cbn [name_setter object_of fst snd with_name uk_embedded].
    rewrite from_name_placeholder. apply has_placeholder_contains. }
  split; [apply (parse_name_written name "" None)|].
  split; [apply matches_after_name_setter|].
  split.
  { intros Hc. rewrite matches_after_name_setter. unfold matches_by_name.
    apply has_placeholder_contains in Hc. rewrite Hc.
    apply match_parts_filled. }
  split.
  { intros Hc.
    assert (Hno : has_placeholder name = false).
    { destruct (has_placeholder name) eqn:E; [|reflexivity].
      destruct Hc. now apply has_placeholder_contains. }
    assert (Hm : forall t, value_of (matches t (object_of (name_setter name self)))
                           = eq_ignoring_underscore name t).
    { intros t. rewrite matches_after_name_setter. unfold matches_by_name.
      now rewrite Hno. }
    split; [apply Hm|]. split.
    - intros other E. rewrite !Hm. unfold eq_ignoring_underscore. now rewrite E.
    - intros Hn Ht. rewrite Hm. now apply eq_ignoring_underscore_same_name. }
  split.
  { unfold matches. now destruct (uk_embedded _). }
  split.
  { unfold matches. now destruct (uk_embedded _). }
  intros args doc tags timeout lineno error. split; [reflexivity|].
  unfold UserKeyword_init. cbn [name_setter fst].
  unfold matches, matches_by_name, value_of, EmbeddedArguments_from_name.
  cbn [with_name uk_embedded uk_name].
  destruct (has_placeholder name); reflexivity.
Qed.
End Matching.

Lemma matches_mode_fixed_by_name_witness :
  let empty := mkUserKeyword None "" [] "" [] None None None [] None None in
  let login := object_of (name_setter "Login as ${user}" empty) in
  let browser := object_of (name_setter "Open_Browser" empty) in
  (contains_placeholder "Login as ${user}" /\
   value_of (matches (case := latin_case) "Login as admin" login) = true) /\
  (~ contains_placeholder "Open_Browser" /\
   same_name "Open_Browser" "OPENBROWSER" /\
   value_of (matches (case := latin_case) "OPENBROWSER" browser) = true).
Proof.
  cbv zeta.
  set (empty := mkUserKeyword None "" [] "" [] None None None [] None None).
  split.
  - destruct (matches_mode_fixed_by_name (case := latin_case) empty
                "Login as ${user}" "Login as admin")
      as (_ & _ & _ & _ & Hmode & _ & _ & Hembedded & _).
    assert (Hc : contains_placeholder "Login as ${user}")
      by (apply Hmode; reflexivity).
    split; [exact Hc|].
    apply (Hembedded Hc). exists ["admin"]. reflexivity.
  - destruct (matches_mode_fixed_by_name (case := latin_case) empty
                "Open_Browser" "OPENBROWSER")
      as (_ & _ & _ & _ & Hmode & _ & _ & _ & Hliteral & _).
    assert (Hc : ~ contains_placeholder "Open_Browser").
    { intros Hc. apply Hmode in Hc. discriminate Hc. }
    assert (Hs : same_name "Open_Browser" "OPENBROWSER").
    { apply normal_same_name. reflexivity. }
    split; [exact Hc|]. split; [exact Hs|].
    destruct (Hliteral Hc) as (_ & _ & Hascii).
    now apply (Hascii eq_refl eq_refl).
Defined.

(** The example of the specification: "Login as ${user}" matches
    "Login as admin" with user = admin, and does not match "Login as". *)
Example login_as_user :
  let keyword := fst (UserKeyword_init "Login as ${user}" [] "" [] None None None) in
  option_map (fun e => EmbeddedArguments_match e "Login as admin") (uk_embedded keyword)
    = Some (Some ["admin"]) /\
  value_of (matches (case := latin_case) "Login as admin" keyword) = true /\
  value_of (matches (case := latin_case) "Login as" keyword) = false.
Proof. repeat split. Qed.

Example literal_name_matches :
  let keyword := fst (UserKeyword_init "Open_Browser" [] "" [] None None None) in
  value_of (matches (case := latin_case) "open browser" keyword) = false /\
  value_of (matches (case := latin_case) "OPENBROWSER" keyword) = true /\
  value_of (matches (case := latin_case) "open_browser" keyword) = true.
Proof. repeat split. Qed.

(** A keyword object is truthy when it has a name. *)
Lemma truthy_fixture (fixture : Keyword) :
  truthy (Some fixture) = negb (kw_name fixture =? "").
Proof. reflexivity. Qed.

Lemma has_setup_exists (self : UserKeyword) :
  value_of (has_setup self) = true <->
  exists fixture, uk__setup self = Some fixture /\ kw_name fixture <> "".
Proof.
  unfold has_setup, value_of. cbn [fst].
  destruct (uk__setup self) as [fixture|].
  - rewrite truthy_fixture, negb_true_iff. split.
    + intros E. exists fixture. split; [reflexivity|].
      now apply String.eqb_neq.
    + intros (fixture' & [= <-] & N). now apply String.eqb_neq.
  - split; [discriminate|]. intros (fixture & E & _). discriminate.
Qed.

Lemma has_teardown_exists (self : UserKeyword) :
  value_of (has_teardown self) = true <->
  exists fixture, uk__teardown self = Some fixture /\ kw_name fixture <> "".
Proof.
  unfold has_teardown, value_of. cbn [fst].
  destruct (uk__teardown self) as [fixture|].
  - rewrite truthy_fixture, negb_true_iff. split.
    + intros E. exists fixture. split; [reflexivity|].
      now apply String.eqb_neq.
    + intros (fixture' & [= <-] & N). now apply String.eqb_neq.
  - split; [discriminate|]. intros (fixture & E & _). discriminate.
Qed.

(** C9.  [has_setup] and [has_teardown] answer from the slot and leave the
    keyword as it is, building nothing.  Their answer is true exactly when
    the slot holds a fixture that has a name: it is true after a named
    keyword was assigned as setup or teardown, and false on a keyword whose
    slot is [None].  Reading [setup] or [teardown] on such a keyword builds
    the empty fixture of that type and stores it in the slot, so the slot
    is not [None] afterwards, while [has_setup]/[has_teardown] are still
    false; reading a fixture that is there builds nothing. *)
Theorem fixtures_built_on_first_read (self : UserKeyword) :
  (object_of (has_setup self) = self /\ calls_of (has_setup self) = []) /\
  (object_of (has_teardown self) = self /\ calls_of (has_teardown self) = []) /\
  (value_of (has_setup self) = true <->
   exists fixture, uk__setup self = Some fixture /\ kw_name fixture <> "") /\
  (value_of (has_teardown self) = true <->
   exists fixture, uk__teardown self = Some fixture /\ kw_name fixture <> "") /\
  (forall fixture : Keyword,
     let assigned := object_of (setup_setter (Some fixture) self) in
     value_of (has_setup assigned) = negb (kw_name fixture =? "") /\
     uk__setup (object_of (has_setup assigned)) = uk__setup assigned /\
     value_of (setup assigned) =
       mkKeyword (kw_name fixture) (kw_args fixture) (kw_assign fixture) SETUP
                 (kw_lineno fixture)) /\
  (forall fixture : Keyword,
     let assigned := object_of (teardown_setter (Some fixture) self) in
     value_of (has_teardown assigned) = negb (kw_name fixture =? "") /\
     uk__teardown (object_of (has_teardown assigned)) = uk__teardown assigned /\
     value_of (teardown assigned) =
       mkKeyword (kw_name fixture) (kw_args fixture) (kw_assign fixture) TEARDOWN
                 (kw_lineno fixture)) /\
  (uk__setup self = None ->
     value_of (has_setup self) = false /\
     uk__setup (object_of (has_setup self)) = None /\
     uk__setup (object_of (setup self)) = Some (mkKeyword "" [] [] SETUP None) /\
     value_of (setup self) = mkKeyword "" [] [] SETUP None /\
     calls_of (setup self) = [create_fixture_call None SETUP] /\
     value_of (has_setup (object_of (setup self))) = false) /\
  (uk__teardown self = None ->
     value_of (has_teardown self) = false /\
     uk__teardown (object_of (has_teardown self)) = None /\
     uk__teardown (object_of (teardown self)) = Some (mkKeyword "" [] [] TEARDOWN None) /\
     value_of (teardown self) = mkKeyword "" [] [] TEARDOWN None /\
     calls_of (teardown self) = [create_fixture_call None TEARDOWN] /\
     value_of (has_teardown (object_of (teardown self))) = false) /\
  (forall fixture, uk__setup self = Some fixture ->
     setup self = (fixture, self, [])) /\
  (forall fixture, uk__teardown self = Some fixture ->
     teardown self = (fixture, self, [])).
Proof.
  split; [split; reflexivity|]. split; [split; reflexivity|].
  split; [apply has_setup_exists|]. split; [apply has_teardown_exists|].
  split; [intros fixture; cbv zeta; repeat split|].
  split; [intros fixture; cbv zeta; repeat split|].
  split; [|split; [|split]].
  - intros E. unfold has_setup, setup, object_of, value_of, calls_of.
    rewrite E. cbn. rewrite E. repeat split.
  - intros E. unfold has_teardown, teardown, object_of, value_of, calls_of.
    rewrite E. cbn. rewrite E. repeat split.
  - intros fixture E. unfold setup. now rewrite E.
  - intros fixture E. unfold teardown. now rewrite E.
Qed.

Lemma fixtures_built_on_first_read_witness :
  let keyword := fst (UserKeyword_init "Open Browser" [] "" [] None None None) in
  let close := mkKeyword "Close Browser" [] [] KEYWORD (Some 9%Z) in
  let closing := object_of (teardown_setter (Some close) keyword) in
  (uk__teardown keyword = None /\
   value_of (has_teardown keyword) = false /\
   uk__teardown (object_of (has_teardown keyword)) = None /\
   uk__teardown (object_of (teardown keyword)) = Some (mkKeyword "" [] [] TEARDOWN None)) /\
  (value_of (has_teardown closing) = true /\
   value_of (has_setup closing) = false /\
   uk__teardown closing = Some (mkKeyword "Close Browser" [] [] TEARDOWN (Some 9%Z))).
Proof.
  cbv zeta.
  set (keyword := fst (UserKeyword_init "Open Browser" [] "" [] None None None)).
  set (close := mkKeyword "Close Browser" [] [] KEYWORD (Some 9%Z)).
  split.
  - split; [reflexivity|].
    destruct (fixtures_built_on_first_read keyword)
      as (_ & _ & _ & _ & _ & _ & _ & Ht & _).
    destruct (Ht eq_refl) as (A & B & C & _).
    split; [exact A|]. split; [exact B|exact C].
  - destruct (fixtures_built_on_first_read
                (object_of (teardown_setter (Some close) keyword)))
      as (_ & _ & _ & Hhas & _ & _ & Hs & _).
    split; [|split; [|reflexivity]].
    + apply Hhas. eexists. split; [reflexivity|discriminate].
    + exact (proj1 (Hs eq_refl)).
Defined.

(** [to_dict] reads [setup] and [teardown] only when the keyword has them:
    it builds no fixture and leaves the keyword as it is. *)
Lemma UserKeyword_to_dict_reads_only (self : UserKeyword) :
  UserKeyword_to_dict self = (UserKeyword_record self, self, []).
Proof.
  destruct self as [emb name args doc tags timeout lineno error body s t].
  destruct s as [[[|c1 n1] a1 b1 t1 l1]|], t as [[[|c2 n2] a2 b2 t2 l2]|];
    reflexivity.
Qed.

(** ** Keys of the serialised records *)

Lemma dict_has_set_eq k v d : dict_has k (dict_set k v d) = true.
Proof. unfold dict_has. now rewrite dict_get_set_eq. Qed.

Lemma dict_has_set_ne k k' v d :
  (k =? k') = false -> dict_has k (dict_set k' v d) = dict_has k d.
Proof. intros E. unfold dict_has. now rewrite dict_get_set_ne. Qed.

Lemma dict_has_truthy_eq {A} `{Truthy A} enc k (a : A) d :
  dict_has k (set_if_truthy enc k a d) = truthy a || dict_has k d.
Proof.
  unfold dict_has. rewrite dict_get_truthy_eq. now destruct (truthy a).
Qed.

Lemma dict_has_truthy_ne {A} `{Truthy A} enc k k' (a : A) d :
  (k =? k') = false -> dict_has k (set_if_truthy enc k' a d) = dict_has k d.
Proof. intros E. unfold dict_has. now rewrite dict_get_truthy_ne. Qed.

Lemma dict_has_omit_ne {A} (isd : A -> bool) enc k k' a d :
  (k =? k') = false -> dict_has k (omit_default isd enc k' a d) = dict_has k d.
Proof. intros E. unfold dict_has. now rewrite dict_get_omit_ne. Qed.

Lemma dict_has_cons_ne k k' v d :
  (k =? k') = false -> dict_has k ((k', v) :: d) = dict_has k d.
Proof. intros E. unfold dict_has. cbn. now rewrite E. Qed.

Lemma dict_has_cons_eq k v d : dict_has k ((k, v) :: d) = true.
Proof. unfold dict_has. cbn. now rewrite String.eqb_refl. Qed.

Lemma dict_has_nil k : dict_has k [] = false.
Proof. reflexivity. Qed.

(** Whether a key is in a record built by the assignments of [to_dict]. *)
Ltac written :=
  repeat first
    [ rewrite dict_has_set_ne by reflexivity
    | rewrite dict_has_truthy_ne by reflexivity
    | rewrite dict_has_omit_ne by reflexivity
    | rewrite dict_has_cons_ne by reflexivity
    | rewrite dict_has_set_eq
    | rewrite dict_has_truthy_eq
    | rewrite dict_has_cons_eq
    | rewrite dict_has_nil
    | rewrite orb_false_r
    | rewrite orb_true_r ];
  try reflexivity.

Ltac open_to_dict :=
  unfold Keyword_to_dict, model_Keyword_to_dict,
         For_to_dict, model_For_to_dict, While_to_dict, model_While_to_dict,
         IfBranch_to_dict, model_IfBranch_to_dict, If_to_dict, model_If_to_dict,
         TryBranch_to_dict, model_TryBranch_to_dict, Try_to_dict, model_Try_to_dict,
         Var_to_dict, model_Var_to_dict, Return_to_dict, model_Return_to_dict,
         Continue_to_dict, model_Continue_to_dict,
         Break_to_dict, model_Break_to_dict, Error_to_dict, model_Error_to_dict,
         TestCase_to_dict, model_TestCase_to_dict, UserKeyword_record,
         ResourceFile_to_dict, Variable_to_dict, Import_to_dict, TestSuite_to_dict,
         put_seq, put_str, put_opt_str.






(** ** Derived attributes: [source] and [name] *)

Lemma ResourceFile_source_cases (rf : ResourceFile) :
  ResourceFile_source rf =
  match rf__source rf with
  | Some path => Some path
  | None =>
    match rf_owner rf with
    | Some owner => suite_source owner
    | None => None
    end
  end.
Proof.
  unfold ResourceFile_source.
  destruct (rf__source rf) as [path|]; [reflexivity|].
  destruct (rf_owner rf); reflexivity.
Qed.

Lemma nearest_singleton (path : option Path) : nearest [path] = path.
Proof. now destruct path. Qed.

Lemma owner_source_nearest (owner : option ResourceFile) :
  owner_source owner = nearest (stored_above_owner owner).
Proof.
  destruct owner as [rf|]; [|reflexivity].
  cbn [owner_source stored_above_owner]. rewrite ResourceFile_source_cases.
  destruct (rf__source rf) as [path|]; [reflexivity|].
  destruct (rf_owner rf) as [suite|]; [|reflexivity].
  change (nearest [None; suite_source suite]) with (nearest [suite_source suite]).
  now rewrite nearest_singleton.
Qed.

Lemma parent_source_nearest : forall p : parent_link,
  parent_source p = nearest (stored_paths p).
Proof.
  fix IH 1. intros [suite|parent|owner|parent]; cbn [parent_source stored_paths].
  - now rewrite nearest_singleton.
  - destruct parent as [suite|]; [|reflexivity].
    change (nearest [None; suite_source suite]) with (nearest [suite_source suite]).
    now rewrite nearest_singleton.
  - apply owner_source_nearest.
  - destruct parent as [p|]; [apply IH|reflexivity].
Qed.

(** C8.  [source] is computed from the links and stored in no body item: a
    body item without parent has no source, a body item with a parent has
    the source of the parent, which is the nearest path stored above it (in
    a resource file or in a suite); the source of a resource file is its
    own path when it has one, else the source of the suite that owns it,
    else [None]; the source of a user keyword, of a variable and of an
    import is the source of the resource file that owns it, [None] without
    owner. *)
Theorem source_is_derived :
  WithSource_source None = None /\
  (forall parent, WithSource_source (Some parent) = parent_source parent) /\
  (forall parent, WithSource_source (Some parent) = nearest (stored_paths parent)) /\
  (forall rf path, rf__source rf = Some path -> ResourceFile_source rf = Some path) /\
  (forall rf suite, rf__source rf = None -> rf_owner rf = Some suite ->
     ResourceFile_source rf = suite_source suite) /\
  (forall rf, rf__source rf = None -> rf_owner rf = None ->
     ResourceFile_source rf = None) /\
  (forall rf,
     UserKeyword_source (Some rf) = ResourceFile_source rf /\
     Variable_source (Some rf) = ResourceFile_source rf /\
     Import_source (Some rf) = ResourceFile_source rf) /\
  (UserKeyword_source None = None /\ Variable_source None = None /\
   Import_source None = None).
Proof.
  split; [reflexivity|]. split; [reflexivity|].
  split; [intros parent; apply parent_source_nearest|].
  split. { intros rf path E. now rewrite ResourceFile_source_cases, E. }
  split. { intros rf suite E O. now rewrite ResourceFile_source_cases, E, O. }
  split. { intros rf E O. now rewrite ResourceFile_source_cases, E, O. }
  split; [intros rf|]; repeat split.
Qed.



Lemma source_is_derived_witness :
  rf__source suite_resource = None /\
  rf_owner suite_resource = Some (mkTestSuite (Some (Path_of_str "/robot/tests/login.robot"))) /\
  ResourceFile_source suite_resource = Some (Path_of_str "/robot/tests/login.robot") /\
  WithSource_source
    (Some (ItemParent (Some (UserKeywordParent (Some suite_resource))))) =
  Some (Path_of_str "/robot/tests/login.robot").
Proof.
  destruct source_is_derived as (_ & Hp & _ & _ & Hs & _).
  split; [reflexivity|]. split; [reflexivity|]. split.
  - apply (Hs suite_resource _ eq_refl eq_refl).
  - rewrite Hp. reflexivity.
Defined.

(** C10.  The name of a resource file is [None] exactly when the file has
    an owner or has no source; otherwise it is the stem of its source. *)
Theorem resource_file_name (rf : ResourceFile) :
  (ResourceFile_name rf = None <->
   rf_owner rf <> None \/ ResourceFile_source rf = None) /\
  (forall path,
     rf_owner rf = None -> ResourceFile_source rf = Some path ->
     ResourceFile_name rf = Some (Path_stem path)).
Proof.
  unfold ResourceFile_name. split.
  - destruct (rf_owner rf) as [suite|]; cbn [truthy Truthy_option orb].
    + change (truthy suite) with true. cbn [orb]. split; [|reflexivity].
      intros _. left. discriminate.
    + destruct (ResourceFile_source rf) as [path|]; cbn.
      * split; [discriminate|]. intros [E|E]; [now elim E|discriminate].
      * split; [right|]; reflexivity.
  - intros path O E. rewrite O, E. reflexivity.
Qed.

Lemma resource_file_name_witness :
  rf_owner common_resource = None /\
  ResourceFile_source common_resource =
    Some (Path_of_str "/robot/resources/common.resource") /\
  ResourceFile_name common_resource = Some "common".
Proof.
  split; [reflexivity|]. split; [reflexivity|].
  apply (proj2 (resource_file_name common_resource)
               (Path_of_str "/robot/resources/common.resource"));
    reflexivity.
Defined.

Example suite_resource_has_no_name : ResourceFile_name suite_resource = None.
Proof. reflexivity. Qed.

(* ================================================================== *)
(** * Further properties of the module *)
(* ================================================================== *)

(** ** Running a VAR item *)

Section VarRun.
Context {V : Type} `{VariableScopes V} {case : CaseMapping}.


Lemma getattr_set_store (store : store_name) :
  getattr_set (V := V) (setter_suffix store) = Return_ (store_setter store).
Proof. destruct store; reflexivity. Qed.


Lemma Var_run_live (self : Var) (context : Context V) :
  truthy (var_error self) = false -> dry_run context = false ->
  Var_run self context true =
  match _get_scope self (variables context) with
  | inl raised =>
    (reported (VarItem self) (RAISED raised) context, Some raised)
  | inr scope =>
    match getattr_set scope with
    | inl raised =>
      (reported (VarItem self) (RAISED raised) context, Some raised)
    | inr setter =>
      match resolve (var_name self) (var_value self) (var_separator self)
                    (variables context) with
      | inl err =>
        (reported (VarItem self) (RAISED (setting_failed self err)) context,
         Some (setting_failed self err))
      | inr value =>
        match setter (variables context) (var_name self) value with
        | inl err =>
          (reported (VarItem self) (RAISED (setting_failed self err)) context,
           Some (setting_failed self err))
        | inr vars =>
          (reported (VarItem self) PASSED (with_variables vars context), None)
        end
      end
    end
  end.
Proof.
  intros He Hd. unfold Var_run, StatusReporter.
  cbn [dry_run variables record_status]. rewrite He, Hd. cbn [negb].
  destruct (_get_scope self (variables context)) as [raised|scope];
    [reflexivity|].
  destruct (getattr_set scope) as [raised|setter]; [reflexivity|].
  destruct (resolve _ _ _ _) as [err|value]; [reflexivity|].
  destruct (setter _ _ _) as [err|vars]; reflexivity.
Qed.
End VarRun.

Section VarRunProperties.
Context {V : Type} `{VariableScopes V} {case : CaseMapping}.


(** X2.  When the item has no structural error, the run is not a dry run,
    the scope resolves to a store, the value resolves and the setter of
    that store accepts it, [Var.run] raises nothing, is reported as passed,
    and the variable store is the one that setter returned: LOCAL, TEST,
    SUITE and GLOBAL go to [set_local], [set_test], [set_suite] and
    [set_global]. *)
Theorem Var_run_sets_in_resolved_store (self : Var) (context : Context V)
    (store : store_name) (value : resolved) (vars : V) :
  truthy (var_error self) = false ->
  dry_run context = false ->
  _get_scope self (variables context) = Return_ (setter_suffix store) ->
  resolve (var_name self) (var_value self) (var_separator self)
          (variables context) = inr value ->
  store_setter store (variables context) (var_name self) value = inr vars ->
  Var_run self context true =
  (reported (VarItem self) PASSED (with_variables vars context), None).
Proof.
  intros He Hd Hs Hr Hset.
  rewrite (Var_run_live self context He Hd). unfold Return_ in Hs.
  rewrite Hs, getattr_set_store, Hr. unfold Return_. now rewrite Hset.
Qed.

(** X3.  A failing scope resolution is raised as it is, a DataError, and is
    not turned into a VariableError; once the scope has resolved to a
    store, a failing value resolution and a failing setter are raised as
    VariableError "Setting variable '<name>' failed: <error>".  In the
    three cases the variable store is untouched and the item is reported
    with what was raised. *)
Theorem Var_run_failures (self : Var) (context : Context V) :
  truthy (var_error self) = false ->
  dry_run context = false ->
  (forall raised,
     _get_scope self (variables context) = Raise raised ->
     Var_run self context true =
     (reported (VarItem self) (RAISED raised) context, Some raised)) /\
  (forall store err,
     _get_scope self (variables context) = Return_ (setter_suffix store) ->
     resolve (var_name self) (var_value self) (var_separator self)
             (variables context) = inl err ->
     Var_run self context true =
     (reported (VarItem self) (RAISED (setting_failed self err)) context,
      Some (setting_failed self err))) /\
  (forall store value err,
     _get_scope self (variables context) = Return_ (setter_suffix store) ->
     resolve (var_name self) (var_value self) (var_separator self)
             (variables context) = inr value ->
     store_setter store (variables context) (var_name self) value = inl err ->
     Var_run self context true =
     (reported (VarItem self) (RAISED (setting_failed self err)) context,
      Some (setting_failed self err))).
Proof.
  intros He Hd. rewrite (Var_run_live self context He Hd).
  unfold Raise, Return_. split; [|split].
  - intros raised ->. reflexivity.
  - intros store err -> ->. now rewrite getattr_set_store.
  - intros store value err -> -> Hset. rewrite getattr_set_store.
    unfold Return_. now rewrite Hset.
Qed.
End VarRunProperties.

Lemma Var_run_sets_in_resolved_store_witness :
  let self := mkVar "${x}" ["1"; "2"] (Some "suite") (Some "-") None None in
  let context := mkContext false empty_scopes [] in
  Var_run (case := latin_case) self context true =
  (reported (VarItem self) PASSED
     (with_variables (mkScopes [] [] [("${x}", "1-2")] []) context), None).
Proof.
  cbv zeta.
  apply (Var_run_sets_in_resolved_store (V := Scopes) (case := latin_case)
           (mkVar "${x}" ["1"; "2"] (Some "suite") (Some "-") None None)
           (mkContext false empty_scopes []) SUITE
           ("1-2" : @resolved Scopes Scopes_VariableScopes)
           (mkScopes [] [] [("${x}", "1-2")] [])); reflexivity.
Defined.

Lemma Var_run_failures_witness :
  let self := mkVar "${x}" ["1"] (Some "${nowhere}") None None None in
  let context := mkContext false empty_scopes [] in
  let raised := DataError "Invalid VAR scope: Variable '${nowhere}' not found." false in
  Var_run (case := latin_case) self context true =
  (reported (VarItem self) (RAISED raised) context, Some raised).
Proof.
  cbv zeta.
  apply (proj1 (Var_run_failures (case := latin_case)
                  (mkVar "${x}" ["1"] (Some "${nowhere}") None None None)
                  (mkContext false empty_scopes []) eq_refl eq_refl)).
  reflexivity.
Defined.

(** ** Running RETURN, CONTINUE, BREAK and Error items *)

Section JumpProperties.
Context {V : Type} `{VariableScopes V}.

(** X4.  [Return.run], [Continue.run], [Break.run] and [Error.run] never
    touch the variable store.  A RETURN raises ReturnFromKeyword, with the
    values of the item, exactly when [run] is true, the item has no
    structural error and the run is not a dry run; likewise CONTINUE raises
    ContinueLoop and BREAK raises BreakLoop; an Error item raises its
    DataError exactly when [run] is true, dry run or not. *)
Theorem jump_signals_raised_exactly (context : Context V) (run : bool) :
  (forall r,
     variables (fst (Return_run r context run)) = variables context /\
     (snd (Return_run r context run) = Some (ReturnFromKeyword (ret_values r)) <->
      run = true /\ truthy (ret_error r) = false /\ dry_run context = false)) /\
  (forall c,
     variables (fst (Continue_run c context run)) = variables context /\
     (snd (Continue_run c context run) = Some ContinueLoop <->
      run = true /\ truthy (cont_error c) = false /\ dry_run context = false)) /\
  (forall b,
     variables (fst (Break_run b context run)) = variables context /\
     (snd (Break_run b context run) = Some BreakLoop <->
      run = true /\ truthy (break_error b) = false /\ dry_run context = false)) /\
  (forall e,
     variables (fst (Error_run e context run)) = variables context /\
     (snd (Error_run e context run) = Some (DataError (err_error e) false) <->
      run = true)).
Proof.
  split; [|split; [|split]].
  - intros r. unfold Return_run, StatusReporter. cbn [dry_run record_status].
    destruct run, (truthy (ret_error r)), (dry_run context); cbn;
      (split; [reflexivity|]); split;
      solve [ discriminate | intros (A & B & C); discriminate | auto ].
  - intros c. unfold Continue_run, StatusReporter. cbn [dry_run record_status].
    destruct run, (truthy (cont_error c)), (dry_run context); cbn;
      (split; [reflexivity|]); split;
      solve [ discriminate | intros (A & B & C); discriminate | auto ].
  - intros b. unfold Break_run, StatusReporter. cbn [dry_run record_status].
    destruct run, (truthy (break_error b)), (dry_run context); cbn;
      (split; [reflexivity|]); split;
      solve [ discriminate | intros (A & B & C); discriminate | auto ].
  - intros e. unfold Error_run, StatusReporter. cbn [dry_run record_status].
    destruct run; cbn; (split; [reflexivity|]); split;
      solve [ discriminate | auto ].
Qed.
End JumpProperties.

(** ** Records in the format of Robot Framework 6.1 *)

Lemma dict_get_del_eq (k : string) (d : DataDict) : dict_get k (dict_del k d) = None.
Proof.
  induction d as [|[k' v] d IH]; cbn; [reflexivity|].
  destruct (String.eqb_spec k k') as [->|N]; [exact IH|].
  cbn. destruct (String.eqb_spec k k'); [contradiction|exact IH].
Qed.

Lemma dict_get_del_ne (k k' : string) (d : DataDict) :
  k <> k' -> dict_get k (dict_del k' d) = dict_get k d.
Proof.
  intros N. induction d as [|[k2 v] d IH]; cbn; [reflexivity|].
  destruct (String.eqb_spec k' k2) as [->|N2].
  - destruct (String.eqb_spec k k2); [contradiction|exact IH].
  - cbn. now rewrite IH.
Qed.

Lemma rename_key_moves (old new : string) (data : DataDict) :
  old <> new ->
  match dict_get old data with
  | Some v =>
    dict_get new (rename_key old new data) = Some v /\
    dict_get old (rename_key old new data) = None /\
    (forall k, k <> old -> k <> new ->
       dict_get k (rename_key old new data) = dict_get k data)
  | None => rename_key old new data = data
  end.
Proof.
  intros N. unfold rename_key.
  destruct (dict_get old data) as [v|]; [|reflexivity].
  split; [apply dict_get_set_eq|]. split.
  - rewrite dict_get_set_ne by (now apply String.eqb_neq).
    apply dict_get_del_eq.
  - intros k Ko Kn.
    rewrite dict_get_set_ne by (now apply String.eqb_neq).
    now apply dict_get_del_ne.
Qed.

(** X5.  What [For.from_dict] and [TryBranch.from_dict] do to a record
    before the node is built.  A record without the legacy key ("variables"
    for a loop, "variable" for a branch) is left as it is.  With the legacy
    key, its value is found under "assign" afterwards, also when the record
    had an "assign" of its own, which is overwritten; the legacy key is
    gone; every other key keeps its value. *)
Theorem legacy_key_renamed (data : DataDict) :
  (dict_get "variables" data = None ->
     rename_key "variables" "assign" data = data) /\
  (forall v, dict_get "variables" data = Some v ->
     let renamed := rename_key "variables" "assign" data in
     dict_get "assign" renamed = Some v /\
     dict_has "variables" renamed = false /\
     forall k, k <> "variables" -> k <> "assign" ->
       dict_get k renamed = dict_get k data) /\
  (dict_get "variable" data = None ->
     rename_key "variable" "assign" data = data) /\
  (forall v, dict_get "variable" data = Some v ->
     let renamed := rename_key "variable" "assign" data in
     dict_get "assign" renamed = Some v /\
     dict_has "variable" renamed = false /\
     forall k, k <> "variable" -> k <> "assign" ->
       dict_get k renamed = dict_get k data).
Proof.
  assert (N1 : "variables" <> "assign") by discriminate.
  assert (N2 : "variable" <> "assign") by discriminate.
  pose proof (rename_key_moves "variables" "assign" data N1) as H1.
  pose proof (rename_key_moves "variable" "assign" data N2) as H2.
  split; [|split; [|split]].
  - intros E. now rewrite E in H1.
  - intros v E. rewrite E in H1. destruct H1 as (A & B & C). cbv zeta.
    split; [exact A|]. split; [|exact C]. unfold dict_has. now rewrite B.
  - intros E. now rewrite E in H2.
  - intros v E. rewrite E in H2. destruct H2 as (A & B & C). cbv zeta.
    split; [exact A|]. split; [|exact C]. unfold dict_has. now rewrite B.
Qed.

Lemma legacy_key_renamed_witness :
  let data := [("type", VStr "FOR"); ("assign", VList [VStr "${old}"]);
               ("variables", VList [VStr "${x}"])] in
  dict_get "variables" data = Some (VList [VStr "${x}"]) /\
  dict_get "assign" (rename_key "variables" "assign" data) =
    Some (VList [VStr "${x}"]) /\
  dict_has "variables" (rename_key "variables" "assign" data) = false.
Proof.
  cbv zeta. split; [reflexivity|].
  destruct (proj1 (proj2 (legacy_key_renamed
              [("type", VStr "FOR"); ("assign", VList [VStr "${old}"]);
               ("variables", VList [VStr "${x}"])]))
              (VList [VStr "${x}"]) eq_refl) as (A & B & _).
  split; [exact A|exact B].
Defined.

(** ** Imports *)

Lemma opt_str_truthy_back (o : option string) :
  (if truthy o then as_opt as_str (opt_value str_value o) else Some None) =
  Some (keep_truthy o).
Proof.
  unfold keep_truthy. destruct o as [s|]; [|reflexivity].
  destruct (truthy (Some s)) eqn:E; reflexivity.
Qed.

Lemma lineno_truthy_back (o : option Z) :
  (if truthy o then as_opt as_int (lineno_value o) else Some None) =
  Some (keep_truthy o).
Proof.
  unfold keep_truthy. destruct o as [z|]; [|reflexivity].
  destruct (truthy (Some z)) eqn:E; reflexivity.
Qed.

Lemma seq_truthy_back (l : list string) :
  (if truthy l then as_seq (seq_value l) else Some []) = Some l.
Proof. destruct l; [reflexivity|]. apply as_seq_value. Qed.

Lemma import_type_of_name (t : import_type) :
  import_type_of (import_type_name t) = Some t.
Proof. now destruct t. Qed.

Lemma import_type_of_some (type : string) (t : import_type) :
  import_type_of type = Some t -> type = import_type_name t.
Proof.
  unfold import_type_of. cbn [find].
  destruct (String.eqb_spec (import_type_name LIBRARY) type) as [<-|_];
    [now intros [= <-]|].
  destruct (String.eqb_spec (import_type_name RESOURCE) type) as [<-|_];
    [now intros [= <-]|].
  destruct (String.eqb_spec (import_type_name VARIABLES) type) as [<-|_];
    [now intros [= <-]|].
  discriminate.
Qed.

Lemma Import_from_to_dict (i : Import) :
  Import_from_dict (Import_to_dict i) = Some (inr (restored_import i)).
Proof.
  unfold Import_from_dict.
  assert (K : forallb (fun k => str_in k ["type"; "name"; "args"; "alias"; "owner"; "lineno"])
                (dict_keys (Import_to_dict i)) = true).
  { unfold Import_to_dict.
    repeat (apply keys_within_truthy; [reflexivity|]). reflexivity. }
  rewrite K. cbn [negb].
  replace (dict_has "type" (Import_to_dict i)) with true
    by (symmetry; open_to_dict; written).
  replace (dict_has "name" (Import_to_dict i)) with true
    by (symmetry; open_to_dict; written).
  replace (dict_has "owner" (Import_to_dict i)) with false
    by (symmetry; open_to_dict; written).
  cbn [andb negb]. unfold Import_to_dict. peel.
  rewrite seq_truthy_back, opt_str_truthy_back.
  change (opt_value int_value) with lineno_value. rewrite lineno_truthy_back.
  cbn [bind as_str str_value]. unfold Import_init.
  now rewrite import_type_of_name.
Qed.

(** X6.  [Import.from_dict] reads the record of [Import.to_dict] back: it
    raises nothing and builds the import with the same type, name and
    arguments, an alias that is the same unless it was the empty string
    (then [None]) and a line number that is the same unless it was 0 (then
    [None]).  So an import whose alias is not '' and whose line number is
    not 0 comes back equal. *)
Theorem Import_round_trip (i : Import) :
  Import_from_dict (Import_to_dict i) = Some (inr (restored_import i)) /\
  (set_or_none (imp_alias i) = true -> set_or_none (imp_lineno i) = true ->
   Import_from_dict (Import_to_dict i) = Some (inr i)).
Proof.
  split; [apply Import_from_to_dict|].
  intros Ha Hl. rewrite Import_from_to_dict. do 2 f_equal.
  destruct i as [t n a alias lineno]. unfold restored_import, keep_truthy.
  cbn [imp_type imp_name imp_args imp_alias imp_lineno] in *.
  destruct alias as [s|], lineno as [z|]; cbn in *;
    rewrite ?Ha, ?Hl; reflexivity.
Qed.

Lemma Import_round_trip_witness :
  let i := mkImport LIBRARY "SeleniumLibrary" ["timeout=5s"] (Some "Web") (Some 3%Z) in
  Import_from_dict (Import_to_dict i) = Some (inr i).
Proof.
  cbv zeta.
  apply (proj2 (Import_round_trip
                  (mkImport LIBRARY "SeleniumLibrary" ["timeout=5s"]
                            (Some "Web") (Some 3%Z)))); reflexivity.
Defined.

Section ImportProperties.
Context {case : CaseMapping}.

(** The names of the three types are upper-case ASCII text. *)
Lemma upper_import_type_name (t : import_type) :
  upper (import_type_name t) = import_type_name t.
Proof. destruct t; now rewrite upper_isascii. Qed.

(** X7.  [Import.__init__] accepts a type exactly when it is one of
    'LIBRARY', 'RESOURCE' and 'VARIABLES' as written, and raises ValueError
    "Invalid import type: Expected ... got '<type>'." for any other string.
    [Imports.create] accepts a type exactly when its upper-case form, the
    one of [str.upper()], is one of the three, and then the new import has
    that upper-case type, the attributes that were given, and is the last
    element of the list, the imports before it being unchanged; [library],
    [resource] and [variables] never fail. *)
Theorem import_type_validated (type name : string) (args : list string)
    (alias : option string) (lineno : option Z) (imports : list Import) :
  ((exists i, Import_init type name args alias lineno = inr i) <->
   In type ["LIBRARY"; "RESOURCE"; "VARIABLES"]) /\
  (~ In type ["LIBRARY"; "RESOURCE"; "VARIABLES"] ->
   Import_init type name args alias lineno =
   inl (ValueError (invalid_import_type type))) /\
  ((exists r, Imports_create type name args alias lineno imports = inr r) <->
   In (upper type) ["LIBRARY"; "RESOURCE"; "VARIABLES"]) /\
  (forall i imports',
     Imports_create type name args alias lineno imports = inr (i, imports') ->
     imports' = (imports ++ [i])%list /\
     import_type_name (imp_type i) = upper type /\
     imp_name i = name /\ imp_args i = args /\
     imp_alias i = alias /\ imp_lineno i = lineno) /\
  Imports_library name args alias lineno imports =
    inr (mkImport LIBRARY name args alias lineno,
         (imports ++ [mkImport LIBRARY name args alias lineno])%list) /\
  Imports_resource name lineno imports =
    inr (mkImport RESOURCE name [] None lineno,
         (imports ++ [mkImport RESOURCE name [] None lineno])%list) /\
  Imports_variables name args lineno imports =
    inr (mkImport VARIABLES name args None lineno,
         (imports ++ [mkImport VARIABLES name args None lineno])%list).
Proof.
  assert (Init : forall ty,
            (exists i, Import_init ty name args alias lineno = inr i) <->
            In ty ["LIBRARY"; "RESOURCE"; "VARIABLES"]).
  { intros ty. unfold Import_init. split.
    - intros [i E]. destruct (import_type_of ty) as [t|] eqn:Et; [|discriminate].
      apply import_type_of_some in Et. subst ty. destruct t; cbn; auto.
    - intros [<-|[<-|[<-|[]]]]; eexists; reflexivity. }
  split; [apply Init|]. split.
  { intros N. unfold Import_init.
    destruct (import_type_of type) as [t|] eqn:Et; [|reflexivity].
    apply import_type_of_some in Et. subst type. destruct t; cbn in N; tauto. }
  split.
  { unfold Imports_create. rewrite <- Init. split.
    - intros [r E]. destruct (Import_init (upper type) _ _ _ _) as [e|i];
        [discriminate|eauto].
    - intros [i E]. rewrite E. eauto. }
  split.
  { intros i imports' E. unfold Imports_create, Import_init in E.
    destruct (import_type_of (upper type)) as [t|] eqn:Et; [|discriminate].
    injection E as <- <-. apply import_type_of_some in Et.
    repeat split. now symmetry. }
  unfold Imports_library, Imports_resource, Imports_variables, Imports_create.
  rewrite !upper_import_type_name. repeat split.
Qed.
End ImportProperties.

Lemma import_type_validated_witness :
  let dotless := "l" ++ dotless_i ++ "brary" in
  Import_init dotless "OperatingSystem" [] None None =
    inl (ValueError (invalid_import_type dotless)) /\
  Imports_create (case := latin_case) dotless "OperatingSystem" [] None None [] =
    inr (mkImport LIBRARY "OperatingSystem" [] None None,
         [mkImport LIBRARY "OperatingSystem" [] None None]).
Proof.
  cbv zeta.
  pose proof (import_type_validated (case := latin_case)
                ("l" ++ dotless_i ++ "brary") "OperatingSystem" [] None None [])
    as (_ & Hbad & Hcreate & Hbuilt & _).
  split.
  - apply Hbad. cbn. intros [E|[E|[E|[]]]]; discriminate.
  - destruct (proj2 Hcreate) as [[i imports'] E]; [left; reflexivity|].
    rewrite E. destruct (Hbuilt i imports' E) as (-> & Ht & Hn & Ha & Hal & Hl).
    destruct i as [t n a al l]; cbn in *. subst.
    destruct t; try discriminate Ht. reflexivity.
Defined.

(** ** Looking keywords up in a resource file *)

Lemma fold_append_filter {A} (p : A -> bool) (l acc : list A) :
  fold_left (fun found x => if p x then (found ++ [x])%list else found) l acc =
  (acc ++ filter p l)%list.
Proof.
  revert acc. induction l as [|x l IH]; intros acc; cbn.
  - now rewrite app_nil_r.
  - rewrite IH. destruct (p x); [|reflexivity].
    now rewrite <- app_assoc.
Qed.

Lemma fold_left_ext {A B} (f g : A -> B -> A) (l : list B) (a : A) :
  (forall a b, f a b = g a b) -> fold_left f l a = fold_left g l a.
Proof.
  intros E. revert a. induction l as [|b l IH]; intros a; cbn; [reflexivity|].
  now rewrite E, IH.
Qed.

Section FindKeywords.
Context {case : CaseMapping}.

(** A literal name matches when the normalised names are equal. *)
Lemma matches_literal (kw : UserKeyword) (name : string) :
  uk_embedded kw = None ->
  value_of (matches name kw) =
  (normalize_ignoring_underscore (uk_name kw) =? normalize_ignoring_underscore name).
Proof. intros E. unfold matches. now rewrite E. Qed.

(** X8.  [find_keywords(name)] returns, in the order of the file, exactly
    the keywords of the file for which [matches(name)] is true; with
    [include_embedded] false it returns exactly those of them that have no
    embedded arguments.  So every keyword found is a keyword of the file
    that matches, and none is found twice unless it is twice in the file. *)
Theorem find_keywords_are_the_matching (self : ResourceFile) (name : string) :
  find_keywords self name true =
    filter (fun kw => value_of (matches name kw)) (rf_keywords self) /\
  find_keywords self name false =
    filter (fun kw => negb (is_some (uk_embedded kw)) && value_of (matches name kw))
           (rf_keywords self) /\
  (forall include_embedded kw,
     In kw (find_keywords self name include_embedded) ->
     In kw (rf_keywords self) /\ value_of (matches name kw) = true /\
     (include_embedded = false -> uk_embedded kw = None)).
Proof.
  assert (T : find_keywords self name true =
              filter (fun kw => value_of (matches name kw)) (rf_keywords self)).
  { unfold find_keywords.
    rewrite (fold_left_ext _
               (fun found kw => if value_of (matches name kw)
                                then (found ++ [kw])%list else found)).
    - now rewrite fold_append_filter.
    - intros found kw. destruct (uk_embedded kw) eqn:E; cbn [is_some andb].
      + reflexivity.
      + now rewrite (matches_literal kw name E). }
  assert (F : find_keywords self name false =
              filter (fun kw => negb (is_some (uk_embedded kw))
                                && value_of (matches name kw)) (rf_keywords self)).
  { unfold find_keywords.
    rewrite (fold_left_ext _
               (fun found kw => if negb (is_some (uk_embedded kw))
                                   && value_of (matches name kw)
                                then (found ++ [kw])%list else found)).
    - now rewrite fold_append_filter.
    - intros found kw. destruct (uk_embedded kw) eqn:E; cbn [is_some andb negb].
      + reflexivity.
      + now rewrite (matches_literal kw name E). }
  split; [exact T|]. split; [exact F|].
  intros [|] kw Hin.
  - rewrite T in Hin. apply filter_In in Hin. destruct Hin as [Hin Hm].
    split; [exact Hin|]. split; [exact Hm|discriminate].
  - rewrite F in Hin. apply filter_In in Hin. destruct Hin as [Hin Hm].
    apply andb_prop in Hm. destruct Hm as [He Hm].
    split; [exact Hin|]. split; [exact Hm|]. intros _.
    destruct (uk_embedded kw); [discriminate|reflexivity].
Qed.
End FindKeywords.

Lemma find_keywords_are_the_matching_witness :
  let login := fst (UserKeyword_init "Login as ${user}" [] "" [] None None None) in
  let open := fst (UserKeyword_init "Open_Browser" [] "" [] None None None) in
  let file := mkResourceFile None None "" [] [] [login; open] in
  In login (find_keywords (case := latin_case) file "Login as admin" true) /\
  In login (rf_keywords file) /\
  value_of (matches (case := latin_case) "Login as admin" login) = true.
Proof.
  cbv zeta. split; [left; reflexivity|].
  destruct (find_keywords_are_the_matching (case := latin_case)
              (mkResourceFile None None "" [] []
                 [fst (UserKeyword_init "Login as ${user}" [] "" [] None None None);
                  fst (UserKeyword_init "Open_Browser" [] "" [] None None None)])
              "Login as admin") as (_ & _ & H).
  destruct (H true (fst (UserKeyword_init "Login as ${user}" [] "" [] None None None)))
    as (A & B & _); [left; reflexivity|].
  split; [exact A|exact B].
Defined.

(** ** Qualified names *)

(** X9.  [full_name] of a user keyword is "<file>.<name>" exactly when the
    keyword is owned by a resource file that belongs to no suite and whose
    source has a non-empty stem, <file> being that stem; a keyword without
    owner, a keyword of the resource of a suite, and a keyword of a
    resource file without source have their bare name as full name. *)
Theorem full_name_qualified_by_resource_file (owner : option ResourceFile)
    (self : UserKeyword) :
  UserKeyword_full_name owner self =
  match owner with
  | Some file =>
    match rf_owner file, ResourceFile_source file with
    | None, Some path =>
      if Path_stem path =? "" then uk_name self
      else Path_stem path ++ "." ++ uk_name self
    | _, _ => uk_name self
    end
  | None => uk_name self
  end.
Proof.
  destruct owner as [file|]; [|reflexivity].
  unfold UserKeyword_full_name, ResourceFile_name.
  change (truthy file) with true. cbn [andb].
  destruct (rf_owner file) as [suite|]; [reflexivity|].
  destruct (ResourceFile_source file) as [path|]; [|reflexivity].
  cbn. unfold truthy, Truthy_str.
  destruct (Path_stem path =? ""); reflexivity.
Qed.

Example full_name_examples :
  let kw := fst (UserKeyword_init "Open Browser" [] "" [] None None None) in
  UserKeyword_full_name (Some common_resource) kw = "common.Open Browser" /\
  UserKeyword_full_name (Some suite_resource) kw = "Open Browser" /\
  UserKeyword_full_name None kw = "Open Browser".
Proof. repeat split. Qed.

(** ** Serialising a user keyword and its fixtures *)

Lemma record_after_setup (self : UserKeyword) :
  uk__setup self = None ->
  UserKeyword_record (object_of (setup self)) = UserKeyword_record self.
Proof.
  intros E. unfold setup. rewrite E.
  destruct self as [emb name args doc tags timeout lineno error body s t].
  cbn in E. subst s. reflexivity.
Qed.

Lemma record_after_teardown (self : UserKeyword) :
  uk__teardown self = None ->
  UserKeyword_record (object_of (teardown self)) = UserKeyword_record self.
Proof.
  intros E. unfold teardown. rewrite E.
  destruct self as [emb name args doc tags timeout lineno error body s t].
  cbn in E. subst t. reflexivity.
Qed.

(** X10.  [UserKeyword.to_dict] builds no fixture and leaves the keyword as
    it is, whatever its slots hold: [setup] and [teardown] are read only
    when [has_setup] and [has_teardown] are true.  And a fixture built
    earlier by reading [setup] or [teardown] on a keyword that has none
    does not show in the record: the record is the same as before the
    read. *)
Theorem to_dict_builds_no_fixture (self : UserKeyword) :
  object_of (UserKeyword_to_dict self) = self /\
  calls_of (UserKeyword_to_dict self) = [] /\
  (uk__setup self = None ->
   value_of (UserKeyword_to_dict (object_of (setup self))) =
   value_of (UserKeyword_to_dict self)) /\
  (uk__teardown self = None ->
   value_of (UserKeyword_to_dict (object_of (teardown self))) =
   value_of (UserKeyword_to_dict self)).
Proof.
  rewrite !UserKeyword_to_dict_reads_only.
  split; [reflexivity|]. split; [reflexivity|]. split.
  - intros E. unfold value_of. cbn [fst]. now apply record_after_setup.
  - intros E. unfold value_of. cbn [fst]. now apply record_after_teardown.
Qed.

Lemma to_dict_builds_no_fixture_witness :
  let kw := fst (UserKeyword_init "Open Browser" [] "" [] None None None) in
  uk__setup kw = None /\
  uk__setup (object_of (setup kw)) <> None /\
  value_of (UserKeyword_to_dict (object_of (setup kw))) =
  value_of (UserKeyword_to_dict kw).
Proof.
  cbv zeta. split; [reflexivity|]. split; [discriminate|].
  apply (proj1 (proj2 (proj2 (to_dict_builds_no_fixture
           (fst (UserKeyword_init "Open Browser" [] "" [] None None None)))))).
  reflexivity.
Defined.

(** ** The source of a resource file and the resource of a suite *)

(** X11.  After [file.source = x] the source of the file is that path, a
    string being turned into a [Path], whatever the owner of the file; the
    name of the file is then the stem of the path if the file belongs to no
    suite and [None] if it does.  After [file.source = None] the source is
    the one of the owning suite, [None] without owner.  The assignment
    changes nothing else in the file. *)
Theorem source_assigned_then_read (file : ResourceFile)
    (source : option (Path + string)) :
  let path :=
    match source with
    | Some (inl p) => Some p
    | Some (inr s) => Some (Path_of_str s)
    | None => None
    end in
  let assigned := source_setter source file in
  ResourceFile_source assigned =
    match path with
    | Some p => Some p
    | None => match rf_owner file with
              | Some suite => suite_source suite
              | None => None
              end
    end /\
  ResourceFile_name assigned =
    match rf_owner file, path with
    | None, Some p => Some (Path_stem p)
    | _, _ => None
    end /\
  rf_owner assigned = rf_owner file /\ rf_doc assigned = rf_doc file /\
  rf_imports assigned = rf_imports file /\
  rf_variables assigned = rf_variables file /\
  rf_keywords assigned = rf_keywords file.
Proof.
  cbv zeta. split; [|split; [|repeat split]].
  - rewrite ResourceFile_source_cases. unfold source_setter.
    cbn [rf__source rf_owner]. destruct source as [[p|s]|]; reflexivity.
  - unfold ResourceFile_name. rewrite ResourceFile_source_cases.
    unfold source_setter. cbn [rf__source rf_owner].
    destruct (rf_owner file) as [suite|], source as [[p|s]|]; reflexivity.
Qed.

Lemma ResourceFile_to_dict_nil (file : ResourceFile) :
  ResourceFile_to_dict file = [] <->
  rf__source file = None /\ rf_doc file = "" /\ rf_imports file = [] /\
  rf_variables file = [] /\ rf_keywords file = [].
Proof.
  split.
  - intros E.
    assert (Hs : dict_has "source" (ResourceFile_to_dict file) = false) by now rewrite E.
    assert (Hd : dict_has "doc" (ResourceFile_to_dict file) = false) by now rewrite E.
    assert (Hi : dict_has "imports" (ResourceFile_to_dict file) = false) by now rewrite E.
    assert (Hv : dict_has "variables" (ResourceFile_to_dict file) = false) by now rewrite E.
    assert (Hk : dict_has "keywords" (ResourceFile_to_dict file) = false) by now rewrite E.
    clear E. revert Hs Hd Hi Hv Hk. open_to_dict. written.
    destruct file as [[p|] o [|c d] [|i il] [|v vl] [|k kl]]; cbn;
      intros; try discriminate; repeat split.
  - intros (Hs & Hd & Hi & Hv & Hk). unfold ResourceFile_to_dict.
    now rewrite Hs, Hd, Hi, Hv, Hk.
Qed.

(** X12.  The record of a resource file is the empty dictionary exactly
    when the file has no path of its own, an empty documentation and no
    import, variable or keyword.  The record does not depend on the owner
    of the file: the source derived from the owner is never written. *)
Theorem empty_resource_record (file : ResourceFile) :
  (ResourceFile_to_dict file = [] <->
   rf__source file = None /\ rf_doc file = "" /\ rf_imports file = [] /\
   rf_variables file = [] /\ rf_keywords file = []) /\
  (forall owner,
     ResourceFile_to_dict (with_owner owner file) = ResourceFile_to_dict file).
Proof. split; [apply ResourceFile_to_dict_nil|reflexivity]. Qed.

Section SuiteResourceProperties.
Variable ResourceFile_from_dict : DataDict -> option ResourceFile.

(** X13.  The resource a suite gets from its constructor is owned by the
    suite: its source is the source of the suite, it has no name and its
    record is empty.  A record assigned to [suite.resource] becomes a
    resource file owned by the suite, so it has no name either and its
    source is its own path, or the one of the suite when it has none.  A
    resource file assigned to [suite.resource] is stored as it is: its
    owner is not changed, so a file without owner keeps its name. *)
Theorem suite_resource_owner (self : TestSuite) :
  (exists resource,
     TestSuite_init_resource ResourceFile_from_dict self = Some resource /\
     rf_owner resource = Some self /\
     ResourceFile_source resource = suite_source self /\
     ResourceFile_name resource = None /\
     ResourceFile_to_dict resource = []) /\
  (forall data built,
     ResourceFile_from_dict data = Some built ->
     exists resource,
       resource_setter ResourceFile_from_dict self (inr data) = Some resource /\
       rf_owner resource = Some self /\
       ResourceFile_name resource = None /\
       ResourceFile_source resource =
         match rf__source built with
         | Some path => Some path
         | None => suite_source self
         end /\
       ResourceFile_to_dict resource = ResourceFile_to_dict built) /\
  (forall data,
     ResourceFile_from_dict data = None ->
     resource_setter ResourceFile_from_dict self (inr data) = None) /\
  (forall file,
     resource_setter ResourceFile_from_dict self (inl file) = Some file).
Proof.
  split; [|split; [|split]].
  - eexists. split; [reflexivity|]. repeat split.
  - intros data built E. unfold resource_setter. rewrite E. cbn [option_map].
    eexists. split; [reflexivity|]. split; [reflexivity|]. split.
    { unfold ResourceFile_name, with_owner. reflexivity. }
    split; [|reflexivity].
    rewrite ResourceFile_source_cases. reflexivity.
  - intros data E. unfold resource_setter. now rewrite E.
  - reflexivity.
Qed.
End SuiteResourceProperties.

Lemma suite_resource_owner_witness :
  let suite := mkTestSuite (Some (Path_of_str "/robot/tests/login.robot")) in
  let from_dict (data : DataDict) :=
    if dict_has "source" data then None
    else Some (mkResourceFile None None "Shared keywords" [] [] []) in
  exists resource,
    resource_setter from_dict suite (inr [("doc", VStr "Shared keywords")])
      = Some resource /\
    rf_owner resource = Some suite /\
    ResourceFile_name resource = None.
Proof.
  cbv zeta.
  destruct (proj1 (proj2 (suite_resource_owner
              (fun data : DataDict =>
                 if dict_has "source" data then None
                 else Some (mkResourceFile None None "Shared keywords" [] [] []))
              (mkTestSuite (Some (Path_of_str "/robot/tests/login.robot")))))
              [("doc", VStr "Shared keywords")]
              (mkResourceFile None None "Shared keywords" [] [] []) eq_refl)
    as (resource & A & B & C & _).
  exists resource. split; [exact A|]. split; [exact B|exact C].
Defined.

(** ** Keys of the records of the containers *)

(** X14.  The records of imports, variables, user keywords and resource
    files have no other keys than those their [to_dict] names.  In
    particular the record of a variable never has its separator: two
    variables that differ only in their separator have the same record. *)
Theorem container_record_keys :
  (forall i : Import, keys_within Import_keys (Import_to_dict i)) /\
  (forall v : Variable_, keys_within Variable_keys (Variable_to_dict v)) /\
  (forall kw : UserKeyword,
     keys_within UserKeyword_keys (value_of (UserKeyword_to_dict kw))) /\
  (forall file : ResourceFile,
     keys_within ResourceFile_keys (ResourceFile_to_dict file)) /\
  (forall name value separator separator' lineno error,
     dict_has "separator"
       (Variable_to_dict (mkVariable name value separator lineno error)) = false /\
     Variable_to_dict (mkVariable name value separator lineno error) =
     Variable_to_dict (mkVariable name value separator' lineno error)).
Proof.
  split; [|split; [|split; [|split]]].
  - intros i. unfold Import_to_dict.
    repeat (apply keys_within_truthy; [reflexivity|]). reflexivity.
  - intros v. unfold Variable_to_dict.
    repeat (apply keys_within_truthy; [reflexivity|]). reflexivity.
  - intros kw. rewrite UserKeyword_to_dict_reads_only.
    unfold value_of, UserKeyword_record. cbn [fst].
    repeat first [ apply keys_within_truthy; [reflexivity|]
                 | apply keys_within_set; [reflexivity|] ].
    reflexivity.
  - intros file. unfold ResourceFile_to_dict.
    repeat (apply keys_within_truthy; [reflexivity|]). reflexivity.
  - intros name value separator separator' lineno error.
    split; [|reflexivity]. open_to_dict. written.
Qed.

(** ** Records that [Import.from_dict] refuses *)

Lemma forallb_false_In {A} (p : A -> bool) (l : list A) (x : A) :
  In x l -> p x = false -> forallb p l = false.
Proof.
  intros Hin Hp. destruct (forallb p l) eqn:E; [|reflexivity].
  rewrite forallb_forall in E. rewrite (E x Hin) in Hp. discriminate.
Qed.

(** X15.  [Import.from_dict] raises TypeError for a record with a key that
    is no parameter of the constructor and for a record without "type" or
    without "name".  A record with just a type and a name is given to the
    constructor with the defaults for the rest (no arguments, no alias, no
    line number), so the type is checked as written: 'LIBRARY' builds an
    import, 'library' raises ValueError, which [Imports.create] would have
    accepted. *)
Theorem Import_from_dict_refusals {case : CaseMapping} (data : DataDict) :
  (forall k,
     In k (dict_keys data) ->
     ~ In k ["type"; "name"; "args"; "alias"; "owner"; "lineno"] ->
     Import_from_dict data = Some (inl TypeError)) /\
  (dict_has "type" data = false \/ dict_has "name" data = false ->
   Import_from_dict data = Some (inl TypeError)) /\
  (forall type name,
     Import_from_dict [("type", VStr type); ("name", VStr name)] =
     Some (Import_init type name [] None None)) /\
  (forall name,
     Import_from_dict [("type", VStr "library"); ("name", VStr name)] =
     Some (inl (ValueError (invalid_import_type "library"))) /\
     Imports_create "library" name [] None None [] =
     inr (mkImport LIBRARY name [] None None, [mkImport LIBRARY name [] None None])).
Proof.
  split; [|split; [|split]].
  - intros k Hin Hk. unfold Import_from_dict.
    rewrite (forallb_false_In _ _ k Hin); [reflexivity|].
    unfold str_in. destruct (existsb _ _) eqn:E; [|reflexivity].
    exfalso. apply Hk. apply existsb_exists in E. destruct E as (x & Hx & Ex).
    apply String.eqb_eq in Ex. now subst x.
  - intros Hmiss. unfold Import_from_dict.
    destruct (forallb _ _); cbn [negb]; [|reflexivity].
    destruct Hmiss as [-> | ->]; [reflexivity|].
    now rewrite andb_false_r.
  - intros type name. reflexivity.
  - intros name. split; [reflexivity|].
    unfold Imports_create. now rewrite upper_isascii.
Qed.

Lemma Import_from_dict_refusals_witness :
  Import_from_dict [("type", VStr "LIBRARY"); ("name", VStr "Dialogs");
                    ("version", VStr "1")] = Some (inl TypeError) /\
  Import_from_dict [("name", VStr "Dialogs")] = Some (inl TypeError).
Proof.
  split.
  - apply (proj1 (Import_from_dict_refusals (case := latin_case)
                    [("type", VStr "LIBRARY"); ("name", VStr "Dialogs");
                     ("version", VStr "1")]) "version").
    + cbn. auto.
    + cbn. intros [E|[E|[E|[E|[E|[E|[]]]]]]]; discriminate.
  - apply (proj1 (proj2 (Import_from_dict_refusals (case := latin_case)
                           [("name", VStr "Dialogs")]))).
    left. reflexivity.
Defined.
